(** * Script-Count-pr: the pull-request daily snapshot

    A shallow embedding of the three report scripts of the repository,

    - [pr_all_repos_daily_snapshot.py] (module [Snapshot]),
    - [send_pr_report.py]              (module [SendReport]),
    - [pr_daily_report.py]             (module [PrDaily]),

    and the properties of their aggregation and classification logic.

    Conventions of the embedding.
    - The GitHub gateway ([get_all_repos], [get_prs], [get_reviews]) is a
      record of functions; a call that raises is [None].  A 404 answer is
      turned into the empty list inside the Python functions, so it is a
      [Some []] here.
    - Timestamps of pull requests are whole seconds since the epoch (the
      format [%Y-%m-%dT%H:%M:%SZ] has second precision); [now] is an
      instant in microseconds, as [datetime.now] gives it.
    - A Python [dict] is a list of pairs with distinct keys, in insertion
      order.
    - An uncaught exception is [None] in the monad [exc]. *)

From Stdlib Require Import List String Ascii ZArith Lia Bool Arith.
From Stdlib Require Import Permutation Sorted OrdersEx RelationClasses.
From Stdlib Require Floats.
Import ListNotations.

Open Scope string_scope.

(* ================================================================== *)
(** ** Exceptions *)

Definition exc (A : Type) : Type := option A.

Definition ret {A} (a : A) : exc A := Some a.
Definition raise {A} : exc A := None.
Definition bind {A B} (m : exc A) (k : A -> exc B) : exc B :=
  match m with
  | Some a => k a
  | None => None
  end.

Notation "x <- m ;; k" := (bind m (fun x => k))
  (at level 61, m at next level, right associativity).

(** [for x in xs: s = body(s, x)], stopping at the first exception. *)
Fixpoint for_each {S A} (body : S -> A -> exc S) (xs : list A) (s : S) : exc S :=
  match xs with
  | [] => ret s
  | x :: xs' => s' <- body s x ;; for_each body xs' s'
  end.

(* ================================================================== *)
(** ** Strings *)

(** [str.lower], on the ASCII letters.  The only character outside ASCII
    whose lower case is an ASCII letter is the Kelvin sign (it gives [k]),
    and none of the words the scripts compare with contains a [k]. *)
Definition lower_ascii (c : ascii) : ascii :=
  let n := nat_of_ascii c in
  if (65 <=? n)%nat && (n <=? 90)%nat then ascii_of_nat (n + 32) else c.

Fixpoint lower (s : string) : string :=
  match s with
  | EmptyString => EmptyString
  | String c s' => String (lower_ascii c) (lower s')
  end.

(** [x in xs] for a list of strings. *)
Definition str_in (x : string) (xs : list string) : bool :=
  existsb (String.eqb x) xs.

(** [sep.join(xs)]. *)
Fixpoint join (sep : string) (xs : list string) : string :=
  match xs with
  | [] => ""
  | [x] => x
  | x :: rest => x ++ sep ++ join sep rest
  end.

(* ================================================================== *)
(** ** Data model: the JSON records the scripts read *)

Record Review := mkReview {
  review_state : string;          (* r["state"] *)
  review_login : string           (* r["user"]["login"] *)
}.

Record PullRequest := mkPR {
  pr_number : Z;                  (* pr["number"] *)
  pr_login : string;              (* pr["user"]["login"] *)
  pr_created_at : Z;              (* pr["created_at"], seconds *)
  pr_merged_at : option Z;        (* pr.get("merged_at"), seconds *)
  pr_labels : list string         (* lbl["name"] for lbl in pr["labels"] *)
}.

Record Repo := mkRepo {
  repo_owner : string;            (* repo["owner"]["login"] *)
  repo_name : string              (* repo["name"] *)
}.

Inductive PrState := StOpen | StClosed.

Record Gateway := mkGateway {
  get_all_repos : exc (list Repo);
  get_prs : Repo -> PrState -> exc (list PullRequest);
  get_reviews : Repo -> Z -> exc (list Review)
}.

(* ================================================================== *)
(** ** Time *)

Definition us (seconds : Z) : Z := (seconds * 1000000)%Z.

(** [datetime(now.year, now.month, now.day)], in seconds. *)
Definition today_start (now : Z) : Z := (now / us 86400 * 86400)%Z.

(** [(now - created_at) > timedelta(seconds = n)]. *)
Definition older_than (now created seconds : Z) : bool :=
  (us seconds <? now - us created)%Z.

(** [(now - d).days]: [timedelta] keeps a floored count of days. *)
Definition days_since (now d : Z) : Z := ((now - us d) / us 86400)%Z.

(* ================================================================== *)
(** ** Classification of one pull request from its reviews *)

(** [states = [r["state"].lower() for r in reviews]] *)
Definition states (reviews : list Review) : list string :=
  map (fun r => lower (review_state r)) reviews.

(** ["changes_requested" in states] *)
Definition changes_requested (reviews : list Review) : bool :=
  str_in "changes_requested" (states reviews).

(** ["approved" not in states] *)
Definition not_approved (reviews : list Review) : bool :=
  negb (str_in "approved" (states reviews)).

(** [any(lbl['name'].lower() in ['hotfix', 'critical'] for lbl in labels)] *)
Definition hotfix (pr : PullRequest) : bool :=
  existsb (fun l => str_in (lower l) ["hotfix"; "critical"]) (pr_labels pr).

(** [any(lbl['name'].lower() == 'pending-release' for lbl in labels)] *)
Definition is_pending_release (pr : PullRequest) : bool :=
  existsb (fun l => lower l =? "pending-release") (pr_labels pr).

Definition stuck (now : Z) (pr : PullRequest) : bool :=
  older_than now (pr_created_at pr) (2 * 86400).

Definition stale (now : Z) (pr : PullRequest) : bool :=
  older_than now (pr_created_at pr) (7 * 86400).

Definition pending_review_24h (now : Z) (pr : PullRequest)
    (reviews : list Review) : bool :=
  older_than now (pr_created_at pr) (24 * 3600)
  && (List.length reviews =? 0)%nat.

(** *** The reading of the specification: latest review per reviewer

    The reviews come in submission order.  A review is the latest of its
    reviewer when no later review carries the same login. *)
Fixpoint latest_per_reviewer (reviews : list Review) : list Review :=
  match reviews with
  | [] => []
  | r :: rest =>
      if existsb (fun r' => review_login r' =? review_login r) rest
      then latest_per_reviewer rest
      else r :: latest_per_reviewer rest
  end.

Definition spec_changes_requested (reviews : list Review) : bool :=
  existsb (fun r => lower (review_state r) =? "changes_requested")
          (latest_per_reviewer reviews).

Definition spec_not_approved (reviews : list Review) : bool :=
  negb (existsb (fun r => lower (review_state r) =? "approved")
                (latest_per_reviewer reviews)).

(* ================================================================== *)
(** ** Python containers *)

Section Dict.
Context {V : Type}.

(** [d[k] = f(d[k])] on a [defaultdict]: a missing key is first given
    the default, at the end of the insertion order. *)
Fixpoint dict_update (default : V) (f : V -> V) (k : string)
    (d : list (string * V)) : list (string * V) :=
  match d with
  | [] => [(k, f default)]
  | (k', v) :: d' =>
      if k' =? k then (k', f v) :: d'
      else (k', v) :: dict_update default f k d'
  end.

Fixpoint dict_get (k : string) (d : list (string * V)) : option V :=
  match d with
  | [] => None
  | (k', v) :: d' => if k' =? k then Some v else dict_get k d'
  end.

End Dict.

(** [s.add(x)] on a set of strings kept as a duplicate-free list. *)
Definition set_add (s : list string) (x : string) : list string :=
  if str_in x s then s else (s ++ [x])%list.

(** [sorted(s)] on strings: Python orders them by code point. *)
Definition str_leb (a b : string) : bool :=
  match String_as_OT.compare a b with
  | Gt => false
  | _ => true
  end.

Fixpoint insert_sorted (x : string) (l : list string) : list string :=
  match l with
  | [] => [x]
  | y :: l' => if str_leb x y then x :: l else y :: insert_sorted x l'
  end.

Definition sorted (l : list string) : list string :=
  fold_right insert_sorted [] l.

(** [max(xs, key = key)] and [min(xs, key = key)] on a non-empty
    sequence [x :: xs]: the first extremal element. *)
Definition py_max_by {A} (key : A -> nat) (x : A) (xs : list A) : A :=
  fold_left (fun best y => if (key best <? key y)%nat then y else best) xs x.

Definition py_min_by {A} (key : A -> Z) (x : A) (xs : list A) : A :=
  fold_left (fun best y => if (key y <? key best)%Z then y else best) xs x.

(* ================================================================== *)
(** ** Per-member counters and the rows of the report *)

Record Stats := mkStats {
  raised : nat;
  merged : nat;
  st_changes_requested : nat;
  st_not_approved : nat;
  reviews_done : nat
}.

Definition default_stats : Stats := mkStats 0 0 0 0 0.

Definition incr_raised (s : Stats) : Stats :=
  mkStats (raised s + 1) (merged s) (st_changes_requested s)
          (st_not_approved s) (reviews_done s).
Definition incr_merged (s : Stats) : Stats :=
  mkStats (raised s) (merged s + 1) (st_changes_requested s)
          (st_not_approved s) (reviews_done s).
Definition incr_changes_requested (s : Stats) : Stats :=
  mkStats (raised s) (merged s) (st_changes_requested s + 1)
          (st_not_approved s) (reviews_done s).
Definition incr_not_approved (s : Stats) : Stats :=
  mkStats (raised s) (merged s) (st_changes_requested s)
          (st_not_approved s + 1) (reviews_done s).
Definition set_reviews_done (n : nat) (s : Stats) : Stats :=
  mkStats (raised s) (merged s) (st_changes_requested s)
          (st_not_approved s) n.

Definition Members := list (string * Stats).

(** [for pr in prs: members[pr["user"]["login"]][column] += 1] *)
Definition count_authors (bump : Stats -> Stats) (prs : list PullRequest)
    (members : Members) : Members :=
  fold_left (fun m pr => dict_update default_stats bump (pr_login pr) m)
            prs members.

(** [for r in reviews: reviews_done_map[r["user"]["login"]] += 1] *)
Definition count_reviewers (reviews : list Review)
    (reviews_done_map : list (string * nat)) : list (string * nat) :=
  fold_left (fun m r => dict_update 0%nat S (review_login r) m)
            reviews reviews_done_map.

(** The loop over [pr_ids_to_check]; [get_reviews] is not guarded here. *)
Definition reviews_done_of (g : Gateway) (repo : Repo) (pr_ids : list Z)
    : exc (list (string * nat)) :=
  for_each (fun m pr_id =>
              reviews <- get_reviews g repo pr_id ;;
              ret (count_reviewers reviews m))
           pr_ids [].

(** [for user, count_r in reviews_done_map.items():
       members[user]["reviews_done"] = count_r] *)
Definition store_reviews_done (reviews_done_map : list (string * nat))
    (members : Members) : Members :=
  fold_left (fun m uc =>
               dict_update default_stats (set_reviews_done (snd uc)) (fst uc) m)
            reviews_done_map members.

Record Row := mkRow {
  Member : string;
  PRs_Raised : nat;
  PRs_Merged : nat;
  Changes_Requested : nat;
  Not_Approved : nat;
  Reviews_Done : nat;
  RepoName : string
}.

Definition row_of (repo : Repo) (ms : string * Stats) : Row :=
  mkRow (fst ms) (raised (snd ms)) (merged (snd ms))
        (st_changes_requested (snd ms)) (st_not_approved (snd ms))
        (reviews_done (snd ms)) (repo_name repo).

(* ================================================================== *)
(** ** The variables of the two multi-repository scripts *)

(** What [main] accumulates across repositories. *)
Record Acc := mkAcc {
  total_raised : nat;
  total_merged : nat;
  total_changes_requested : nat;
  total_not_approved : nat;
  total_hotfix : nat;
  total_pending_24h : nat;
  pr_stuck : nat;
  pending_release : nat;
  oldest_open_date : option Z;
  review_cycle_times : list Z;    (* merged - created, in seconds *)
  member_rows : list Row
}.

Definition init_acc : Acc := mkAcc 0 0 0 0 0 0 0 0 None [] [].

(** What the loop over the open pull requests of one repository changes:
    four lists of this repository, and three variables of [main]. *)
Record OpenLoop := mkOpenLoop {
  prs_with_changes_requested : list PullRequest;
  prs_not_approved : list PullRequest;
  prs_hotfix : list PullRequest;
  prs_pending_review : list PullRequest;
  ol_pr_stuck : nat;
  ol_pending_release : nat;
  ol_oldest_open_date : option Z
}.

Definition enter_open_loop (acc : Acc) : OpenLoop :=
  mkOpenLoop [] [] [] [] (pr_stuck acc) (pending_release acc)
             (oldest_open_date acc).

Definition append_if {A} (b : bool) (l : list A) (x : A) : list A :=
  if b then (l ++ [x])%list else l.

Definition incr_if (b : bool) (n : nat) : nat :=
  if b then (n + 1)%nat else n.

(** The body both scripts share, once the reviews of [pr] are there. *)
Definition classify_open_pr (now : Z) (reviews : list Review)
    (st : OpenLoop) (pr : PullRequest) : OpenLoop :=
  mkOpenLoop
    (append_if (changes_requested reviews) (prs_with_changes_requested st) pr)
    (append_if (not_approved reviews) (prs_not_approved st) pr)
    (append_if (hotfix pr) (prs_hotfix st) pr)
    (append_if (pending_review_24h now pr reviews) (prs_pending_review st) pr)
    (incr_if (stuck now pr) (ol_pr_stuck st))
    (incr_if (is_pending_release pr) (ol_pending_release st))
    (ol_oldest_open_date st).

(** [iso_to_dt(pr["created_at"]) >= today_start] *)
Definition raised_today (now : Z) (pr : PullRequest) : bool :=
  (today_start now <=? pr_created_at pr)%Z.

(** [pr.get("merged_at") and iso_to_dt(pr["merged_at"]) >= today_start] *)
Definition merged_today (now : Z) (pr : PullRequest) : bool :=
  match pr_merged_at pr with
  | Some m => (today_start now <=? m)%Z
  | None => false
  end.

(** [(iso_to_dt(pr["merged_at"]) - iso_to_dt(pr["created_at"]))]: parsing
    an absent [merged_at] raises. *)
Definition cycle_seconds (pr : PullRequest) : exc Z :=
  match pr_merged_at pr with
  | Some m => ret (m - pr_created_at pr)%Z
  | None => raise
  end.

Definition append_cycle_times (prs : list PullRequest) (times : list Z)
    : exc (list Z) :=
  for_each (fun ts pr => d <- cycle_seconds pr ;; ret (ts ++ [d])%list)
           prs times.

(** The [try] block at the head of the loop over the repositories. *)
Definition fetch (g : Gateway) (repo : Repo)
    : exc (list PullRequest * list PullRequest) :=
  open_prs <- get_prs g repo StOpen ;;
  closed_prs <- get_prs g repo StClosed ;;
  ret (open_prs, closed_prs).

(** The member map of one repository, before the reviews are counted:
    the four loops over the authors. *)
Definition members_of
    (prs_raised_today prs_merged_today : list PullRequest)
    (prs_with_changes_requested prs_not_approved : list PullRequest)
    : Members :=
  count_authors incr_not_approved prs_not_approved
    (count_authors incr_changes_requested prs_with_changes_requested
       (count_authors incr_merged prs_merged_today
          (count_authors incr_raised prs_raised_today []))).

(** The second pass over the repositories, for the stale owners. *)
Definition add_stale_owners (now : Z) (open_prs : list PullRequest)
    (owners : list string) : list string :=
  fold_left (fun s pr => if stale now pr then set_add s (pr_login pr) else s)
            open_prs owners.

Definition stale_pr_owners (g : Gateway) (now : Z) (repos : list Repo)
    : list string :=
  fold_left (fun s repo =>
               match get_prs g repo StOpen with
               | Some open_prs => add_stale_owners now open_prs s
               | None => s
               end)
            repos [].

(** [", ".join(sorted(stale_pr_owners)) if stale_pr_owners else "-"] *)
Definition owners_stale_prs (g : Gateway) (now : Z) (repos : list Repo)
    : string :=
  match stale_pr_owners g now repos with
  | [] => "-"
  | s => join ", " (sorted s)
  end.

Definition most_active_of (rows : list Row) : string :=
  match rows with
  | [] => "-"
  | r :: rs => Member (py_max_by PRs_Raised r rs)
  end.

Definition review_heavy_of (rows : list Row) : string :=
  match rows with
  | [] => "-"
  | r :: rs => Member (py_max_by Reviews_Done r rs)
  end.

Definition oldest_open_days_of (now : Z) (oldest : option Z) : Z :=
  match oldest with
  | Some d => days_since now d
  | None => 0%Z
  end.

(* ================================================================== *)
(** ** Python numbers

    The average is computed on Python floats.  Their arithmetic is kept
    abstract: every statement below holds for any implementation of the
    four operations, IEEE 754 binary64 included.  Division by zero is the
    one operation that raises. *)

Class PyNum (F : Type) := {
  of_int : Z -> F;            (* an [int], or a [float] with that value *)
  fadd : F -> F -> F;         (* [x + y] *)
  fdiv : F -> F -> F;         (* [x / y], for [y] other than zero *)
  round2 : F -> F             (* [round(x, 2)] *)
}.

Section Numbers.
Context {F : Type} `{PyNum F}.

(** [x / n] for an integer [n]: [ZeroDivisionError] when [n] is [0]. *)
Definition truediv (x : F) (n : Z) : exc F :=
  if (n =? 0)%Z then raise else ret (fdiv x (of_int n)).

(** [sum(xs)]: the builtin starts from the integer [0]. *)
Definition py_sum (xs : list F) : F :=
  fold_left fadd xs (of_int 0).

(** [(merged - created).total_seconds() / 3600], the value the scripts
    append to [review_cycle_times]. *)
Definition hours (seconds : Z) : F :=
  fdiv (of_int seconds) (of_int 3600).

(** [round(sum(review_cycle_times) / len(review_cycle_times), 2)
     if review_cycle_times else 0] *)
Definition avg_review_time (times : list Z) : exc F :=
  match times with
  | [] => ret (of_int 0)
  | _ =>
      q <- truediv (py_sum (map hours times)) (Z.of_nat (List.length times)) ;;
      ret (round2 q)
  end.

End Numbers.

(** *** Python floats: IEEE 754 binary64

    [float(n)] of an integer is the nearest double, ties to even; [+]
    and [/] are the IEEE operations; [sum] adds from left to right.
    [round(x, 2)] works on the exact value [m * 2^e] of the double [x]:
    it takes the integer [k] nearest to a hundred times that value, ties
    to even, and returns the double nearest to [k / 100], with the sign
    of [x].  A double without fractional bits, a zero, an infinity and a
    NaN are returned as they are.  (An integer too large for a double
    raises in Python and is an infinity here; durations in seconds and
    counts of pull requests are far below that.) *)

Definition float : Type := PrimFloat.float.

Definition float_of_Z (z : Z) : float :=
  FloatOps.SF2Prim
    (SpecFloat.binary_normalize FloatOps.prec FloatOps.emax z 0 false).

(** The integer nearest to [num / den], ties to even, for [den > 0]. *)
Definition round_half_even (num den : Z) : Z :=
  let q := (num / den)%Z in
  let r := (num mod den)%Z in
  match (2 * r ?= den)%Z with
  | Lt => q
  | Gt => (q + 1)%Z
  | Eq => if Z.even q then q else (q + 1)%Z
  end.

(** The double nearest to [k / 100], for [k >= 0]: the IEEE quotient of
    the two integers, taken exactly. *)
Definition hundredths (k : Z) : float :=
  match k with
  | Zpos p =>
      FloatOps.SF2Prim
        (SpecFloat.SFdiv FloatOps.prec FloatOps.emax
           (SpecFloat.S754_finite false p 0)
           (SpecFloat.S754_finite false 100 0))
  | _ => PrimFloat.zero
  end.

Definition with_sign (negative : bool) (x : float) : float :=
  if negative then PrimFloat.opp x else x.

Definition py_round2 (x : float) : float :=
  match FloatOps.Prim2SF x with
  | SpecFloat.S754_finite s m e =>
      if (0 <=? e)%Z then x
      else with_sign s (hundredths (round_half_even (100 * Zpos m) (2 ^ (- e))))
  | _ => x
  end.

#[export] Instance Float64_PyNum : PyNum float := {
  of_int := float_of_Z;
  fadd := PrimFloat.add;
  fdiv := PrimFloat.div;
  round2 := py_round2
}.


(* ================================================================== *)
(** ** What a run ends with *)

Record Report (F : Type) := mkReport {
  date : Z;                       (* today_start *)
  vars : Acc;                     (* the totals, counters and rows *)
  oldest_open_days : Z;
  avg_review_cycle_hours : F;     (* avg_review_time *)
  reopened_failed : nat;
  most_active : string;
  review_heavy : string;
  stale_owners : string;          (* owners_stale_prs *)
  blocker_owners : string
}.

Arguments mkReport {F}.
Arguments date {F}.
Arguments vars {F}.
Arguments oldest_open_days {F}.
Arguments avg_review_cycle_hours {F}.
Arguments reopened_failed {F}.
Arguments most_active {F}.
Arguments review_heavy {F}.
Arguments stale_owners {F}.
Arguments blocker_owners {F}.

Inductive Outcome (A : Type) :=
  | Crashed                        (* an exception nobody caught *)
  | NoRepos                        (* "No repos found", no report *)
  | Reported (r : A).

Arguments Crashed {A}.
Arguments NoRepos {A}.
Arguments Reported {A}.

(** The part of [main] after the loop, the same in both scripts. *)
Definition finish {F} `{PyNum F} (g : Gateway) (now : Z) (repos : list Repo)
    (acc : Acc) : exc (Report F) :=
  avg <- avg_review_time (review_cycle_times acc) ;;
  ret (mkReport (today_start now) acc
                (oldest_open_days_of now (oldest_open_date acc))
                avg
                0%nat
                (most_active_of (member_rows acc))
                (review_heavy_of (member_rows acc))
                (owners_stale_prs g now repos)
                "-").

(* ================================================================== *)
(** ** pr_all_repos_daily_snapshot.py *)

Module Snapshot.

Definition open_pr_body (g : Gateway) (now : Z) (repo : Repo)
    (st : OpenLoop) (pr : PullRequest) : exc OpenLoop :=
  reviews <- get_reviews g repo (pr_number pr) ;;
  ret (classify_open_pr now reviews st pr).

(** [min(open_prs, key=...)] once per repository, after the loop. *)
Definition track_oldest (open_prs : list PullRequest) (oldest : option Z)
    : option Z :=
  match open_prs with
  | [] => oldest
  | pr :: rest =>
      let repo_oldest_date := pr_created_at (py_min_by pr_created_at pr rest) in
      match oldest with
      | None => Some repo_oldest_date
      | Some d => if (repo_oldest_date <? d)%Z then Some repo_oldest_date
                  else Some d
      end
  end.

(** One turn of [for repo in repos]. *)
Definition process_repo (g : Gateway) (now : Z) (acc : Acc) (repo : Repo)
    : exc Acc :=
  match fetch g repo with
  | None => ret acc                                  (* except: continue *)
  | Some (open_prs, closed_prs) =>
      let prs_raised_today :=
        filter (raised_today now) (open_prs ++ closed_prs)%list in
      let prs_merged_today := filter (merged_today now) closed_prs in
      ol <- for_each (open_pr_body g now repo) open_prs (enter_open_loop acc) ;;
      let oldest := track_oldest open_prs (oldest_open_date acc) in
      times <- append_cycle_times prs_merged_today (review_cycle_times acc) ;;
      let members :=
        members_of prs_raised_today prs_merged_today
                   (prs_with_changes_requested ol) (prs_not_approved ol) in
      let pr_ids_to_check :=
        map pr_number (prs_raised_today ++ prs_merged_today)%list in
      reviews_done_map <- reviews_done_of g repo pr_ids_to_check ;;
      let members := store_reviews_done reviews_done_map members in
      ret (mkAcc
             (total_raised acc + List.length prs_raised_today)
             (total_merged acc + List.length prs_merged_today)
             (total_changes_requested acc
              + List.length (prs_with_changes_requested ol))
             (total_not_approved acc + List.length (prs_not_approved ol))
             (total_hotfix acc + List.length (prs_hotfix ol))
             (total_pending_24h acc + List.length (prs_pending_review ol))
             (ol_pr_stuck ol)
             (ol_pending_release ol)
             oldest
             times
             (member_rows acc ++ map (row_of repo) members)%list)
  end.

Definition main_loop (g : Gateway) (now : Z) (repos : list Repo) : exc Acc :=
  for_each (process_repo g now) repos init_acc.

Definition main {F} `{PyNum F} (g : Gateway) (now : Z) : Outcome (Report F) :=
  match get_all_repos g with
  | None => Crashed
  | Some [] => NoRepos
  | Some repos =>
      match (acc <- main_loop g now repos ;; finish g now repos acc) with
      | Some r => Reported r
      | None => Crashed
      end
  end.

End Snapshot.

(* ================================================================== *)
(** ** send_pr_report.py *)

Module SendReport.

(** The oldest date is kept up to date inside the loop over the open
    pull requests. *)
Definition track_oldest (pr : PullRequest) (oldest : option Z) : option Z :=
  match oldest with
  | None => Some (pr_created_at pr)
  | Some d => if (pr_created_at pr <? d)%Z then Some (pr_created_at pr)
              else Some d
  end.

Definition open_pr_body (g : Gateway) (now : Z) (repo : Repo)
    (st : OpenLoop) (pr : PullRequest) : exc OpenLoop :=
  reviews <- get_reviews g repo (pr_number pr) ;;
  let st' := classify_open_pr now reviews st pr in
  ret (mkOpenLoop (prs_with_changes_requested st') (prs_not_approved st')
                  (prs_hotfix st') (prs_pending_review st')
                  (ol_pr_stuck st') (ol_pending_release st')
                  (track_oldest pr (ol_oldest_open_date st'))).

Definition process_repo (g : Gateway) (now : Z) (acc : Acc) (repo : Repo)
    : exc Acc :=
  match fetch g repo with
  | None => ret acc                                  (* except: continue *)
  | Some (open_prs, closed_prs) =>
      let prs_raised_today :=
        filter (raised_today now) (open_prs ++ closed_prs)%list in
      let prs_merged_today := filter (merged_today now) closed_prs in
      ol <- for_each (open_pr_body g now repo) open_prs (enter_open_loop acc) ;;
      times <- append_cycle_times prs_merged_today (review_cycle_times acc) ;;
      let members :=
        members_of prs_raised_today prs_merged_today
                   (prs_with_changes_requested ol) (prs_not_approved ol) in
      let pr_ids_to_check :=
        map pr_number (prs_raised_today ++ prs_merged_today)%list in
      reviews_done_map <- reviews_done_of g repo pr_ids_to_check ;;
      let members := store_reviews_done reviews_done_map members in
      ret (mkAcc
             (total_raised acc + List.length prs_raised_today)
             (total_merged acc + List.length prs_merged_today)
             (total_changes_requested acc
              + List.length (prs_with_changes_requested ol))
             (total_not_approved acc + List.length (prs_not_approved ol))
             (total_hotfix acc + List.length (prs_hotfix ol))
             (total_pending_24h acc + List.length (prs_pending_review ol))
             (ol_pr_stuck ol)
             (ol_pending_release ol)
             (ol_oldest_open_date ol)
             times
             (member_rows acc ++ map (row_of repo) members)%list)
  end.

Definition main_loop (g : Gateway) (now : Z) (repos : list Repo) : exc Acc :=
  for_each (process_repo g now) repos init_acc.

(** Delivery to the webhook comes after the report is built and is left
    out: the report is the one handed to [format_report_markdown]. *)
Definition main {F} `{PyNum F} (g : Gateway) (now : Z) : Outcome (Report F) :=
  match get_all_repos g with
  | None => Crashed
  | Some [] => NoRepos
  | Some repos =>
      match (acc <- main_loop g now repos ;; finish g now repos acc) with
      | Some r => Reported r
      | None => Crashed
      end
  end.

End SendReport.

(* ================================================================== *)
(** ** pr_daily_report.py: one repository, nothing guarded *)

Module PrDaily.

(** [for review in reversed(reviews): if ...: return True] *)
Fixpoint scan_changes_requested (reviews : list Review) : bool :=
  match reviews with
  | [] => false
  | review :: rest =>
      if lower (review_state review) =? "changes_requested" then true
      else scan_changes_requested rest
  end.

Definition is_changes_requested (reviews : list Review) : bool :=
  scan_changes_requested (rev reviews).

Section Numbers.
Context {F : Type} `{PyNum F}.

(** The loop of [average_review_time]: [total_seconds] and [count]. *)
Definition sum_merged (prs : list PullRequest) : F * Z :=
  fold_left (fun tc pr =>
               match pr_merged_at pr with
               | Some m => (fadd (fst tc) (of_int (m - pr_created_at pr)),
                            (snd tc + 1)%Z)
               | None => tc
               end)
            prs (of_int 0, 0%Z).

Definition average_review_time (prs : list PullRequest) : exc F :=
  let (total_seconds, count) := sum_merged prs in
  if (count =? 0)%Z then ret (of_int 0)
  else
    q <- truediv (fdiv total_seconds (of_int 3600)) count ;;
    ret (round2 q).

End Numbers.

Section Lists.
Variable g : Gateway.
Variable repo : Repo.                  (* REPO_OWNER / REPO_NAME *)

Definition prs_with_changes_requested (open_prs : list PullRequest)
    : exc (list PullRequest) :=
  for_each (fun acc pr =>
              reviews <- get_reviews g repo (pr_number pr) ;;
              ret (append_if (is_changes_requested reviews) acc pr))
           open_prs [].

Definition prs_not_approved (open_prs : list PullRequest)
    : exc (list PullRequest) :=
  for_each (fun acc pr =>
              reviews <- get_reviews g repo (pr_number pr) ;;
              ret (append_if (not_approved reviews) acc pr))
           open_prs [].

(** [recent_prs] is the first page of the pull requests of every state. *)
Definition reviews_done_map (recent_prs : list PullRequest)
    : exc (list (string * nat)) :=
  reviews_done_of g repo (map pr_number recent_prs).

End Lists.

Section Sets.
(** [", ".join(set(...))] walks the set in the interpreter's order, which
    depends on the hashes of the strings. *)
Variable set_order : list string -> list string.

(** [s or "-"] *)
Definition or_dash (s : string) : string :=
  if s =? "" then "-" else s.

Definition prs_hotfix (open_prs : list PullRequest) : list PullRequest :=
  filter hotfix open_prs.

Definition owners_stale_prs (now : Z) (open_prs : list PullRequest) : string :=
  or_dash (join ", " (set_order (map pr_login (filter (stale now) open_prs)))).

Definition blocker_owners (open_prs : list PullRequest) : string :=
  or_dash (join ", " (set_order (map pr_login (prs_hotfix open_prs)))).

End Sets.

End PrDaily.

(** An order is one a set can be walked in when it lists the elements
    once each. *)
Definition set_order_ok (set_order : list string -> list string) : Prop :=
  forall l, NoDup (set_order l) /\ forall x, In x (set_order l) <-> In x l.

(** One such order: by first appearance. *)
Definition first_seen_order (l : list string) : list string :=
  fold_left set_add l [].

(* ================================================================== *)
(** ** The words of the specification, for the statements below *)

(** A repository is retrieved when both listings of the [try] block
    come back. *)
Definition retrieved (g : Gateway) (repo : Repo) : bool :=
  match fetch g repo with
  | Some _ => true
  | None => false
  end.

(** Section 4.4: totals are sums, rows are concatenated, the oldest open
    date is the minimum, review-cycle durations are pooled. *)
Definition min_date (a b : option Z) : option Z :=
  match a, b with
  | None, _ => b
  | _, None => a
  | Some x, Some y => Some (Z.min x y)
  end.

Definition combine (a b : Acc) : Acc :=
  mkAcc (total_raised a + total_raised b)
        (total_merged a + total_merged b)
        (total_changes_requested a + total_changes_requested b)
        (total_not_approved a + total_not_approved b)
        (total_hotfix a + total_hotfix b)
        (total_pending_24h a + total_pending_24h b)
        (pr_stuck a + pr_stuck b)
        (pending_release a + pending_release b)
        (min_date (oldest_open_date a) (oldest_open_date b))
        (review_cycle_times a ++ review_cycle_times b)%list
        (member_rows a ++ member_rows b)%list.

Definition same_totals (a b : Acc) : Prop :=
  total_raised a = total_raised b /\
  total_merged a = total_merged b /\
  total_changes_requested a = total_changes_requested b /\
  total_not_approved a = total_not_approved b /\
  total_hotfix a = total_hotfix b /\
  total_pending_24h a = total_pending_24h b /\
  pr_stuck a = pr_stuck b /\
  pending_release a = pending_release b.

(** The sum of a column of the member table. *)
Definition column (col : Row -> nat) (rows : list Row) : nat :=
  list_sum (map col rows).

Definition totals_match_rows (acc : Acc) : Prop :=
  column PRs_Raised (member_rows acc) = total_raised acc /\
  column PRs_Merged (member_rows acc) = total_merged acc /\
  column Changes_Requested (member_rows acc) = total_changes_requested acc /\
  column Not_Approved (member_rows acc) = total_not_approved acc.

(** The durations of the pull requests merged today, over the
    repositories that were retrieved, in the order of the run. *)
Definition duration (pr : PullRequest) : Z :=
  match pr_merged_at pr with
  | Some m => (m - pr_created_at pr)%Z
  | None => 0%Z
  end.


(** How many of [reviews] the login [u] submitted. *)
Definition reviews_by (u : string) (reviews : list Review) : nat :=
  List.length (filter (fun r => review_login r =? u) reviews).

(** The reviews [u] submitted on the pull requests numbered [pr_ids],
    each number looked up once per occurrence in the list. *)
Definition reviews_on (g : Gateway) (repo : Repo) (u : string)
    (pr_ids : list Z) : nat :=
  list_sum (map (fun n => match get_reviews g repo n with
                          | Some rs => reviews_by u rs
                          | None => 0%nat
                          end) pr_ids).

(** Section 4.3, step 3: the pull requests raised today or merged today,
    each one once. *)
Definition todays_pr_ids (now : Z) (open_prs closed_prs : list PullRequest)
    : list Z :=
  nodup Z.eq_dec
    (map pr_number (filter (raised_today now) (open_prs ++ closed_prs)
                    ++ filter (merged_today now) closed_prs))%list.

(** Both multi-repository scripts at once. *)
Definition both_loops (P : (Gateway -> Z -> list Repo -> exc Acc) -> Prop)
    : Prop :=
  P Snapshot.main_loop /\ P SendReport.main_loop.

(* ================================================================== *)
(** ** One repository's contribution, in closed form

    The gateway is a function, so each loop of [process_repo] has a
    closed form: it raises exactly when one of the calls it makes raises,
    and otherwise it filters and counts. *)

Definition reviews_of (g : Gateway) (repo : Repo) (n : Z) : list Review :=
  match get_reviews g repo n with
  | Some rs => rs
  | None => []
  end.

Definition reviews_ok (g : Gateway) (repo : Repo) (n : Z) : bool :=
  match get_reviews g repo n with
  | Some _ => true
  | None => false
  end.

Definition pr_reviews (g : Gateway) (repo : Repo) (pr : PullRequest)
    : list Review :=
  reviews_of g repo (pr_number pr).

Definition min_created (prs : list PullRequest) : option Z :=
  match prs with
  | [] => None
  | pr :: rest =>
      Some (fold_left Z.min (map pr_created_at rest) (pr_created_at pr))
  end.

Definition count_all_reviewers (g : Gateway) (repo : Repo) (pr_ids : list Z)
    : list (string * nat) :=
  fold_left (fun m n => count_reviewers (reviews_of g repo n) m) pr_ids [].

Definition repo_members (g : Gateway) (now : Z) (repo : Repo)
    (open_prs closed_prs : list PullRequest) : Members :=
  let prs_raised_today :=
    filter (raised_today now) (open_prs ++ closed_prs)%list in
  let prs_merged_today := filter (merged_today now) closed_prs in
  store_reviews_done
    (count_all_reviewers g repo
       (map pr_number (prs_raised_today ++ prs_merged_today)%list))
    (members_of prs_raised_today prs_merged_today
       (filter (fun pr => changes_requested (pr_reviews g repo pr)) open_prs)
       (filter (fun pr => not_approved (pr_reviews g repo pr)) open_prs)).

(** What a repository adds to the variables of [main]. *)
Definition repo_aggregate (g : Gateway) (now : Z) (repo : Repo) : Acc :=
  match fetch g repo with
  | None => init_acc
  | Some (open_prs, closed_prs) =>
      mkAcc
        (List.length (filter (raised_today now) (open_prs ++ closed_prs)%list))
        (List.length (filter (merged_today now) closed_prs))
        (List.length
           (filter (fun pr => changes_requested (pr_reviews g repo pr))
                   open_prs))
        (List.length
           (filter (fun pr => not_approved (pr_reviews g repo pr)) open_prs))
        (List.length (filter hotfix open_prs))
        (List.length
           (filter (fun pr => pending_review_24h now pr (pr_reviews g repo pr))
                   open_prs))
        (List.length (filter (stuck now) open_prs))
        (List.length (filter is_pending_release open_prs))
        (min_created open_prs)
        (map duration (filter (merged_today now) closed_prs))
        (map (row_of repo) (repo_members g now repo open_prs closed_prs))
  end.

(** Whether every unguarded call made for a repository comes back. *)
Definition repo_ok (g : Gateway) (now : Z) (repo : Repo) : bool :=
  match fetch g repo with
  | None => true
  | Some (open_prs, closed_prs) =>
      forallb (fun pr => reviews_ok g repo (pr_number pr)) open_prs
      && forallb (reviews_ok g repo)
           (map pr_number
                (filter (raised_today now) (open_prs ++ closed_prs)
                 ++ filter (merged_today now) closed_prs)%list)
  end.

(** Section 4.4: the reduction of the aggregates. *)
Definition reduce (aggregates : list Acc) : Acc :=
  fold_left combine aggregates init_acc.

(** The sum of a counter over a member map. *)
Definition stat_sum (f : Stats -> nat) (m : Members) : nat :=
  list_sum (map (fun p => f (snd p)) m).

(** [d.get(k, default)] *)
Definition dict_get_or {V} (default : V) (k : string) (d : list (string * V))
    : V :=
  match dict_get k d with
  | Some v => v
  | None => default
  end.

(** What the order of the reduction must not change: the totals, the
    oldest open date and the pool of review-cycle durations. *)
Definition same_aggregates (a b : Acc) : Prop :=
  same_totals a b
  /\ oldest_open_date a = oldest_open_date b
  /\ Permutation (review_cycle_times a) (review_cycle_times b).

(** Two runs agree when both crash or both end with the same aggregates. *)
Definition same_outcome (x y : exc Acc) : Prop :=
  match x, y with
  | Some a, Some b => same_aggregates a b
  | None, None => True
  | _, _ => False
  end.

(** The durations, in seconds, of the merged pull requests among [prs]. *)
Definition merged_durations (prs : list PullRequest) : list Z :=
  flat_map (fun pr => match pr_merged_at pr with
                      | Some m => [(m - pr_created_at pr)%Z]
                      | None => []
                      end) prs.

(** Strictly increasing in code-point order: sorted, and without
    duplicates. *)
Definition str_lt (a b : string) : Prop := String_as_OT.lt a b.

(** The authors of the stale open pull requests of the repositories
    whose open pull requests could be listed. *)
Definition stale_author (g : Gateway) (now : Z) (repos : list Repo)
    (u : string) : Prop :=
  exists repo open_prs pr,
    In repo repos /\ get_prs g repo StOpen = Some open_prs
    /\ In pr open_prs /\ stale now pr = true /\ pr_login pr = u.

(** [pr_ids_to_check], as [main] builds it: the numbers of the pull
    requests raised today followed by those of the ones merged today. *)
Definition pr_ids_to_check (now : Z) (open_prs closed_prs : list PullRequest)
    : list Z :=
  map pr_number (filter (raised_today now) (open_prs ++ closed_prs)
                 ++ filter (merged_today now) closed_prs)%list.

(** The pull requests of a repository that add to a counter of their
    author: raised today, merged today, or open and classified
    changes-requested or not-approved. *)
Definition counted_pr (g : Gateway) (now : Z) (repo : Repo)
    (open_prs closed_prs : list PullRequest) (pr : PullRequest) : Prop :=
  In pr (filter (raised_today now) (open_prs ++ closed_prs))
  \/ In pr (filter (merged_today now) closed_prs)
  \/ (In pr open_prs
      /\ (changes_requested (pr_reviews g repo pr) = true
          \/ not_approved (pr_reviews g repo pr) = true)).

(** Every login in the map has a positive count, and is there once. *)
Definition counts_ok (m : list (string * nat)) : Prop :=
  NoDup (map fst m) /\ forall k c, dict_get k m = Some c -> (0 < c)%nat.

(* ================================================================== *)
(** ** The HTTP layer under the gateway

    [get_all_repos] and the two [get_prs] are the same loop over the
    pages of a listing; they differ in one line, the answer to a 404,
    which [get_prs] of the multi-repository scripts turns into an empty
    result.  A request that raises is [None]; [json] is [None] when the
    body does not parse.  The loop has no bound of its own, so it runs on
    fuel: [None] is a loop still running. *)

Record Response (A : Type) := mkResponse {
  status_code : Z;
  json : exc (list A)
}.

Arguments mkResponse {A}.
Arguments status_code {A}.
Arguments json {A}.

(** [resp.raise_for_status()]: an error for the 4xx and 5xx codes. *)
Definition raise_for_status {A} (resp : Response A) : exc unit :=
  if (400 <=? status_code resp)%Z && (status_code resp <? 600)%Z
  then raise else ret tt.

Fixpoint paginate {A} (not_found_is_empty : bool)
    (http : nat -> exc (Response A)) (fuel : nat) (page : nat)
    (items : list A) : option (exc (list A)) :=
  match fuel with
  | O => None
  | S fuel' =>
      match http page with
      | None => Some raise
      | Some resp =>
          if not_found_is_empty && (status_code resp =? 404)%Z
          then Some (ret [])                      (* return [] *)
          else
            match raise_for_status resp, json resp with
            | Some _, Some [] => Some (ret items)  (* break *)
            | Some _, Some data =>
                paginate not_found_is_empty http fuel' (S page)
                         (items ++ data)%list
            | _, _ => Some raise
            end
      end
  end.

Module Http.

(** [get_prs] of [pr_all_repos_daily_snapshot.py] and [send_pr_report.py],
    for one owner, repository and state. *)
Definition get_prs {A} (http : nat -> exc (Response A)) (fuel : nat)
    : option (exc (list A)) :=
  paginate true http fuel 1 [].

(** [get_all_repos], and [get_prs] of [pr_daily_report.py]. *)
Definition get_all_repos {A} (http : nat -> exc (Response A)) (fuel : nat)
    : option (exc (list A)) :=
  paginate false http fuel 1 [].

(** [get_reviews] of the multi-repository scripts: one request. *)
Definition get_reviews {A} (resp : exc (Response A)) : exc (list A) :=
  r <- resp ;;
  if (status_code r =? 404)%Z then ret []
  else _ <- raise_for_status r ;; json r.

End Http.

(** A page that answers with [data] and no error status. *)
Definition good_page {A} (http : nat -> exc (Response A)) (page : nat)
    (data : list A) : Prop :=
  exists st, http page = Some (mkResponse st (Some data))
             /\ ((st <? 400) || (600 <=? st))%Z = true.

(** A page on which the loop raises: the request fails, the status is
    an error (a 404 counts when it is not turned into an empty result),
    or the body does not parse. *)
Definition bad_page {A} (not_found_is_empty : bool)
    (http : nat -> exc (Response A)) (page : nat) : Prop :=
  http page = None
  \/ exists st body,
       http page = Some (mkResponse st body)
       /\ (not_found_is_empty && (st =? 404)%Z) = false
       /\ (((400 <=? st) && (st <? 600))%Z = true \/ body = None).

(* ================================================================== *)
(** ** What a run saw: the pull requests of the listed repositories *)

Definition listed_open (g : Gateway) (repos : list Repo)
    : list (Repo * PullRequest) :=
  flat_map (fun repo => match fetch g repo with
                        | Some (open_prs, _) => map (pair repo) open_prs
                        | None => []
                        end) repos.

Definition listed_closed (g : Gateway) (repos : list Repo)
    : list (Repo * PullRequest) :=
  flat_map (fun repo => match fetch g repo with
                        | Some (_, closed_prs) => map (pair repo) closed_prs
                        | None => []
                        end) repos.

Definition count_where {A} (f : A -> bool) (l : list A) : nat :=
  List.length (filter f l).

(** [d] is the least element of [l], or nothing when [l] is empty. *)
Definition is_minimum (d : option Z) (l : list Z) : Prop :=
  match d with
  | None => l = []
  | Some x => In x l /\ Forall (Z.le x) l
  end.

(** [m] is the first element of [l] with the greatest key. *)
Definition first_maximum {A} (key : A -> nat) (m : A) (l : list A) : Prop :=
  exists before after,
    l = (before ++ m :: after)%list
    /\ Forall (fun y => key y < key m)%nat before
    /\ Forall (fun y => key y <= key m)%nat after.

(** How many of [prs] the login [u] authored. *)
Definition authored (u : string) (prs : list PullRequest) : nat :=
  List.length (filter (fun pr => pr_login pr =? u) prs).

(** The rows a listed repository contributes. *)
Definition repo_rows (g : Gateway) (now : Z) (repo : Repo) : list Row :=
  match fetch g repo with
  | Some (open_prs, closed_prs) =>
      map (row_of repo) (repo_members g now repo open_prs closed_prs)
  | None => []
  end.

(* ================================================================== *)
(** ** pr_daily_report.py: the whole of [main] *)

(** [sorted(xs, key=key, reverse=True)]: decreasing keys, and equal keys
    in the order they came in (the sort is stable, also when reversed). *)
Fixpoint insert_desc {A} (key : A -> nat) (x : A) (l : list A) : list A :=
  match l with
  | [] => [x]
  | y :: l' =>
      if (key x <? key y)%nat then y :: insert_desc key x l' else x :: l
  end.

Definition sorted_desc {A} (key : A -> nat) (l : list A) : list A :=
  fold_right (insert_desc key) [] l.

Module PrDailyReport.

Record Report (F : Type) := mkReport {
  prs_raised_today : list PullRequest;
  prs_merged_today : list PullRequest;
  prs_with_changes_requested : list PullRequest;
  prs_not_approved : list PullRequest;
  prs_hotfix : list PullRequest;
  prs_pending_review : list PullRequest;
  oldest_days : Z;
  avg_review_time : F;
  members : Members;
  table : Members;                 (* the rows, as printed *)
  pr_stuck : nat;
  pending_release : nat;
  reopened_failed : nat;
  most_active : string;
  review_heavy : string;
  owners_stale_prs : string;
  blocker_owners : string
}.

Arguments mkReport {F}.
Arguments prs_raised_today {F}.
Arguments prs_merged_today {F}.
Arguments prs_with_changes_requested {F}.
Arguments prs_not_approved {F}.
Arguments prs_hotfix {F}.
Arguments prs_pending_review {F}.
Arguments oldest_days {F}.
Arguments avg_review_time {F}.
Arguments members {F}.
Arguments table {F}.
Arguments pr_stuck {F}.
Arguments pending_release {F}.
Arguments reopened_failed {F}.
Arguments most_active {F}.
Arguments review_heavy {F}.
Arguments owners_stale_prs {F}.
Arguments blocker_owners {F}.

(** The third loop over the open pull requests: the reviews are fetched
    only for those older than 24 hours. *)
Definition pending_review (g : Gateway) (repo : Repo) (now : Z)
    (open_prs : list PullRequest) : exc (list PullRequest) :=
  for_each (fun acc pr =>
              if older_than now (pr_created_at pr) (24 * 3600)
              then reviews <- get_reviews g repo (pr_number pr) ;;
                   ret (append_if (List.length reviews =? 0)%nat acc pr)
              else ret acc)
           open_prs [].

Definition oldest_days_of (now : Z) (open_prs : list PullRequest) : Z :=
  match open_prs with
  | [] => 0%Z
  | pr :: rest =>
      days_since now (pr_created_at (py_min_by pr_created_at pr rest))
  end.

(** [max(members.items(), key=..., default=(None,))[0] or "-"] *)
Definition top_member (key : Stats -> nat) (members : Members) : string :=
  match members with
  | [] => "-"
  | m :: ms => PrDaily.or_dash (fst (py_max_by (fun x => key (snd x)) m ms))
  end.

(** [main]; [recent] is the answer to the one request it makes itself,
    the first page of the pull requests of every state. *)
Definition main {F} `{PyNum F} (g : Gateway) (repo : Repo)
    (recent : exc (list PullRequest))
    (set_order : list string -> list string) (now : Z) : exc (Report F) :=
  open_prs <- get_prs g repo StOpen ;;
  closed_prs <- get_prs g repo StClosed ;;
  let raised_prs := filter (raised_today now) (open_prs ++ closed_prs)%list in
  let merged_prs := filter (merged_today now) closed_prs in
  cr <- PrDaily.prs_with_changes_requested g repo open_prs ;;
  na <- PrDaily.prs_not_approved g repo open_prs ;;
  let hot := PrDaily.prs_hotfix open_prs in
  pending <- pending_review g repo now open_prs ;;
  avg <- PrDaily.average_review_time merged_prs ;;
  let members0 := members_of raised_prs merged_prs cr na in
  recent_prs <- recent ;;
  reviews_done_map <- PrDaily.reviews_done_map g repo recent_prs ;;
  let members1 := store_reviews_done reviews_done_map members0 in
  ret (mkReport raised_prs merged_prs cr na hot pending
         (oldest_days_of now open_prs) avg members1
         (sorted_desc (fun x => raised (snd x)) members1)
         (List.length (filter (stuck now) open_prs))
         (List.length (filter is_pending_release open_prs))
         0%nat
         (top_member raised members1)
         (top_member reviews_done members1)
         (PrDaily.owners_stale_prs set_order now open_prs)
         (PrDaily.blocker_owners set_order open_prs)).

End PrDailyReport.

(** Equal keys keep their order: the elements with key [k] are the same
    list before and after. *)
Definition same_order_within_keys {A} (key : A -> nat) (l l' : list A)
    : Prop :=
  forall k, filter (fun x => key x =? k)%nat l
            = filter (fun x => key x =? k)%nat l'.

(** Whether every call [main] of [pr_daily_report.py] makes comes back:
    both listings, the reviews of every open pull request, the request
    for the recent pull requests and the reviews of each of them. *)
Definition daily_calls_ok (g : Gateway) (repo : Repo)
    (recent : exc (list PullRequest)) : bool :=
  match get_prs g repo StOpen, get_prs g repo StClosed, recent with
  | Some open_prs, Some _, Some recent_prs =>
      forallb (fun pr => reviews_ok g repo (pr_number pr)) open_prs
      && forallb (reviews_ok g repo) (map pr_number recent_prs)
  | _, _, _ => false
  end.


(* ================================================================== *)
(** ** A small world to run the scripts on

    Noon of 2024-01-10.  Repository [api] has two open pull requests (an
    old hotfix by bob without reviews; one of today by carol, on which
    alice first requested changes and then approved) and one closed pull
    request, raised and merged today by bob and approved by alice.
    Repository [web] cannot be listed. *)

Definition ex_now : Z := us 1704888000.

Definition ex_api : Repo := mkRepo "acme" "api".
Definition ex_web : Repo := mkRepo "acme" "web".

Definition ex_pr1 : PullRequest := mkPR 1 "bob" 1704110400 None ["Hotfix"].
Definition ex_pr2 : PullRequest := mkPR 2 "carol" 1704877200 None [].
Definition ex_pr3 : PullRequest :=
  mkPR 3 "bob" 1704877200 (Some 1704880800%Z) [].

Definition ex_reviews2 : list Review :=
  [mkReview "CHANGES_REQUESTED" "alice"; mkReview "APPROVED" "alice"].
Definition ex_reviews3 : list Review := [mkReview "APPROVED" "alice"].

Definition ex_gateway : Gateway :=
  mkGateway
    (Some [ex_api; ex_web])
    (fun repo st =>
       if repo_name repo =? "api" then
         match st with
         | StOpen => Some [ex_pr1; ex_pr2]
         | StClosed => Some [ex_pr3]
         end
       else None)
    (fun repo n =>
       if (n =? 2)%Z then Some ex_reviews2
       else if (n =? 3)%Z then Some ex_reviews3
       else Some []).

(** A second stale pull request, by alice. *)
Definition ex_pr4 : PullRequest := mkPR 4 "alice" 1704110400 None [].

(** A repository whose open pull requests can be listed and whose closed
    ones cannot. *)
Definition ex_gateway_half : Gateway :=
  mkGateway
    (Some [ex_api])
    (fun repo st =>
       match st with
       | StOpen => Some [ex_pr1]
       | StClosed => None
       end)
    (fun repo n => Some []).

(** One repository whose only pull request, number 3 by bob, was raised
    and merged today and carries one review, by alice. *)
Definition ex_gateway_once : Gateway :=
  mkGateway
    (Some [ex_api])
    (fun repo st =>
       match st with
       | StOpen => Some []
       | StClosed => Some [ex_pr3]
       end)
    (fun repo n => if (n =? 3)%Z then Some ex_reviews3 else Some []).

(** What both multi-repository scripts report on it.  The approval on
    pull request 3, raised and merged today, is counted twice, so alice
    has 4 reviews done out of 3. *)
Definition ex_report : Report float :=
  mkReport 1704844800
    (mkAcc 2 1 1 1 1 1 1 0 (Some 1704110400%Z) [3600%Z]
       [mkRow "carol" 1 0 1 0 0 "api";
        mkRow "bob" 1 1 0 1 0 "api";
        mkRow "alice" 0 0 0 0 4 "api"])
    9 (float_of_Z 1) 0 "carol" "alice" "bob" "-".

(** A listing of three items on two pages, and one that loses its second
    page to a 404. *)
Definition ex_http : nat -> exc (Response nat) :=
  fun page =>
    match page with
    | 1 => Some (mkResponse 200 (Some [10; 11]))
    | 2 => Some (mkResponse 200 (Some [12]))
    | _ => Some (mkResponse 200 (Some []))
    end%nat.

Definition ex_http_404 : nat -> exc (Response nat) :=
  fun page =>
    match page with
    | 1 => Some (mkResponse 200 (Some [10; 11]))
    | _ => Some (mkResponse 404 None)
    end%nat.

Definition ex_http_500 : nat -> exc (Response nat) :=
  fun page =>
    match page with
    | 1 => Some (mkResponse 200 (Some [10; 11]))
    | _ => Some (mkResponse 500 None)
    end%nat.

(** What [pr_daily_report.py] is given on [api]: the recent pull
    requests are its three pull requests. *)
Definition ex_recent : exc (list PullRequest) :=
  Some [ex_pr1; ex_pr2; ex_pr3].




(* ================================================================== *)
(** * Properties *)

(** ** Classification *)

Lemma str_in_states (w : string) (reviews : list Review) :
  str_in w (states reviews) = true <->
  exists r, In r reviews /\ lower (review_state r) = w.
Proof.
  unfold str_in, states. rewrite existsb_exists. split.
  - intros [s [Hin Heq]]. apply in_map_iff in Hin.
    destruct Hin as [r [Hr Hin]]. exists r. split; [exact Hin|].
    apply String.eqb_eq in Heq. congruence.
  - intros [r [Hin Heq]]. exists (lower (review_state r)). split.
    + apply in_map_iff. exists r. auto.
    + apply String.eqb_eq. auto.
Qed.

Lemma latest_per_reviewer_incl (reviews : list Review) (r : Review) :
  In r (latest_per_reviewer reviews) -> In r reviews.
Proof.
  induction reviews as [|r0 rest IH]; simpl; [tauto|].
  destruct (existsb _ rest); simpl; intuition.
Qed.

Lemma scan_changes_requested_exists (reviews : list Review) :
  PrDaily.scan_changes_requested reviews = true <->
  exists r, In r reviews /\ lower (review_state r) = "changes_requested".
Proof.
  induction reviews as [|r0 rest IH]; simpl.
  - split; [discriminate | intros [r [[] _]]].
  - destruct (lower (review_state r0) =? "changes_requested") eqn:E.
    + apply String.eqb_eq in E. split; [|reflexivity].
      intros _. exists r0. auto.
    + apply String.eqb_neq in E. rewrite IH. split.
      * intros [r [Hin Hr]]. exists r. auto.
      * intros [r [[->|Hin] Hr]]; [contradiction|]. exists r. auto.
Qed.

(** C1, as the code has it: a pull request is classified
    [changes_requested] exactly when some review of it, the latest of its
    reviewer or not, is in state [changes_requested] (compared in lower
    case); the backwards scan of [pr_daily_report.py] computes the same.
    Whenever the latest reviews per reviewer include a
    [changes_requested], the classification is true, but not
    conversely. *)
Theorem changes_requested_any_review (reviews : list Review) :
  (changes_requested reviews = true <->
   exists r, In r reviews /\ lower (review_state r) = "changes_requested")
  /\ PrDaily.is_changes_requested reviews = changes_requested reviews
  /\ (spec_changes_requested reviews = true ->
      changes_requested reviews = true).
Proof.
  assert (Hany := str_in_states "changes_requested" reviews).
  split; [exact Hany|]. split.
  - apply eq_true_iff_eq. unfold PrDaily.is_changes_requested.
    rewrite scan_changes_requested_exists. unfold changes_requested.
    rewrite Hany. split; intros [r [Hin Hr]]; exists r; split; auto.
    + apply in_rev. exact Hin.
    + apply in_rev in Hin. exact Hin.
  - unfold spec_changes_requested. rewrite existsb_exists.
    intros [r [Hin Hr]]. apply Hany. exists r. split.
    + apply latest_per_reviewer_incl. exact Hin.
    + apply String.eqb_eq. exact Hr.
Qed.

(** C1 fails as stated: alice requested changes and approved later; her
    latest review is the approval, yet both scans answer true. *)
Lemma changes_requested_outvotes_later_approval :
  changes_requested ex_reviews2 = true
  /\ PrDaily.is_changes_requested ex_reviews2 = true
  /\ spec_changes_requested ex_reviews2 = false.
Proof. repeat split. Qed.

(** C2, as the code has it: a pull request is [not_approved] exactly when
    no review of it at all is in state [approved]; then no reviewer's
    latest review is an approval either, but not conversely.  Without
    reviews a pull request is [not_approved] and not
    [changes_requested]. *)
Theorem not_approved_no_review_approved (reviews : list Review) :
  (not_approved reviews = true <->
   forall r, In r reviews -> lower (review_state r) <> "approved")
  /\ (not_approved reviews = true -> spec_not_approved reviews = true)
  /\ not_approved [] = true
  /\ changes_requested [] = false.
Proof.
  assert (Hany := str_in_states "approved" reviews).
  assert (Hfirst : not_approved reviews = true <->
            forall r, In r reviews -> lower (review_state r) <> "approved").
  { unfold not_approved. rewrite negb_true_iff, <- not_true_iff_false, Hany.
    split.
    - intros Hno r Hin Hr. apply Hno. exists r. auto.
    - intros Hall [r [Hin Hr]]. exact (Hall r Hin Hr). }
  split; [exact Hfirst|]. split; [|split; reflexivity].
  rewrite Hfirst. intros Hall. unfold spec_not_approved.
  rewrite negb_true_iff, <- not_true_iff_false, existsb_exists.
  intros [r [Hin Hr]]. apply String.eqb_eq in Hr.
  exact (Hall r (latest_per_reviewer_incl _ _ Hin) Hr).
Qed.

(** C2 fails as stated: alice approved and requested changes later; no
    latest review is an approval, yet the pull request counts as
    approved. *)
Lemma earlier_approval_still_counts :
  let reviews :=
    [mkReview "APPROVED" "alice"; mkReview "CHANGES_REQUESTED" "alice"] in
  not_approved reviews = false /\ spec_not_approved reviews = true.
Proof. split; reflexivity. Qed.

(* ================================================================== *)
(** ** Loops that raise only where a call raises *)

Lemma for_each_pure {S A} (body : S -> A -> exc S) (ok : A -> bool)
    (step : S -> A -> S) :
  (forall s x, body s x = if ok x then Some (step s x) else None) ->
  forall xs s,
    for_each body xs s =
    if forallb ok xs then Some (fold_left step xs s) else None.
Proof.
  intros Hbody. induction xs as [|x xs IH]; intros s; simpl; [reflexivity|].
  rewrite Hbody. destruct (ok x); simpl; [apply IH | reflexivity].
Qed.

Lemma forallb_Permutation {A} (f : A -> bool) (l l' : list A) :
  Permutation l l' -> forallb f l = forallb f l'.
Proof.
  induction 1; simpl; try congruence.
  - destruct (f x), (f y); reflexivity.
Qed.

Lemma append_if_app {A} (b : bool) (l : list A) (x : A) :
  append_if b l x = (l ++ if b then [x] else [])%list.
Proof. destruct b; simpl; [reflexivity | now rewrite app_nil_r]. Qed.

Lemma filter_cons_app {A} (f : A -> bool) (x : A) (l : list A) :
  filter f (x :: l) = ((if f x then [x] else []) ++ filter f l)%list.
Proof. simpl. destruct (f x); reflexivity. Qed.

Lemma incr_if_length {A} (f : A -> bool) (x : A) (l : list A) (n : nat) :
  (incr_if (f x) n + List.length (filter f l)
   = n + List.length (filter f (x :: l)))%nat.
Proof. simpl. unfold incr_if. destruct (f x); simpl; lia. Qed.

(** *** The loop over the open pull requests *)

Section OpenLoops.
Variables (g : Gateway) (now : Z) (repo : Repo).

Let has_changes_requested (pr : PullRequest) : bool :=
  changes_requested (pr_reviews g repo pr).
Let has_no_approval (pr : PullRequest) : bool :=
  not_approved (pr_reviews g repo pr).
Let is_pending (pr : PullRequest) : bool :=
  pending_review_24h now pr (pr_reviews g repo pr).

Lemma snapshot_open_pr_body (st : OpenLoop) (pr : PullRequest) :
  Snapshot.open_pr_body g now repo st pr =
  if reviews_ok g repo (pr_number pr)
  then Some (classify_open_pr now (pr_reviews g repo pr) st pr)
  else None.
Proof.
  unfold Snapshot.open_pr_body, reviews_ok, pr_reviews, reviews_of.
  destruct (get_reviews g repo (pr_number pr)); reflexivity.
Qed.

Lemma classify_fold (prs : list PullRequest) :
  forall st,
    fold_left (fun s pr => classify_open_pr now (pr_reviews g repo pr) s pr)
              prs st =
    mkOpenLoop
      (prs_with_changes_requested st ++ filter has_changes_requested prs)
      (prs_not_approved st ++ filter has_no_approval prs)
      (prs_hotfix st ++ filter hotfix prs)
      (prs_pending_review st ++ filter is_pending prs)
      (ol_pr_stuck st + List.length (filter (stuck now) prs))
      (ol_pending_release st + List.length (filter is_pending_release prs))
      (ol_oldest_open_date st).
Proof.
  induction prs as [|pr prs IH]; intros st.
  - simpl. rewrite !app_nil_r, !Nat.add_0_r. destruct st; reflexivity.
  - cbn [fold_left]. rewrite IH. unfold classify_open_pr at 1 2 3 4 5 6 7.
    cbn [prs_with_changes_requested prs_not_approved prs_hotfix
         prs_pending_review ol_pr_stuck ol_pending_release
         ol_oldest_open_date].
    rewrite !append_if_app, <- !app_assoc, !incr_if_length.
    rewrite !filter_cons_app. reflexivity.
Qed.

(** *** The oldest open date, tracked either way *)

Lemma fold_min_l (l : list Z) (a b : Z) :
  fold_left Z.min l (Z.min a b) = Z.min a (fold_left Z.min l b).
Proof.
  revert b. induction l as [|x l IH]; intros b; simpl; [reflexivity|].
  rewrite <- IH. f_equal. lia.
Qed.

Lemma py_min_by_key {A} (key : A -> Z) (xs : list A) :
  forall x, key (py_min_by key x xs) = fold_left Z.min (map key xs) (key x).
Proof.
  unfold py_min_by. induction xs as [|y xs IH]; intros x; simpl;
    [reflexivity|].
  rewrite IH. f_equal. destruct (Z.ltb_spec (key y) (key x)); lia.
Qed.

Lemma snapshot_track_oldest (prs : list PullRequest) (oldest : option Z) :
  Snapshot.track_oldest prs oldest = min_date oldest (min_created prs).
Proof.
  destruct prs as [|pr rest]; simpl.
  - destruct oldest; reflexivity.
  - rewrite py_min_by_key. destruct oldest as [d|]; simpl; [|reflexivity].
    destruct (Z.ltb_spec (fold_left Z.min (map pr_created_at rest)
                                    (pr_created_at pr)) d);
      f_equal; lia.
Qed.

Lemma send_track_oldest (pr : PullRequest) (oldest : option Z) :
  SendReport.track_oldest pr oldest =
  min_date oldest (Some (pr_created_at pr)).
Proof.
  destruct oldest as [d|]; simpl; [|reflexivity].
  destruct (Z.ltb_spec (pr_created_at pr) d); f_equal; lia.
Qed.

Lemma min_date_assoc (a b c : option Z) :
  min_date (min_date a b) c = min_date a (min_date b c).
Proof.
  destruct a, b, c; simpl; try reflexivity. f_equal. lia.
Qed.

Lemma min_date_comm (a b : option Z) : min_date a b = min_date b a.
Proof. destruct a, b; simpl; try reflexivity. f_equal. lia. Qed.

Lemma min_date_None_r (a : option Z) : min_date a None = a.
Proof. destruct a; reflexivity. Qed.

Lemma min_created_cons (pr : PullRequest) (prs : list PullRequest) :
  min_created (pr :: prs) =
  min_date (Some (pr_created_at pr)) (min_created prs).
Proof.
  destruct prs as [|q rest]; simpl; [reflexivity|].
  rewrite fold_min_l. reflexivity.
Qed.

Lemma send_track_fold (prs : list PullRequest) :
  forall oldest,
    fold_left (fun o pr => SendReport.track_oldest pr o) prs oldest =
    min_date oldest (min_created prs).
Proof.
  induction prs as [|pr prs IH]; intros oldest.
  - simpl. now rewrite min_date_None_r.
  - cbn [fold_left]. rewrite IH, send_track_oldest, min_created_cons.
    apply min_date_assoc.
Qed.

Lemma send_open_pr_body (st : OpenLoop) (pr : PullRequest) :
  SendReport.open_pr_body g now repo st pr =
  if reviews_ok g repo (pr_number pr)
  then Some (let st' := classify_open_pr now (pr_reviews g repo pr) st pr in
             mkOpenLoop (prs_with_changes_requested st') (prs_not_approved st')
               (prs_hotfix st') (prs_pending_review st')
               (ol_pr_stuck st') (ol_pending_release st')
               (SendReport.track_oldest pr (ol_oldest_open_date st)))
  else None.
Proof.
  unfold SendReport.open_pr_body, reviews_ok, pr_reviews, reviews_of.
  destruct (get_reviews g repo (pr_number pr)); reflexivity.
Qed.

Lemma send_fold (prs : list PullRequest) :
  forall st,
    fold_left
      (fun s pr =>
         let st' := classify_open_pr now (pr_reviews g repo pr) s pr in
         mkOpenLoop (prs_with_changes_requested st') (prs_not_approved st')
           (prs_hotfix st') (prs_pending_review st')
           (ol_pr_stuck st') (ol_pending_release st')
           (SendReport.track_oldest pr (ol_oldest_open_date s)))
      prs st =
    mkOpenLoop
      (prs_with_changes_requested st ++ filter has_changes_requested prs)
      (prs_not_approved st ++ filter has_no_approval prs)
      (prs_hotfix st ++ filter hotfix prs)
      (prs_pending_review st ++ filter is_pending prs)
      (ol_pr_stuck st + List.length (filter (stuck now) prs))
      (ol_pending_release st + List.length (filter is_pending_release prs))
      (min_date (ol_oldest_open_date st) (min_created prs)).
Proof.
  induction prs as [|pr prs IH]; intros st.
  - simpl. rewrite !app_nil_r, !Nat.add_0_r, min_date_None_r.
    destruct st; reflexivity.
  - cbn [fold_left]. rewrite IH. cbv zeta.
    unfold classify_open_pr.
    cbn [prs_with_changes_requested prs_not_approved prs_hotfix
         prs_pending_review ol_pr_stuck ol_pending_release
         ol_oldest_open_date].
    rewrite !append_if_app, <- !app_assoc, !incr_if_length.
    rewrite !filter_cons_app, send_track_oldest, min_created_cons.
    rewrite min_date_assoc. reflexivity.
Qed.

End OpenLoops.

(** *** The other two loops of a repository *)

Lemma reviews_done_of_pure (g : Gateway) (repo : Repo) (pr_ids : list Z) :
  reviews_done_of g repo pr_ids =
  if forallb (reviews_ok g repo) pr_ids
  then Some (count_all_reviewers g repo pr_ids)
  else None.
Proof.
  unfold reviews_done_of, count_all_reviewers.
  apply for_each_pure. intros m n. unfold reviews_ok, reviews_of.
  destruct (get_reviews g repo n); reflexivity.
Qed.

Lemma append_cycle_times_merged (now : Z) (prs : list PullRequest) :
  forall times,
    append_cycle_times (filter (merged_today now) prs) times =
    Some (times ++ map duration (filter (merged_today now) prs))%list.
Proof.
  unfold append_cycle_times.
  induction prs as [|pr prs IH]; intros times; simpl.
  - now rewrite app_nil_r.
  - destruct (merged_today now pr) eqn:Hpr; [|apply IH].
    unfold merged_today in Hpr.
    cbn [for_each map]. unfold cycle_seconds at 1. unfold duration at 1.
    destruct (pr_merged_at pr) as [m|]; [|discriminate].
    cbn [bind ret]. rewrite IH, <- app_assoc. reflexivity.
Qed.

(** *** One turn of the loop over the repositories *)

Lemma combine_init_r (a : Acc) : combine a init_acc = a.
Proof.
  destruct a. unfold combine, init_acc. simpl.
  rewrite !Nat.add_0_r, !app_nil_r, min_date_None_r. reflexivity.
Qed.

Lemma combine_init_l (a : Acc) : combine init_acc a = a.
Proof. destruct a. reflexivity. Qed.

Lemma snapshot_process_repo (g : Gateway) (now : Z) (acc : Acc) (repo : Repo) :
  Snapshot.process_repo g now acc repo =
  if repo_ok g now repo
  then Some (combine acc (repo_aggregate g now repo))
  else None.
Proof.
  unfold Snapshot.process_repo, repo_ok, repo_aggregate.
  destruct (fetch g repo) as [[open_prs closed_prs]|].
  - rewrite (for_each_pure _ _ _ (snapshot_open_pr_body g now repo)).
    destruct (forallb _ open_prs); [|reflexivity].
    cbn [bind andb]. rewrite classify_fold, append_cycle_times_merged.
    cbn [bind]. rewrite reviews_done_of_pure.
    destruct (forallb (reviews_ok g repo) _); [|reflexivity].
    cbn [bind]. unfold ret, combine, repo_members, enter_open_loop.
    cbn [prs_with_changes_requested prs_not_approved prs_hotfix
         prs_pending_review ol_pr_stuck ol_pending_release
         ol_oldest_open_date app total_raised total_merged
         total_changes_requested total_not_approved total_hotfix
         total_pending_24h pr_stuck pending_release oldest_open_date
         review_cycle_times member_rows].
    rewrite snapshot_track_oldest. reflexivity.
  - now rewrite combine_init_r.
Qed.

Lemma send_process_repo (g : Gateway) (now : Z) (acc : Acc) (repo : Repo) :
  SendReport.process_repo g now acc repo =
  if repo_ok g now repo
  then Some (combine acc (repo_aggregate g now repo))
  else None.
Proof.
  unfold SendReport.process_repo, repo_ok, repo_aggregate.
  destruct (fetch g repo) as [[open_prs closed_prs]|].
  - rewrite (for_each_pure _ _ _ (send_open_pr_body g now repo)).
    destruct (forallb _ open_prs); [|reflexivity].
    cbn [bind andb]. rewrite send_fold, append_cycle_times_merged.
    cbn [bind]. rewrite reviews_done_of_pure.
    destruct (forallb (reviews_ok g repo) _); [|reflexivity].
    cbn [bind]. unfold ret, combine, repo_members, enter_open_loop.
    cbn [prs_with_changes_requested prs_not_approved prs_hotfix
         prs_pending_review ol_pr_stuck ol_pending_release
         ol_oldest_open_date app total_raised total_merged
         total_changes_requested total_not_approved total_hotfix
         total_pending_24h pr_stuck pending_release oldest_open_date
         review_cycle_times member_rows].
    reflexivity.
  - now rewrite combine_init_r.
Qed.

Lemma fold_combine_map (g : Gateway) (now : Z) (repos : list Repo) :
  forall acc,
    fold_left (fun a repo => combine a (repo_aggregate g now repo)) repos acc =
    fold_left combine (map (repo_aggregate g now) repos) acc.
Proof.
  induction repos as [|r repos IH]; intros acc; simpl; [reflexivity|].
  apply IH.
Qed.

Lemma snapshot_main_loop (g : Gateway) (now : Z) (repos : list Repo) :
  Snapshot.main_loop g now repos =
  if forallb (repo_ok g now) repos
  then Some (reduce (map (repo_aggregate g now) repos))
  else None.
Proof.
  unfold Snapshot.main_loop, reduce.
  rewrite (for_each_pure _ _ _ (snapshot_process_repo g now)).
  now rewrite fold_combine_map.
Qed.

Lemma send_main_loop (g : Gateway) (now : Z) (repos : list Repo) :
  SendReport.main_loop g now repos = Snapshot.main_loop g now repos.
Proof.
  rewrite snapshot_main_loop. unfold SendReport.main_loop, reduce.
  rewrite (for_each_pure _ _ _ (send_process_repo g now)).
  now rewrite fold_combine_map.
Qed.

Lemma send_main {F} `{PyNum F} (g : Gateway) (now : Z) :
  SendReport.main (F := F) g now = Snapshot.main g now.
Proof.
  unfold SendReport.main, Snapshot.main.
  destruct (get_all_repos g) as [[|r repos]|]; try reflexivity.
  now rewrite send_main_loop.
Qed.

(* ================================================================== *)
(** ** The member table adds up to the totals *)

Lemma column_app (col : Row -> nat) (l1 l2 : list Row) :
  column col (l1 ++ l2) = (column col l1 + column col l2)%nat.
Proof. unfold column. now rewrite map_app, list_sum_app. Qed.

Lemma dict_update_sum (f : Stats -> nat) (bump : Stats -> Stats) (d : nat)
    (k : string) (m : Members) :
  (forall s, f (bump s) = f s + d)%nat -> f default_stats = 0%nat ->
  stat_sum f (dict_update default_stats bump k m) = (stat_sum f m + d)%nat.
Proof.
  intros Hbump Hdef. unfold stat_sum.
  induction m as [|[k' v] m IH]; simpl.
  - rewrite Hbump, Hdef. lia.
  - destruct (k' =? k); simpl.
    + rewrite Hbump. lia.
    + rewrite IH. lia.
Qed.

Lemma count_authors_sum (f : Stats -> nat) (bump : Stats -> Stats) (d : nat)
    (prs : list PullRequest) :
  (forall s, f (bump s) = f s + d)%nat -> f default_stats = 0%nat ->
  forall m,
    stat_sum f (count_authors bump prs m)
    = (stat_sum f m + d * List.length prs)%nat.
Proof.
  intros Hbump Hdef. unfold count_authors.
  induction prs as [|pr prs IH]; intros m; simpl; [lia|].
  rewrite IH, (dict_update_sum f bump d); auto. lia.
Qed.

Lemma store_reviews_done_sum (f : Stats -> nat)
    (rdm : list (string * nat)) :
  (forall n s, f (set_reviews_done n s) = f s) -> f default_stats = 0%nat ->
  forall m, stat_sum f (store_reviews_done rdm m) = stat_sum f m.
Proof.
  intros Hset Hdef. unfold store_reviews_done.
  induction rdm as [|[u c] rdm IH]; intros m; simpl; [reflexivity|].
  rewrite IH, (dict_update_sum f _ 0); auto.
  intros s. rewrite Hset. lia.
Qed.

Lemma column_row_of (repo : Repo) (col : Row -> nat) (f : Stats -> nat)
    (m : Members) :
  (forall ms, col (row_of repo ms) = f (snd ms)) ->
  column col (map (row_of repo) m) = stat_sum f m.
Proof.
  intros Hcol. unfold column, stat_sum. rewrite map_map.
  f_equal. apply map_ext. exact Hcol.
Qed.

Lemma members_of_sums (raised_prs merged_prs cr_prs na_prs : list PullRequest) :
  let m := members_of raised_prs merged_prs cr_prs na_prs in
  stat_sum raised m = List.length raised_prs
  /\ stat_sum merged m = List.length merged_prs
  /\ stat_sum st_changes_requested m = List.length cr_prs
  /\ stat_sum st_not_approved m = List.length na_prs.
Proof.
  unfold members_of. repeat split.
  - rewrite (count_authors_sum raised incr_not_approved 0),
            (count_authors_sum raised incr_changes_requested 0),
            (count_authors_sum raised incr_merged 0),
            (count_authors_sum raised incr_raised 1);
      try reflexivity; try (intros s; simpl; lia).
    unfold stat_sum; simpl; lia.
  - rewrite (count_authors_sum merged incr_not_approved 0),
            (count_authors_sum merged incr_changes_requested 0),
            (count_authors_sum merged incr_merged 1),
            (count_authors_sum merged incr_raised 0);
      try reflexivity; try (intros s; simpl; lia).
    unfold stat_sum; simpl; lia.
  - rewrite (count_authors_sum st_changes_requested incr_not_approved 0),
            (count_authors_sum st_changes_requested incr_changes_requested 1),
            (count_authors_sum st_changes_requested incr_merged 0),
            (count_authors_sum st_changes_requested incr_raised 0);
      try reflexivity; try (intros s; simpl; lia).
    unfold stat_sum; simpl; lia.
  - rewrite (count_authors_sum st_not_approved incr_not_approved 1),
            (count_authors_sum st_not_approved incr_changes_requested 0),
            (count_authors_sum st_not_approved incr_merged 0),
            (count_authors_sum st_not_approved incr_raised 0);
      try reflexivity; try (intros s; simpl; lia).
    unfold stat_sum; simpl; lia.
Qed.

Lemma repo_aggregate_totals_match (g : Gateway) (now : Z) (repo : Repo) :
  totals_match_rows (repo_aggregate g now repo).
Proof.
  unfold repo_aggregate.
  destruct (fetch g repo) as [[open_prs closed_prs]|];
    [|repeat split].
  unfold totals_match_rows, repo_members.
  cbn [member_rows total_raised total_merged total_changes_requested
       total_not_approved].
  destruct (members_of_sums
              (filter (raised_today now) (open_prs ++ closed_prs))
              (filter (merged_today now) closed_prs)
              (filter (fun pr => changes_requested (pr_reviews g repo pr))
                      open_prs)
              (filter (fun pr => not_approved (pr_reviews g repo pr))
                      open_prs))
    as (Hr & Hm & Hc & Hn).
  repeat split.
  - rewrite (column_row_of repo PRs_Raised raised) by reflexivity.
    now rewrite store_reviews_done_sum.
  - rewrite (column_row_of repo PRs_Merged merged) by reflexivity.
    now rewrite store_reviews_done_sum.
  - rewrite (column_row_of repo Changes_Requested st_changes_requested)
      by reflexivity.
    now rewrite store_reviews_done_sum.
  - rewrite (column_row_of repo Not_Approved st_not_approved) by reflexivity.
    now rewrite store_reviews_done_sum.
Qed.

Lemma combine_totals_match (a b : Acc) :
  totals_match_rows a -> totals_match_rows b ->
  totals_match_rows (combine a b).
Proof.
  unfold totals_match_rows, combine. simpl.
  intros (Ha1 & Ha2 & Ha3 & Ha4) (Hb1 & Hb2 & Hb3 & Hb4).
  rewrite !column_app. repeat split; congruence.
Qed.

Lemma fold_combine_totals_match (l : list Acc) :
  Forall totals_match_rows l ->
  forall a, totals_match_rows a -> totals_match_rows (fold_left combine l a).
Proof.
  induction 1 as [|b l Hb _ IH]; intros a Ha; simpl; [exact Ha|].
  apply IH. now apply combine_totals_match.
Qed.

Lemma main_loop_totals_match (g : Gateway) (now : Z) (repos : list Repo)
    (acc : Acc) :
  Snapshot.main_loop g now repos = Some acc -> totals_match_rows acc.
Proof.
  rewrite snapshot_main_loop.
  destruct (forallb (repo_ok g now) repos); [|discriminate].
  intros [= <-]. apply fold_combine_totals_match.
  - apply Forall_forall. intros a Ha. apply in_map_iff in Ha.
    destruct Ha as [repo [<- _]]. apply repo_aggregate_totals_match.
  - repeat split.
Qed.

(** What a reported run went through. *)
Lemma main_reported {F} `{PyNum F} (g : Gateway) (now : Z) (r : Report F) :
  Snapshot.main g now = Reported r \/ SendReport.main g now = Reported r ->
  exists repos,
    get_all_repos g = Some repos /\ repos <> []
    /\ Snapshot.main_loop g now repos = Some (vars r)
    /\ finish g now repos (vars r) = Some r.
Proof.
  rewrite send_main. intros Hmain.
  assert (Hm : Snapshot.main g now = Reported r) by tauto. clear Hmain.
  unfold Snapshot.main in Hm.
  destruct (get_all_repos g) as [[|repo repos]|]; try discriminate.
  exists (repo :: repos). split; [reflexivity|]. split; [discriminate|].
  destruct (Snapshot.main_loop g now (repo :: repos)) as [acc|];
    [|discriminate].
  cbn [bind] in Hm.
  destruct (finish g now (repo :: repos) acc) as [r'|] eqn:Hfin;
    [|discriminate].
  injection Hm as ->.
  assert (Hv : vars r = acc).
  { unfold finish in Hfin.
    destruct (avg_review_time (review_cycle_times acc)); [|discriminate].
    cbn [bind ret] in Hfin. injection Hfin as <-. reflexivity. }
  rewrite Hv. auto.
Qed.

(** C3: in the report of a run of either multi-repository script, each of
    the totals raised, merged, changes-requested and not-approved equals
    the sum of its column over the rows of the member table. *)
Theorem totals_are_column_sums {F} `{PyNum F} (g : Gateway) (now : Z)
    (r : Report F) :
  Snapshot.main g now = Reported r \/ SendReport.main g now = Reported r ->
  column PRs_Raised (member_rows (vars r)) = total_raised (vars r)
  /\ column PRs_Merged (member_rows (vars r)) = total_merged (vars r)
  /\ column Changes_Requested (member_rows (vars r))
     = total_changes_requested (vars r)
  /\ column Not_Approved (member_rows (vars r)) = total_not_approved (vars r).
Proof.
  intros Hmain. destruct (main_reported g now r Hmain) as (repos & _ & _ & Hl & _).
  exact (main_loop_totals_match g now repos (vars r) Hl).
Qed.

Lemma ex_snapshot_main : Snapshot.main ex_gateway ex_now = Reported ex_report.
Proof. vm_compute. reflexivity. Qed.

Lemma totals_are_column_sums_example :
  Snapshot.main ex_gateway ex_now = Reported ex_report
  /\ column PRs_Raised (member_rows (vars ex_report)) = 2%nat
  /\ column PRs_Merged (member_rows (vars ex_report)) = 1%nat
  /\ column Changes_Requested (member_rows (vars ex_report)) = 1%nat
  /\ column Not_Approved (member_rows (vars ex_report)) = 1%nat.
Proof.
  split; [exact ex_snapshot_main|].
  exact (totals_are_column_sums ex_gateway ex_now ex_report
           (or_introl ex_snapshot_main)).
Defined.

(* ================================================================== *)
(** ** Repositories that cannot be listed *)

Lemma avg_review_time_total {F} `{PyNum F} (times : list Z) :
  avg_review_time times =
  Some match times with
       | [] => of_int 0
       | _ => round2 (fdiv (py_sum (map hours times))
                           (of_int (Z.of_nat (List.length times))))
       end.
Proof.
  destruct times as [|t ts]; [reflexivity|].
  unfold avg_review_time, truediv.
  destruct (Z.eqb_spec (Z.of_nat (List.length (t :: ts))) 0) as [E|_];
    [simpl in E; lia | reflexivity].
Qed.

Lemma repo_aggregate_not_retrieved (g : Gateway) (now : Z) (repo : Repo) :
  retrieved g repo = false -> repo_aggregate g now repo = init_acc.
Proof.
  unfold retrieved, repo_aggregate.
  destruct (fetch g repo) as [[o c]|]; [discriminate | reflexivity].
Qed.

Lemma repo_ok_not_retrieved (g : Gateway) (now : Z) (repo : Repo) :
  retrieved g repo = false -> repo_ok g now repo = true.
Proof.
  unfold retrieved, repo_ok.
  destruct (fetch g repo) as [[o c]|]; [discriminate | reflexivity].
Qed.

Lemma fold_combine_retrieved (g : Gateway) (now : Z) (repos : list Repo) :
  forall acc,
    fold_left combine (map (repo_aggregate g now) repos) acc =
    fold_left combine
      (map (repo_aggregate g now) (filter (retrieved g) repos)) acc.
Proof.
  induction repos as [|repo repos IH]; intros acc; simpl; [reflexivity|].
  destruct (retrieved g repo) eqn:E; simpl.
  - apply IH.
  - rewrite (repo_aggregate_not_retrieved g now repo E), combine_init_r.
    apply IH.
Qed.

Lemma forallb_repo_ok_retrieved (g : Gateway) (now : Z) (repos : list Repo) :
  forallb (repo_ok g now) (filter (retrieved g) repos) =
  forallb (repo_ok g now) repos.
Proof.
  induction repos as [|repo repos IH]; simpl; [reflexivity|].
  destruct (retrieved g repo) eqn:E; simpl.
  - now rewrite IH.
  - now rewrite (repo_ok_not_retrieved g now repo E).
Qed.

Lemma main_loop_retrieved (g : Gateway) (now : Z) (repos : list Repo) :
  Snapshot.main_loop g now repos =
  Snapshot.main_loop g now (filter (retrieved g) repos).
Proof.
  rewrite !snapshot_main_loop, forallb_repo_ok_retrieved. unfold reduce.
  now rewrite fold_combine_retrieved.
Qed.

Lemma repo_ok_reviews (g : Gateway) (now : Z) (repo : Repo) :
  (forall n, get_reviews g repo n <> None) -> repo_ok g now repo = true.
Proof.
  intros Hrev. unfold repo_ok.
  assert (Hok : forall n, reviews_ok g repo n = true).
  { intros n. unfold reviews_ok. specialize (Hrev n).
    destruct (get_reviews g repo n); congruence. }
  destruct (fetch g repo) as [[o c]|]; [|reflexivity].
  apply andb_true_iff. split; apply forallb_forall; intros x _; apply Hok.
Qed.


(* ================================================================== *)
(** ** The reduction across repositories *)

Lemma combine_assoc (a b c : Acc) :
  combine (combine a b) c = combine a (combine b c).
Proof.
  unfold combine. simpl.
  rewrite !Nat.add_assoc, min_date_assoc, <- !app_assoc. reflexivity.
Qed.

Lemma fold_combine_from (l : list Acc) :
  forall a, fold_left combine l a = combine a (fold_left combine l init_acc).
Proof.
  induction l as [|b l IH]; intros a; simpl.
  - now rewrite combine_init_r.
  - rewrite IH, (IH (combine init_acc b)), combine_init_l.
    apply combine_assoc.
Qed.

Lemma reduce_app (xs ys : list Acc) :
  reduce (xs ++ ys) = combine (reduce xs) (reduce ys).
Proof.
  unfold reduce. rewrite fold_left_app. apply fold_combine_from.
Qed.

Lemma same_aggregates_refl (a : Acc) : same_aggregates a a.
Proof. repeat split; auto. Qed.

Lemma same_aggregates_trans (a b c : Acc) :
  same_aggregates a b -> same_aggregates b c -> same_aggregates a c.
Proof.
  unfold same_aggregates, same_totals.
  intros (T1 & O1 & P1) (T2 & O2 & P2).
  split; [|split].
  - intuition congruence.
  - congruence.
  - now transitivity (review_cycle_times b).
Qed.

Lemma combine_same_aggregates (a a' b b' : Acc) :
  same_aggregates a a' -> same_aggregates b b' ->
  same_aggregates (combine a b) (combine a' b').
Proof.
  unfold same_aggregates, same_totals, combine. simpl.
  intros ((A1 & A2 & A3 & A4 & A5 & A6 & A7 & A8) & AO & AP)
         ((B1 & B2 & B3 & B4 & B5 & B6 & B7 & B8) & BO & BP).
  rewrite A1, A2, A3, A4, A5, A6, A7, A8, AO.
  rewrite B1, B2, B3, B4, B5, B6, B7, B8, BO.
  repeat split. now apply Permutation_app.
Qed.

Lemma combine_comm (a b : Acc) :
  same_aggregates (combine a b) (combine b a).
Proof.
  unfold same_aggregates, same_totals, combine. simpl.
  repeat split; try apply Nat.add_comm.
  - apply min_date_comm.
  - apply Permutation_app_comm.
Qed.

Lemma fold_combine_same (l : list Acc) :
  forall a a',
    same_aggregates a a' ->
    same_aggregates (fold_left combine l a) (fold_left combine l a').
Proof.
  induction l as [|b l IH]; intros a a' Ha; simpl; [exact Ha|].
  apply IH, combine_same_aggregates; [exact Ha | apply same_aggregates_refl].
Qed.

Lemma fold_combine_Permutation (xs ys : list Acc) :
  Permutation xs ys ->
  forall a a',
    same_aggregates a a' ->
    same_aggregates (fold_left combine xs a) (fold_left combine ys a').
Proof.
  induction 1 as [|b xs ys _ IH|b c xs|xs ys zs _ IH1 _ IH2];
    intros a a' Ha; simpl.
  - exact Ha.
  - apply IH, combine_same_aggregates; [exact Ha | apply same_aggregates_refl].
  - apply fold_combine_same.
    rewrite !combine_assoc.
    apply combine_same_aggregates; [exact Ha | apply combine_comm].
  - apply same_aggregates_trans with (fold_left combine ys a).
    + apply IH1, same_aggregates_refl.
    + apply IH2, Ha.
Qed.

Lemma reduce_Permutation (xs ys : list Acc) :
  Permutation xs ys -> same_aggregates (reduce xs) (reduce ys).
Proof.
  intros HP. apply (fold_combine_Permutation xs ys HP).
  apply same_aggregates_refl.
Qed.

Lemma main_loop_app (g : Gateway) (now : Z) (l1 l2 : list Repo) :
  Snapshot.main_loop g now (l1 ++ l2) =
  (a <- Snapshot.main_loop g now l1 ;;
   b <- Snapshot.main_loop g now l2 ;;
   ret (combine a b)).
Proof.
  rewrite !snapshot_main_loop, forallb_app, map_app, reduce_app.
  destruct (forallb (repo_ok g now) l1), (forallb (repo_ok g now) l2);
    reflexivity.
Qed.

Lemma main_loop_Permutation (g : Gateway) (now : Z) (l l' : list Repo) :
  Permutation l l' ->
  same_outcome (Snapshot.main_loop g now l) (Snapshot.main_loop g now l').
Proof.
  intros HP. rewrite !snapshot_main_loop.
  rewrite (forallb_Permutation (repo_ok g now) l l' HP).
  destruct (forallb (repo_ok g now) l'); simpl; [|exact I].
  apply reduce_Permutation, Permutation_map, HP.
Qed.

(** C6: the accumulation across repositories is the reduction of section
    4.4.  Splitting the repositories in two groups and combining the two
    results gives the result of the whole run, [combine] is associative,
    and swapping or permuting the aggregates leaves every total, the
    oldest open date and the pool (the multiset) of review-cycle
    durations unchanged: a permuted run crashes exactly when the run
    does, and otherwise ends with the same aggregates. *)
Theorem reduction_any_order_any_grouping (g : Gateway) (now : Z)
    (l l' l1 l2 : list Repo) (xs ys : list Acc) :
  Permutation l l' -> Permutation xs ys ->
  both_loops (fun main_loop =>
    main_loop g now (l1 ++ l2)%list
    = (a <- main_loop g now l1 ;; b <- main_loop g now l2 ;;
       ret (combine a b))
    /\ same_outcome (main_loop g now l) (main_loop g now l')
    /\ main_loop g now l
       = (if forallb (repo_ok g now) l
          then Some (reduce (map (repo_aggregate g now) l)) else None))
  /\ same_aggregates (reduce xs) (reduce ys)
  /\ reduce (xs ++ ys) = combine (reduce xs) (reduce ys)
  /\ (forall a b c, combine (combine a b) c = combine a (combine b c))
  /\ (forall a b, same_aggregates (combine a b) (combine b a)).
Proof.
  intros HP HQ. split; [|split; [|split; [|split]]].
  - unfold both_loops. rewrite !send_main_loop.
    assert (Hs := conj (main_loop_app g now l1 l2)
                    (conj (main_loop_Permutation g now l l' HP)
                          (snapshot_main_loop g now l))).
    split; exact Hs.
  - apply reduce_Permutation, HQ.
  - apply reduce_app.
  - apply combine_assoc.
  - apply combine_comm.
Qed.

Lemma reduction_example :
  Permutation [ex_api; ex_web] [ex_web; ex_api]
  /\ same_outcome (Snapshot.main_loop ex_gateway ex_now [ex_api; ex_web])
                  (Snapshot.main_loop ex_gateway ex_now [ex_web; ex_api])
  /\ same_aggregates (reduce [vars ex_report; init_acc])
                     (reduce [init_acc; vars ex_report]).
Proof.
  destruct (reduction_any_order_any_grouping ex_gateway ex_now
              [ex_api; ex_web] [ex_web; ex_api] [ex_api] [ex_web]
              [vars ex_report; init_acc] [init_acc; vars ex_report]
              (perm_swap _ _ _) (perm_swap _ _ _))
    as [[(_ & Horder & _) _] (Hred & _)].
  split; [apply perm_swap|]. split; [exact Horder | exact Hred].
Defined.

(* ================================================================== *)
(** ** The average review cycle *)




Lemma sum_merged_fold {F} `{PyNum F} (prs : list PullRequest) :
  forall t c,
    fold_left (fun tc pr =>
                 match pr_merged_at pr with
                 | Some m => (fadd (fst tc) (of_int (m - pr_created_at pr)),
                              (snd tc + 1)%Z)
                 | None => tc
                 end)
              prs (t, c)
    = (fold_left fadd (map of_int (merged_durations prs)) t,
       (c + Z.of_nat (List.length (merged_durations prs)))%Z).
Proof.
  induction prs as [|pr prs IH]; intros t c.
  - simpl. now rewrite Z.add_0_r.
  - cbn [fold_left merged_durations flat_map].
    destruct (pr_merged_at pr) as [m|].
    + rewrite IH. cbn [fst snd app map fold_left List.length].
      f_equal. fold (merged_durations prs). lia.
    + rewrite IH. reflexivity.
Qed.

Lemma average_review_time_total {F} `{PyNum F} (prs : list PullRequest) :
  PrDaily.average_review_time prs =
  Some match merged_durations prs with
       | [] => of_int 0
       | ds => round2 (fdiv (fdiv (py_sum (map of_int ds)) (of_int 3600))
                            (of_int (Z.of_nat (List.length ds))))
       end.
Proof.
  unfold PrDaily.average_review_time, PrDaily.sum_merged.
  rewrite sum_merged_fold.
  destruct (merged_durations prs) as [|d ds]; [reflexivity|].
  unfold truediv.
  destruct (Z.eqb_spec (0 + Z.of_nat (List.length (d :: ds))) 0) as [E|_];
    [simpl in E; lia|].
  reflexivity.
Qed.


(* ================================================================== *)
(** ** Sets of logins, sorted and joined *)

Lemma str_in_In (x : string) (s : list string) :
  str_in x s = true <-> In x s.
Proof.
  unfold str_in. rewrite existsb_exists. split.
  - intros [y [Hin Heq]]. apply String.eqb_eq in Heq. now subst.
  - intros Hin. exists x. split; [exact Hin | apply String.eqb_refl].
Qed.

Lemma set_add_In (s : list string) (x y : string) :
  In y (set_add s x) <-> In y s \/ y = x.
Proof.
  unfold set_add. destruct (str_in x s) eqn:E.
  - apply str_in_In in E. split; [tauto|]. intros [H | -> ]; assumption.
  - rewrite in_app_iff. simpl. intuition.
Qed.

Lemma set_add_NoDup (s : list string) (x : string) :
  NoDup s -> NoDup (set_add s x).
Proof.
  intros Hs. unfold set_add. destruct (str_in x s) eqn:E; [exact Hs|].
  assert (Hx : ~ In x s).
  { intros Hin. apply str_in_In in Hin. congruence. }
  apply (Permutation_NoDup (Permutation_cons_append s x)).
  now constructor.
Qed.

Lemma first_seen_order_from (l : list string) :
  forall s,
    NoDup s ->
    NoDup (fold_left set_add l s)
    /\ forall x, In x (fold_left set_add l s) <-> In x s \/ In x l.
Proof.
  induction l as [|y l IH]; intros s Hs; simpl.
  - split; [exact Hs | tauto].
  - destruct (IH (set_add s y) (set_add_NoDup s y Hs)) as [Hnd Hin].
    split; [exact Hnd|]. intros x. rewrite Hin, set_add_In.
    intuition.
Qed.

Lemma first_seen_order_ok : set_order_ok first_seen_order.
Proof.
  intros l. destruct (first_seen_order_from l [] (NoDup_nil _)) as [Hnd Hin].
  split; [exact Hnd|]. intros x. unfold first_seen_order. rewrite Hin.
  simpl. tauto.
Qed.

Lemma add_stale_owners_spec (now : Z) (prs : list PullRequest) :
  forall s,
    NoDup s ->
    NoDup (add_stale_owners now prs s)
    /\ forall u, In u (add_stale_owners now prs s) <->
                 In u s \/ exists pr, In pr prs /\ stale now pr = true
                                      /\ pr_login pr = u.
Proof.
  unfold add_stale_owners.
  induction prs as [|pr prs IH]; intros s Hs; simpl.
  - split; [exact Hs|]. intros u. split; [tauto|].
    intros [H|[pr [[] _]]]. exact H.
  - destruct (stale now pr) eqn:E.
    + destruct (IH _ (set_add_NoDup s (pr_login pr) Hs)) as [Hnd Hin].
      split; [exact Hnd|]. intros u. rewrite Hin, set_add_In. split.
      * intros [[H | -> ]|[q [Hq Hs']]]; [tauto| |].
        -- right. exists pr. auto.
        -- right. exists q. tauto.
      * intros [H|[q [[<-|Hq] [Hst Hu]]]]; [tauto| |].
        -- left. right. now symmetry.
        -- right. exists q. auto.
    + destruct (IH _ Hs) as [Hnd Hin]. split; [exact Hnd|].
      intros u. rewrite Hin. split.
      * intros [H|[q [Hq Hs']]]; [tauto|]. right. exists q. tauto.
      * intros [H|[q [[<-|Hq] [Hst Hu]]]]; [tauto|congruence|].
        right. exists q. auto.
Qed.

Lemma stale_pr_owners_from (g : Gateway) (now : Z) (repos : list Repo) :
  forall s,
    NoDup s ->
    let s' := fold_left (fun s repo =>
                           match get_prs g repo StOpen with
                           | Some open_prs => add_stale_owners now open_prs s
                           | None => s
                           end) repos s in
    NoDup s' /\ forall u, In u s' <-> In u s \/ stale_author g now repos u.
Proof.
  unfold stale_author.
  induction repos as [|repo repos IH]; intros s Hs; simpl.
  - split; [exact Hs|]. intros u. split; [tauto|].
    intros [H|(r & o & p & [] & _)]. exact H.
  - destruct (get_prs g repo StOpen) as [open_prs|] eqn:E.
    + destruct (add_stale_owners_spec now open_prs s Hs) as [Hnd Hin].
      destruct (IH _ Hnd) as [Hnd' Hin']. split; [exact Hnd'|].
      intros u. rewrite Hin', Hin. split.
      * intros [[H|[pr (Hp & Hst & Hu)]]|(r & o & p & Hr & Ho & Hrest)].
        -- tauto.
        -- right. exists repo, open_prs, pr. auto.
        -- right. exists r, o, p. tauto.
      * intros [H|(r & o & p & [<-|Hr] & Ho & Hp & Hrest)].
        -- tauto.
        -- left. right. exists p.
           assert (o = open_prs) by congruence. subst o. tauto.
        -- right. exists r, o, p. tauto.
    + destruct (IH _ Hs) as [Hnd' Hin']. split; [exact Hnd'|].
      intros u. rewrite Hin'. split.
      * intros [H|(r & o & p & Hr & Hrest)]; [tauto|].
        right. exists r, o, p. tauto.
      * intros [H|(r & o & p & [<-|Hr] & Ho & Hrest)];
          [tauto | congruence |].
        right. exists r, o, p. tauto.
Qed.

(** *** Sorting *)

Lemma str_leb_spec (a b : string) :
  str_leb a b = true <-> a = b \/ str_lt a b.
Proof.
  unfold str_leb, str_lt.
  destruct (String_as_OT.compare_spec a b) as [E|L|G].
  - tauto.
  - tauto.
  - split; [discriminate|]. intros [ -> |L].
    + exfalso. exact (StrictOrder_Irreflexive _ G).
    + exfalso. exact (StrictOrder_Irreflexive _ (StrictOrder_Transitive _ _ _ L G)).
Qed.

Lemma str_leb_false (a b : string) : str_leb a b = false -> str_lt b a.
Proof.
  unfold str_leb, str_lt.
  destruct (String_as_OT.compare_spec a b) as [E|L|G]; try discriminate.
  intros _. exact G.
Qed.

Lemma insert_sorted_Permutation (x : string) (l : list string) :
  Permutation (insert_sorted x l) (x :: l).
Proof.
  induction l as [|y l IH]; simpl; [reflexivity|].
  destruct (str_leb x y); [reflexivity|].
  rewrite IH. apply perm_swap.
Qed.

Lemma sorted_Permutation (l : list string) : Permutation (sorted l) l.
Proof.
  induction l as [|x l IH]; simpl; [reflexivity|].
  rewrite insert_sorted_Permutation. now constructor.
Qed.

Lemma insert_sorted_strict (x : string) (l : list string) :
  StronglySorted str_lt l -> ~ In x l ->
  StronglySorted str_lt (insert_sorted x l).
Proof.
  induction 1 as [|y l Hl IH Hy]; intros Hx; simpl.
  - constructor; constructor.
  - destruct (str_leb x y) eqn:E.
    + apply str_leb_spec in E. destruct E as [ -> |L]; [simpl in Hx; tauto|].
      constructor; [constructor; assumption|].
      constructor; [exact L|].
      eapply Forall_impl; [|exact Hy]. intros z Hz.
      exact (StrictOrder_Transitive _ _ _ L Hz).
    + apply str_leb_false in E. constructor.
      * apply IH. simpl in Hx. tauto.
      * rewrite (Forall_forall (str_lt y)). intros z Hz.
        apply (Permutation_in _ (insert_sorted_Permutation x l)) in Hz.
        destruct Hz as [<-|Hz]; [exact E|].
        rewrite Forall_forall in Hy. now apply Hy.
Qed.

Lemma sorted_strict (l : list string) :
  NoDup l -> StronglySorted str_lt (sorted l).
Proof.
  induction 1 as [|x l Hx _ IH]; simpl; [constructor|].
  apply insert_sorted_strict; [exact IH|].
  intros Hin. apply Hx.
  exact (Permutation_in _ (sorted_Permutation l) Hin).
Qed.

Lemma sorted_nonempty (x : string) (l : list string) : sorted (x :: l) <> [].
Proof.
  intros E. pose proof (sorted_Permutation (x :: l)) as HP.
  rewrite E in HP. exact (Permutation_nil_cons HP).
Qed.

Lemma finish_fields {F} `{PyNum F} (g : Gateway) (now : Z) (repos : list Repo)
    (acc : Acc) (r : Report F) :
  finish g now repos acc = Some r ->
  stale_owners r = owners_stale_prs g now repos /\ blocker_owners r = "-".
Proof.
  unfold finish. rewrite avg_review_time_total. cbn [bind ret].
  intros [= <-]. split; reflexivity.
Qed.

Lemma set_order_authors (set_order : list string -> list string)
    (keep : PullRequest -> bool) (prs : list PullRequest) :
  set_order_ok set_order ->
  NoDup (set_order (map pr_login (filter keep prs)))
  /\ forall u, In u (set_order (map pr_login (filter keep prs))) <->
               exists pr, In pr prs /\ keep pr = true /\ pr_login pr = u.
Proof.
  intros Hok. destruct (Hok (map pr_login (filter keep prs))) as [Hnd Hin].
  split; [exact Hnd|]. intros u. rewrite Hin, in_map_iff. split.
  - intros [pr [Hu Hpr]]. apply filter_In in Hpr. exists pr. tauto.
  - intros [pr (Hpr & Hk & Hu)]. exists pr. rewrite filter_In. tauto.
Qed.

Lemma set_order_singleton (set_order : list string -> list string)
    (x : string) :
  set_order_ok set_order -> set_order [x] = [x].
Proof.
  intros Hok. destruct (Hok [x]) as [Hnd Hin].
  destruct (set_order [x]) as [|a [|b t]].
  - exfalso. apply (Hin x). simpl. auto.
  - f_equal. destruct (proj1 (Hin a)) as [E|[]]; simpl; auto.
  - exfalso.
    destruct (proj1 (Hin a)) as [Ea|[]]; [simpl; auto|].
    destruct (proj1 (Hin b)) as [Eb|[]]; [simpl; auto|].
    subst a b. inversion Hnd as [|? ? Hx _]. apply Hx. simpl. auto.
Qed.

(* ================================================================== *)
(** ** The owners named in the insights *)

(** C8, as the code has it: the two multi-repository scripts report the
    sentinel ["-"] as blocker owners on every input.  [pr_daily_report.py]
    is no stub: it joins, in the order the interpreter walks the set, the
    distinct authors of the open pull requests labelled hotfix or
    critical, and gives ["-"] when there is none. *)
Theorem blocker_owners_stub_in_multi_repo_reports {F} `{PyNum F}
    (g : Gateway) (now : Z) (r : Report F)
    (set_order : list string -> list string) (open_prs : list PullRequest) :
  Snapshot.main g now = Reported r \/ SendReport.main g now = Reported r ->
  set_order_ok set_order ->
  blocker_owners r = "-"
  /\ (exists owners,
        NoDup owners
        /\ (forall u, In u owners <->
                      exists pr, In pr open_prs /\ hotfix pr = true
                                 /\ pr_login pr = u)
        /\ PrDaily.blocker_owners set_order open_prs
           = PrDaily.or_dash (join ", " owners))
  /\ ((forall pr, In pr open_prs -> hotfix pr = false) ->
      PrDaily.blocker_owners set_order open_prs = "-").
Proof.
  intros Hmain Hok.
  destruct (main_reported g now r Hmain) as (repos & _ & _ & _ & Hfin).
  split; [exact (proj2 (finish_fields g now repos _ r Hfin))|].
  destruct (set_order_authors set_order hotfix open_prs Hok) as [Hnd Hin].
  split.
  - exists (set_order (map pr_login (filter hotfix open_prs))).
    split; [exact Hnd|]. split; [exact Hin | reflexivity].
  - intros Hnone. unfold PrDaily.blocker_owners, PrDaily.prs_hotfix.
    destruct (set_order (map pr_login (filter hotfix open_prs)))
      as [|u owners]; [reflexivity|].
    exfalso. destruct (proj1 (Hin u)) as [pr (Hpr & Hh & _)];
      [simpl; auto|].
    rewrite (Hnone pr Hpr) in Hh. discriminate.
Qed.

Lemma blocker_owners_example :
  Snapshot.main ex_gateway ex_now = Reported ex_report
  /\ set_order_ok first_seen_order
  /\ blocker_owners ex_report = "-"
  /\ PrDaily.blocker_owners first_seen_order [ex_pr2] = "-".
Proof.
  destruct (blocker_owners_stub_in_multi_repo_reports ex_gateway ex_now
              ex_report first_seen_order [ex_pr2]
              (or_introl ex_snapshot_main) first_seen_order_ok)
    as (Hstub & _ & Hnone).
  split; [exact ex_snapshot_main|]. split; [exact first_seen_order_ok|].
  split; [exact Hstub|]. apply Hnone.
  intros pr [<-|[]]. reflexivity.
Defined.

(** C8 fails as stated: on one open pull request by bob labelled
    [Hotfix], [pr_daily_report.py] names bob, whatever the order of the
    set. *)
Lemma pr_daily_blocker_owners_names_author :
  hotfix ex_pr1 = true
  /\ (forall set_order,
        set_order_ok set_order ->
        PrDaily.blocker_owners set_order [ex_pr1] = "bob")
  /\ PrDaily.blocker_owners first_seen_order [ex_pr1] = "bob"
  /\ ("bob" =? "-") = false.
Proof.
  split; [reflexivity|]. split; [|split; reflexivity].
  intros set_order Hok. unfold PrDaily.blocker_owners. simpl.
  now rewrite (set_order_singleton set_order "bob" Hok).
Qed.

(** C9, as the code has it: the two multi-repository scripts report the
    authors of the stale open pull requests (open for more than 7 days)
    of every repository whose open pull requests could be listed in the
    second pass, each once, in increasing order, joined by [", "], and
    ["-"] when there is none.  [pr_daily_report.py] joins the same set of
    one repository in the order the interpreter walks it, unsorted. *)
Theorem stale_pr_owners_listing {F} `{PyNum F} (g : Gateway) (now : Z)
    (repos : list Repo) (r : Report F)
    (set_order : list string -> list string) (open_prs : list PullRequest) :
  get_all_repos g = Some repos ->
  Snapshot.main g now = Reported r \/ SendReport.main g now = Reported r ->
  set_order_ok set_order ->
  (exists owners,
      StronglySorted str_lt owners
      /\ (forall u, In u owners <-> stale_author g now repos u)
      /\ stale_owners r = match owners with
                          | [] => "-"
                          | _ => join ", " owners
                          end)
  /\ (exists owners,
        NoDup owners
        /\ (forall u, In u owners <->
                      exists pr, In pr open_prs /\ stale now pr = true
                                 /\ pr_login pr = u)
        /\ PrDaily.owners_stale_prs set_order now open_prs
           = PrDaily.or_dash (join ", " owners)).
Proof.
  intros Hrepos Hmain Hok.
  destruct (main_reported g now r Hmain) as (repos' & Hr' & _ & _ & Hfin).
  assert (repos' = repos) by congruence. subst repos'.
  split.
  - destruct (stale_pr_owners_from g now repos [] (NoDup_nil _))
      as [Hnd Hin].
    fold (stale_pr_owners g now repos) in Hnd, Hin.
    exists (sorted (stale_pr_owners g now repos)). split; [|split].
    + apply sorted_strict, Hnd.
    + intros u. split.
      * intros Hu. apply (Permutation_in _ (sorted_Permutation _)) in Hu.
        apply Hin in Hu. destruct Hu as [[]|Hu]. exact Hu.
      * intros Hu.
        apply (Permutation_in _ (Permutation_sym (sorted_Permutation _))).
        apply Hin. right. exact Hu.
    + rewrite (proj1 (finish_fields g now repos _ r Hfin)).
      unfold owners_stale_prs.
      destruct (stale_pr_owners g now repos) as [|x l] eqn:E;
        [reflexivity|].
      destruct (sorted (x :: l)) eqn:Es; [|reflexivity].
      exfalso. exact (sorted_nonempty x l Es).
  - destruct (set_order_authors set_order (stale now) open_prs Hok)
      as [Hnd Hin].
    exists (set_order (map pr_login (filter (stale now) open_prs))).
    split; [exact Hnd|]. split; [exact Hin | reflexivity].
Qed.

Lemma stale_pr_owners_example :
  get_all_repos ex_gateway = Some [ex_api; ex_web]
  /\ Snapshot.main ex_gateway ex_now = Reported ex_report
  /\ set_order_ok first_seen_order
  /\ exists owners,
       StronglySorted str_lt owners
       /\ (forall u, In u owners <->
                     stale_author ex_gateway ex_now [ex_api; ex_web] u)
       /\ "bob" = match owners with
                  | [] => "-"
                  | _ => join ", " owners
                  end.
Proof.
  split; [reflexivity|]. split; [exact ex_snapshot_main|].
  split; [exact first_seen_order_ok|].
  exact (proj1 (stale_pr_owners_listing ex_gateway ex_now [ex_api; ex_web]
                  ex_report first_seen_order [ex_pr1; ex_pr4] eq_refl
                  (or_introl ex_snapshot_main) first_seen_order_ok)).
Defined.

(** C9 fails as stated: bob's stale pull request is listed before
    alice's, the set is walked by first appearance, and
    [pr_daily_report.py] prints bob before alice. *)
Lemma pr_daily_stale_owners_unsorted :
  set_order_ok first_seen_order
  /\ stale ex_now ex_pr1 = true /\ stale ex_now ex_pr4 = true
  /\ PrDaily.owners_stale_prs first_seen_order ex_now [ex_pr1; ex_pr4]
     = "bob, alice"
  /\ join ", " (sorted ["bob"; "alice"]) = "alice, bob".
Proof.
  split; [exact first_seen_order_ok|]. repeat split.
Qed.

(** A repository whose closed pull requests cannot be listed is skipped
    by the loop over the repositories, and the second pass still takes
    its stale owners from its open pull requests. *)
Lemma stale_owners_of_skipped_repository :
  retrieved ex_gateway_half ex_api = false
  /\ Snapshot.main_loop ex_gateway_half ex_now [ex_api] = Some init_acc
  /\ owners_stale_prs ex_gateway_half ex_now [ex_api] = "bob".
Proof. repeat split. Qed.

(* ================================================================== *)
(** ** Dictionaries *)

Section DictFacts.
Context {V : Type}.
Variables (default : V) (f : V -> V).

Lemma dict_get_update_same (k : string) (d : list (string * V)) :
  dict_get k (dict_update default f k d)
  = Some (f (dict_get_or default k d)).
Proof.
  unfold dict_get_or. induction d as [|[k' v] d IH]; simpl.
  - now rewrite String.eqb_refl.
  - destruct (k' =? k) eqn:E; simpl; rewrite E; [reflexivity | exact IH].
Qed.

Lemma dict_get_update_other (k k' : string) (d : list (string * V)) :
  k <> k' -> dict_get k' (dict_update default f k d) = dict_get k' d.
Proof.
  intros Hne. induction d as [|[k0 v] d IH]; simpl.
  - apply String.eqb_neq in Hne. now rewrite Hne.
  - destruct (k0 =? k) eqn:E; simpl.
    + apply String.eqb_eq in E. subst k0.
      apply String.eqb_neq in Hne. now rewrite Hne.
    + destruct (k0 =? k'); [reflexivity | exact IH].
Qed.

Lemma dict_update_keys (k : string) (d : list (string * V)) :
  forall x, In x (map fst (dict_update default f k d)) <->
            In x (map fst d) \/ x = k.
Proof.
  induction d as [|[k0 v] d IH]; intros x; simpl.
  - intuition.
  - destruct (k0 =? k) eqn:E; simpl.
    + apply String.eqb_eq in E. subst k0. intuition.
    + rewrite IH. intuition.
Qed.

Lemma dict_update_NoDup (k : string) (d : list (string * V)) :
  NoDup (map fst d) -> NoDup (map fst (dict_update default f k d)).
Proof.
  induction d as [|[k0 v] d IH]; simpl; intros Hnd.
  - constructor; [intros [] | constructor].
  - inversion Hnd as [|? ? Hk0 Hd]; subst.
    destruct (k0 =? k) eqn:E; simpl.
    + constructor; assumption.
    + constructor; [|now apply IH].
      rewrite dict_update_keys. intros [Hin| -> ]; [contradiction|].
      now rewrite String.eqb_refl in E.
Qed.

End DictFacts.

Section DictLookups.
Context {V : Type}.

Lemma dict_get_In (k : string) (v : V) (d : list (string * V)) :
  dict_get k d = Some v -> In (k, v) d.
Proof.
  induction d as [|[k0 v0] d IH]; simpl; [discriminate|].
  destruct (k0 =? k) eqn:E.
  - apply String.eqb_eq in E. intros [= ->]. left. now subst.
  - intros Hget. right. now apply IH.
Qed.

Lemma dict_In_get (k : string) (v : V) (d : list (string * V)) :
  NoDup (map fst d) -> In (k, v) d -> dict_get k d = Some v.
Proof.
  induction d as [|[k0 v0] d IH]; simpl; intros Hnd Hin; [contradiction|].
  inversion Hnd as [|? ? Hk0 Hd]; subst.
  destruct Hin as [[= -> ->]|Hin].
  - now rewrite String.eqb_refl.
  - destruct (k0 =? k) eqn:E; [|now apply IH].
    apply String.eqb_eq in E. subst k0. exfalso. apply Hk0.
    apply in_map_iff. exists (k, v). auto.
Qed.

Lemma dict_get_None (k : string) (d : list (string * V)) :
  ~ In k (map fst d) -> dict_get k d = None.
Proof.
  induction d as [|[k0 v0] d IH]; simpl; intros Hk; [reflexivity|].
  destruct (k0 =? k) eqn:E.
  - apply String.eqb_eq in E. tauto.
  - apply IH. tauto.
Qed.

End DictLookups.

(* ================================================================== *)
(** ** Reviews done *)

Lemma reviews_by_cons (u : string) (r : Review) (rs : list Review) :
  reviews_by u (r :: rs)
  = ((if (review_login r =? u)%string then 1 else 0) + reviews_by u rs)%nat.
Proof.
  unfold reviews_by. simpl. destruct (review_login r =? u); reflexivity.
Qed.

Lemma count_step_get (u k : string) (m : list (string * nat)) :
  dict_get_or 0%nat u (dict_update 0%nat S k m)
  = (dict_get_or 0%nat u m + if (k =? u)%string then 1 else 0)%nat.
Proof.
  destruct (k =? u) eqn:E.
  - apply String.eqb_eq in E. subst k. unfold dict_get_or at 1.
    rewrite dict_get_update_same. lia.
  - apply String.eqb_neq in E. unfold dict_get_or.
    rewrite (dict_get_update_other 0%nat S k u m E). lia.
Qed.

Lemma count_reviewers_get (u : string) (rs : list Review) :
  forall m,
    dict_get_or 0%nat u (count_reviewers rs m)
    = (dict_get_or 0%nat u m + reviews_by u rs)%nat.
Proof.
  unfold count_reviewers.
  induction rs as [|r rs IH]; intros m.
  - simpl. unfold reviews_by. simpl. lia.
  - cbn [fold_left]. rewrite IH, count_step_get, reviews_by_cons. lia.
Qed.

Lemma count_step_ok (k : string) (m : list (string * nat)) :
  counts_ok m -> counts_ok (dict_update 0%nat S k m).
Proof.
  intros [Hnd Hpos]. split; [now apply dict_update_NoDup|].
  intros k' c. destruct (String.eqb_spec k k') as [<-|Hne].
  - rewrite dict_get_update_same. intros [= <-]. lia.
  - rewrite (dict_get_update_other 0%nat S k k' m Hne). apply Hpos.
Qed.

Lemma count_reviewers_ok (rs : list Review) :
  forall m, counts_ok m -> counts_ok (count_reviewers rs m).
Proof.
  unfold count_reviewers.
  induction rs as [|r rs IH]; intros m Hm; simpl; [exact Hm|].
  apply IH, count_step_ok, Hm.
Qed.

Lemma reviews_on_cons (g : Gateway) (repo : Repo) (u : string) (n : Z)
    (ids : list Z) :
  reviews_on g repo u (n :: ids)
  = (reviews_by u (reviews_of g repo n) + reviews_on g repo u ids)%nat.
Proof.
  unfold reviews_on, reviews_of. simpl.
  destruct (get_reviews g repo n); reflexivity.
Qed.

Lemma count_all_from (g : Gateway) (repo : Repo) (u : string)
    (ids : list Z) :
  forall m,
    counts_ok m ->
    let m' := fold_left (fun m n => count_reviewers (reviews_of g repo n) m)
                        ids m in
    counts_ok m'
    /\ dict_get_or 0%nat u m'
       = (dict_get_or 0%nat u m + reviews_on g repo u ids)%nat.
Proof.
  induction ids as [|n ids IH]; intros m Hm; simpl.
  - split; [exact Hm|]. unfold reviews_on. simpl. lia.
  - destruct (IH _ (count_reviewers_ok (reviews_of g repo n) m Hm))
      as [Hok Hget].
    split; [exact Hok|].
    rewrite Hget, count_reviewers_get, reviews_on_cons. lia.
Qed.

Lemma count_all_reviewers_get (g : Gateway) (repo : Repo) (u : string)
    (ids : list Z) :
  NoDup (map fst (count_all_reviewers g repo ids))
  /\ dict_get u (count_all_reviewers g repo ids)
     = match reviews_on g repo u ids with
       | O => None
       | c => Some c
       end.
Proof.
  assert (H0 : counts_ok []).
  { split; [constructor | discriminate]. }
  destruct (count_all_from g repo u ids [] H0) as [[Hnd Hpos] Hget].
  fold (count_all_reviewers g repo ids) in Hnd, Hpos, Hget.
  split; [exact Hnd|].
  unfold dict_get_or in Hget. simpl in Hget.
  destruct (dict_get u (count_all_reviewers g repo ids)) as [c|] eqn:E.
  - specialize (Hpos u c E). rewrite <- Hget.
    destruct c; [lia | reflexivity].
  - now rewrite <- Hget.
Qed.

Lemma reviews_on_positive (g : Gateway) (repo : Repo) (u : string)
    (ids : list Z) (n : Z) (reviews : list Review) (rv : Review) :
  In n ids -> get_reviews g repo n = Some reviews ->
  In rv reviews -> review_login rv = u ->
  (0 < reviews_on g repo u ids)%nat.
Proof.
  intros Hn Hget Hrv Hu.
  assert (Hby : (0 < reviews_by u reviews)%nat).
  { unfold reviews_by.
    assert (Hin : In rv (filter (fun r => review_login r =? u) reviews)).
    { apply filter_In. split; [exact Hrv|]. now apply String.eqb_eq. }
    destruct (filter _ reviews); [contradiction | simpl; lia]. }
  induction ids as [|k ids IH]; [contradiction|].
  rewrite reviews_on_cons. destruct Hn as [->|Hn].
  - unfold reviews_of. rewrite Hget. lia.
  - specialize (IH Hn). lia.
Qed.

(** *** Writing the counts into the member map *)

Lemma store_reviews_done_get (u : string) (rdm : list (string * nat)) :
  NoDup (map fst rdm) ->
  forall m,
    dict_get u (store_reviews_done rdm m)
    = match dict_get u rdm with
      | Some c => Some (set_reviews_done c (dict_get_or default_stats u m))
      | None => dict_get u m
      end.
Proof.
  unfold store_reviews_done.
  induction rdm as [|[k c] rdm IH]; intros Hnd m; [reflexivity|].
  simpl in Hnd. inversion Hnd as [|? ? Hk Hrest]; subst.
  cbn [fold_left fst snd dict_get]. rewrite (IH Hrest).
  destruct (String.eqb_spec k u) as [->|Hne].
  - rewrite (dict_get_None u rdm Hk). apply dict_get_update_same.
  - unfold dict_get_or.
    now rewrite (dict_get_update_other default_stats _ k u m Hne).
Qed.

Lemma store_reviews_done_NoDup (rdm : list (string * nat)) :
  forall m, NoDup (map fst m) -> NoDup (map fst (store_reviews_done rdm m)).
Proof.
  unfold store_reviews_done.
  induction rdm as [|[k c] rdm IH]; intros m Hm; simpl; [exact Hm|].
  apply IH, dict_update_NoDup, Hm.
Qed.

Lemma count_authors_NoDup (bump : Stats -> Stats) (prs : list PullRequest) :
  forall m, NoDup (map fst m) -> NoDup (map fst (count_authors bump prs m)).
Proof.
  unfold count_authors.
  induction prs as [|pr prs IH]; intros m Hm; simpl; [exact Hm|].
  apply IH, dict_update_NoDup, Hm.
Qed.

Lemma count_authors_get_other (bump : Stats -> Stats) (u : string)
    (prs : list PullRequest) :
  (forall q, In q prs -> pr_login q <> u) ->
  forall m, dict_get u (count_authors bump prs m) = dict_get u m.
Proof.
  unfold count_authors.
  induction prs as [|pr prs IH]; intros Hprs m; simpl; [reflexivity|].
  rewrite IH by (intros q Hq; apply Hprs; now right).
  apply dict_get_update_other. apply Hprs. now left.
Qed.

Lemma members_of_NoDup (rs ms cs ns : list PullRequest) :
  NoDup (map fst (members_of rs ms cs ns)).
Proof.
  unfold members_of. repeat apply count_authors_NoDup. constructor.
Qed.

Lemma members_of_get_other (u : string) (rs ms cs ns : list PullRequest) :
  (forall q, In q rs \/ In q ms \/ In q cs \/ In q ns -> pr_login q <> u) ->
  dict_get u (members_of rs ms cs ns) = None.
Proof.
  intros Hq. unfold members_of.
  rewrite !count_authors_get_other; [reflexivity| | | |];
    intros q Hin; apply Hq; tauto.
Qed.

(** *** The row of a reviewer *)

Lemma process_repo_rows (g : Gateway) (now : Z) (acc acc' : Acc)
    (repo : Repo) (open_prs closed_prs : list PullRequest) :
  fetch g repo = Some (open_prs, closed_prs) ->
  Snapshot.process_repo g now acc repo = Some acc'
  \/ SendReport.process_repo g now acc repo = Some acc' ->
  member_rows acc'
  = (member_rows acc
     ++ map (row_of repo) (repo_members g now repo open_prs closed_prs))%list.
Proof.
  intros Hfetch. rewrite send_process_repo, snapshot_process_repo.
  destruct (repo_ok g now repo); [|intros [H|H]; discriminate].
  intros Hacc. assert (Hs : Some (combine acc (repo_aggregate g now repo))
                            = Some acc') by tauto.
  injection Hs as <-. unfold repo_aggregate. rewrite Hfetch. reflexivity.
Qed.

Lemma repo_members_NoDup (g : Gateway) (now : Z) (repo : Repo)
    (open_prs closed_prs : list PullRequest) :
  NoDup (map fst (repo_members g now repo open_prs closed_prs)).
Proof.
  unfold repo_members. apply store_reviews_done_NoDup, members_of_NoDup.
Qed.

Lemma repo_members_reviewer (g : Gateway) (now : Z) (repo : Repo)
    (open_prs closed_prs : list PullRequest) (u : string) :
  (0 < reviews_on g repo u (pr_ids_to_check now open_prs closed_prs))%nat ->
  exists s,
    dict_get u (repo_members g now repo open_prs closed_prs) = Some s
    /\ reviews_done s
       = reviews_on g repo u (pr_ids_to_check now open_prs closed_prs)
    /\ ((forall q, counted_pr g now repo open_prs closed_prs q ->
                   pr_login q <> u) ->
        raised s = 0 /\ merged s = 0 /\ st_changes_requested s = 0
        /\ st_not_approved s = 0)%nat.
Proof.
  intros Hpos. unfold repo_members.
  fold (pr_ids_to_check now open_prs closed_prs).
  destruct (count_all_reviewers_get g repo u
              (pr_ids_to_check now open_prs closed_prs)) as [Hnd Hget].
  rewrite (store_reviews_done_get u _ Hnd), Hget.
  destruct (reviews_on g repo u (pr_ids_to_check now open_prs closed_prs))
    as [|c] eqn:E; [lia|].
  eexists. split; [reflexivity|]. split; [reflexivity|].
  intros Hcounted. unfold dict_get_or.
  rewrite members_of_get_other; [repeat split|].
  intros q Hq. apply Hcounted. unfold counted_pr.
  destruct Hq as [Hq|[Hq|[Hq|Hq]]]; [tauto | tauto | |];
    apply filter_In in Hq; tauto.
Qed.

Lemma repo_rows_reviewer (g : Gateway) (now : Z) (repo : Repo)
    (open_prs closed_prs : list PullRequest) (u : string) :
  (0 < reviews_on g repo u (pr_ids_to_check now open_prs closed_prs))%nat ->
  exists row,
    In row (map (row_of repo) (repo_members g now repo open_prs closed_prs))
    /\ Member row = u /\ RepoName row = repo_name repo
    /\ (forall row',
          In row' (map (row_of repo)
                       (repo_members g now repo open_prs closed_prs)) ->
          Member row' = u -> row' = row)
    /\ Reviews_Done row
       = reviews_on g repo u (pr_ids_to_check now open_prs closed_prs)
    /\ ((forall q, counted_pr g now repo open_prs closed_prs q ->
                   pr_login q <> u) ->
        PRs_Raised row = 0 /\ PRs_Merged row = 0
        /\ Changes_Requested row = 0 /\ Not_Approved row = 0)%nat.
Proof.
  intros Hpos.
  destruct (repo_members_reviewer g now repo open_prs closed_prs u Hpos)
    as (s & Hget & Hdone & Hzero).
  exists (row_of repo (u, s)). split; [|split; [|split; [|split; [|split]]]].
  - apply in_map, dict_get_In, Hget.
  - reflexivity.
  - reflexivity.
  - intros row' Hin Hu. apply in_map_iff in Hin.
    destruct Hin as [[k s'] [<- Hin]]. simpl in Hu. subst k.
    apply (dict_In_get u s' _ (repo_members_NoDup g now repo _ _)) in Hin.
    congruence.
  - exact Hdone.
  - exact Hzero.
Qed.

(** C10: when a turn of the loop of either multi-repository script goes
    through on a repository, every login with a review on one of its pull
    requests raised or merged today has exactly one row among the rows
    the turn appends, under the name of the repository, with a positive
    [Reviews Done]; when that login is the author of no counted pull
    request, the other four counters of the row are 0. *)
Theorem reviewer_gets_a_row (g : Gateway) (now : Z) (acc acc' : Acc)
    (repo : Repo) (open_prs closed_prs : list PullRequest)
    (u : string) (pr : PullRequest) (reviews : list Review) (rv : Review) :
  fetch g repo = Some (open_prs, closed_prs) ->
  Snapshot.process_repo g now acc repo = Some acc'
  \/ SendReport.process_repo g now acc repo = Some acc' ->
  In pr (filter (raised_today now) (open_prs ++ closed_prs)
         ++ filter (merged_today now) closed_prs)%list ->
  get_reviews g repo (pr_number pr) = Some reviews ->
  In rv reviews -> review_login rv = u ->
  exists rows row,
    member_rows acc' = (member_rows acc ++ rows)%list
    /\ In row rows /\ Member row = u /\ RepoName row = repo_name repo
    /\ (forall row', In row' rows -> Member row' = u -> row' = row)
    /\ (0 < Reviews_Done row)%nat
    /\ ((forall q, counted_pr g now repo open_prs closed_prs q ->
                   pr_login q <> u) ->
        PRs_Raised row = 0 /\ PRs_Merged row = 0
        /\ Changes_Requested row = 0 /\ Not_Approved row = 0)%nat.
Proof.
  intros Hfetch Hturn Hpr Hget Hrv Hu.
  assert (Hpos : (0 < reviews_on g repo u
                         (pr_ids_to_check now open_prs closed_prs))%nat).
  { apply (reviews_on_positive g repo u _ (pr_number pr) reviews rv);
      auto.
    unfold pr_ids_to_check. now apply in_map. }
  destruct (repo_rows_reviewer g now repo open_prs closed_prs u Hpos)
    as (row & Hin & Hm & Hn & Huniq & Hdone & Hzero).
  exists (map (row_of repo) (repo_members g now repo open_prs closed_prs)), row.
  split; [exact (process_repo_rows g now acc acc' repo _ _ Hfetch Hturn)|].
  repeat (split; [assumption|]). split; [lia | exact Hzero].
Qed.

Lemma reviewer_gets_a_row_example :
  exists rows row,
    member_rows (vars ex_report) = (member_rows init_acc ++ rows)%list
    /\ In row rows /\ Member row = "alice" /\ RepoName row = "api"
    /\ (0 < Reviews_Done row)%nat
    /\ (PRs_Raised row = 0 /\ PRs_Merged row = 0
        /\ Changes_Requested row = 0 /\ Not_Approved row = 0)%nat.
Proof.
  destruct (reviewer_gets_a_row ex_gateway ex_now init_acc (vars ex_report)
              ex_api [ex_pr1; ex_pr2] [ex_pr3] "alice" ex_pr3 ex_reviews3
              (mkReview "APPROVED" "alice")
              eq_refl (or_introl eq_refl)
              (or_intror (or_intror (or_introl eq_refl))) eq_refl
              (or_introl eq_refl) eq_refl)
    as (rows & row & Hrows & Hin & Hm & Hn & _ & Hpos & Hzero).
  exists rows, row. repeat (split; [assumption|]). apply Hzero.
  intros q Hq E. unfold counted_pr in Hq. simpl in Hq.
  destruct Hq as [[<-|[<-|[]]]|[[<-|[]]|[[<-|[<-|[]]] _]]];
    discriminate E.
Defined.

(** *** Pull requests both raised and merged today *)

(** When no number comes twice in [pr_ids_to_check], the reviews counted
    are the reviews on the pull requests of today, each once. *)
Lemma reviews_on_distinct_ids (g : Gateway) (now : Z) (repo : Repo)
    (open_prs closed_prs : list PullRequest) (u : string) :
  NoDup (pr_ids_to_check now open_prs closed_prs) ->
  reviews_on g repo u (pr_ids_to_check now open_prs closed_prs)
  = reviews_on g repo u (todays_pr_ids now open_prs closed_prs).
Proof.
  intros Hnd. unfold todays_pr_ids.
  fold (pr_ids_to_check now open_prs closed_prs).
  now rewrite (nodup_fixed_point Z.eq_dec Hnd).
Qed.

(** C5 on its failing input: one pull request, raised and merged today,
    with one review by alice.  Its number is in [pr_ids_to_check] twice,
    and both scripts give alice 2 reviews done for the 1 she submitted. *)
Theorem reviews_done_counts_a_review_twice :
  both_loops (fun main_loop =>
    main_loop ex_gateway_once ex_now [ex_api]
    = Some (mkAcc 1 1 0 0 0 0 0 0 None [3600%Z]
              [mkRow "bob" 1 1 0 0 0 "api"; mkRow "alice" 0 0 0 0 2 "api"]))
  /\ pr_ids_to_check ex_now [] [ex_pr3] = [3%Z; 3%Z]
  /\ todays_pr_ids ex_now [] [ex_pr3] = [3%Z]
  /\ reviews_on ex_gateway_once ex_api "alice"
       (todays_pr_ids ex_now [] [ex_pr3]) = 1%nat.
Proof. repeat split. Qed.

(* ================================================================== *)
(** ** The scenarios of section 8, run *)

(** A pull request open for 9 days, labelled hotfix, without reviews. *)
Example old_hotfix_without_reviews :
  hotfix ex_pr1 = true /\ stale ex_now ex_pr1 = true
  /\ stuck ex_now ex_pr1 = true
  /\ pending_review_24h ex_now ex_pr1 [] = true
  /\ not_approved [] = true /\ changes_requested [] = false.
Proof. repeat split. Qed.

(** The window is inclusive: created at the first second of today. *)
Example raised_at_today_start :
  today_start ex_now = 1704844800%Z
  /\ raised_today ex_now (mkPR 9 "dave" 1704844800 None []) = true
  /\ raised_today ex_now (mkPR 9 "dave" 1704844799 None []) = false.
Proof. repeat split. Qed.

(** One pull request raised and merged at the same second, approved by
    alice: one raised, one merged, an average of 0 hours. *)
Example raised_and_merged_at_once :
  let pr := mkPR 1 "erin" 1704877200 (Some 1704877200%Z) [] in
  let g := mkGateway (Some [ex_api])
             (fun _ st => match st with
                          | StOpen => Some []
                          | StClosed => Some [pr]
                          end)
             (fun _ _ => Some [mkReview "approved" "alice"]) in
  exists r : Report float,
    Snapshot.main g ex_now = Reported r
    /\ total_raised (vars r) = 1%nat /\ total_merged (vars r) = 1%nat
    /\ total_changes_requested (vars r) = 0%nat
    /\ total_not_approved (vars r) = 0%nat
    /\ avg_review_cycle_hours r = float_of_Z 0.
Proof. eexists. repeat split. Qed.

(* ================================================================== *)
(** ** Pagination *)

Section Pagination.
Context {A : Type}.
Variables (not_found_is_empty : bool) (http : nat -> exc (Response A)).

Lemma good_page_status (page : nat) (data : list A) :
  good_page http page data ->
  exists st,
    http page = Some (mkResponse st (Some data))
    /\ (not_found_is_empty && (st =? 404)%Z) = false
    /\ raise_for_status (mkResponse st (Some data)) = Some tt.
Proof.
  intros (st & Hp & Hst). exists st. split; [exact Hp|].
  apply orb_true_iff in Hst. unfold raise_for_status. simpl. split.
  - destruct not_found_is_empty; [simpl|reflexivity].
    apply Z.eqb_neq. destruct Hst as [H|H]; lia.
  - replace ((400 <=? st)%Z && (st <? 600)%Z) with false; [reflexivity|].
    symmetry. apply andb_false_iff. destruct Hst as [H|H]; lia.
Qed.

Lemma paginate_from (pages : list (list A)) :
  forall page items fuel,
    (forall i data, nth_error pages i = Some data ->
                    good_page http (page + i) data /\ data <> []) ->
    (List.length pages < fuel)%nat ->
    paginate not_found_is_empty http fuel page items
    = paginate not_found_is_empty http (fuel - List.length pages)
               (page + List.length pages) (items ++ List.concat pages).
Proof.
  induction pages as [|data pages IH]; intros page items fuel Hpages Hfuel.
  - simpl. now rewrite Nat.sub_0_r, Nat.add_0_r, app_nil_r.
  - destruct fuel as [|fuel]; [simpl in Hfuel; lia|].
    destruct (Hpages 0%nat data eq_refl) as [Hgood Hne].
    rewrite Nat.add_0_r in Hgood.
    destruct (good_page_status page data Hgood) as (st & Hp & H404 & Hst).
    cbn [paginate]. rewrite Hp. cbn [status_code json]. rewrite H404, Hst.
    destruct data as [|d data]; [congruence|].
    rewrite IH.
    + cbn [List.length List.concat]. rewrite <- app_assoc.
      replace (S page + List.length pages)%nat
        with (page + S (List.length pages))%nat by lia.
      reflexivity.
    + intros i data' Hi.
      replace (S page + i)%nat with (page + S i)%nat by lia.
      apply (Hpages (S i) data' Hi).
    + simpl in Hfuel. lia.
Qed.

(** The listing is every page before the first empty one, in order. *)
Lemma paginate_collects (pages : list (list A)) (fuel : nat) :
  (forall i data, nth_error pages i = Some data ->
                  good_page http (1 + i) data /\ data <> []) ->
  good_page http (1 + List.length pages) [] ->
  (List.length pages < fuel)%nat ->
  paginate not_found_is_empty http fuel 1 [] = Some (Some (List.concat pages)).
Proof.
  intros Hpages Hlast Hfuel. rewrite (paginate_from pages); auto.
  destruct (fuel - List.length pages)%nat as [|rest] eqn:E; [lia|].
  destruct (good_page_status _ _ Hlast) as (st & Hp & H404 & Hst).
  cbn [paginate]. rewrite Hp. cbn [status_code json]. rewrite H404, Hst.
  reflexivity.
Qed.

(** A page that fails makes the whole listing raise. *)
Lemma paginate_raises (pages : list (list A)) (fuel : nat) :
  (forall i data, nth_error pages i = Some data ->
                  good_page http (1 + i) data /\ data <> []) ->
  bad_page not_found_is_empty http (1 + List.length pages) ->
  (List.length pages < fuel)%nat ->
  paginate not_found_is_empty http fuel 1 [] = Some None.
Proof.
  intros Hpages Hbad Hfuel. rewrite (paginate_from pages); auto.
  destruct (fuel - List.length pages)%nat as [|rest] eqn:E; [lia|].
  cbn [paginate].
  destruct Hbad as [Hp|(st & body & Hp & H404 & Herr)]; rewrite Hp;
    [reflexivity|].
  cbn [status_code json]. rewrite H404. unfold raise_for_status.
  cbn [status_code]. destruct Herr as [Herr| ->].
  - rewrite Herr. reflexivity.
  - destruct ((400 <=? st)%Z && (st <? 600)%Z); reflexivity.
Qed.

End Pagination.

(** X1: [get_prs] and [get_all_repos] return the items of every page
    before the first empty page, in page order, once the fuel covers
    those pages; more fuel gives the same listing. *)
Theorem listing_is_pages_before_first_empty {A}
    (http : nat -> exc (Response A)) (pages : list (list A)) (fuel : nat) :
  (forall i data, nth_error pages i = Some data ->
                  good_page http (1 + i) data /\ data <> []) ->
  good_page http (1 + List.length pages) [] ->
  (List.length pages < fuel)%nat ->
  Http.get_prs http fuel = Some (Some (List.concat pages))
  /\ Http.get_all_repos http fuel = Some (Some (List.concat pages)).
Proof.
  intros Hpages Hlast Hfuel.
  split; apply paginate_collects; assumption.
Qed.

Lemma ex_http_pages (i : nat) (data : list nat) :
  nth_error [[10; 11]; [12]]%nat i = Some data ->
  good_page ex_http (1 + i) data /\ data <> [].
Proof.
  destruct i as [|[|i]]; simpl.
  - intros [= <-]. split; [|discriminate]. exists 200%Z. now split.
  - intros [= <-]. split; [|discriminate]. exists 200%Z. now split.
  - destruct i; discriminate.
Qed.

Lemma listing_example :
  Http.get_prs ex_http 3 = Some (Some [10; 11; 12]%nat)
  /\ Http.get_all_repos ex_http 3 = Some (Some [10; 11; 12]%nat).
Proof.
  apply (listing_is_pages_before_first_empty ex_http
           [[10; 11]; [12]]%nat 3 ex_http_pages).
  - exists 200%Z. now split.
  - simpl. lia.
Defined.

(** X2: a 404 on any page makes [get_prs] of the multi-repository
    scripts return the empty list: the pages fetched before it are
    dropped, and nothing is raised. *)
Theorem not_found_drops_fetched_pages {A}
    (http : nat -> exc (Response A)) (pages : list (list A)) (fuel : nat)
    (body : exc (list A)) :
  (forall i data, nth_error pages i = Some data ->
                  good_page http (1 + i) data /\ data <> []) ->
  http (1 + List.length pages)%nat = Some (mkResponse 404 body) ->
  (List.length pages < fuel)%nat ->
  Http.get_prs http fuel = Some (Some []).
Proof.
  intros Hpages H404 Hfuel. unfold Http.get_prs.
  rewrite (paginate_from true http pages); auto.
  destruct (fuel - List.length pages)%nat as [|rest] eqn:E; [lia|].
  cbn [paginate]. rewrite H404. reflexivity.
Qed.

Lemma ex_http_404_pages (i : nat) (data : list nat) :
  nth_error [[10; 11]]%nat i = Some data ->
  good_page ex_http_404 (1 + i) data /\ data <> [].
Proof.
  destruct i as [|i]; simpl.
  - intros [= <-]. split; [|discriminate]. exists 200%Z. now split.
  - destruct i; discriminate.
Qed.

Lemma not_found_example : Http.get_prs ex_http_404 2 = Some (Some []).
Proof.
  exact (not_found_drops_fetched_pages ex_http_404 [[10; 11]]%nat 2 None
           ex_http_404_pages eq_refl (Nat.lt_succ_diag_r 1)).
Defined.

(** X3: a page whose request raises, whose status is another 4xx or 5xx
    code, or whose body does not parse makes the listing raise;
    [get_all_repos] (and [get_prs] of [pr_daily_report.py]) raises on a
    404 as well. *)
Theorem failed_page_raises {A}
    (http : nat -> exc (Response A)) (pages : list (list A)) (fuel : nat) :
  (forall i data, nth_error pages i = Some data ->
                  good_page http (1 + i) data /\ data <> []) ->
  (List.length pages < fuel)%nat ->
  (bad_page true http (1 + List.length pages) ->
   Http.get_prs http fuel = Some None)
  /\ (bad_page false http (1 + List.length pages) ->
      Http.get_all_repos http fuel = Some None).
Proof.
  intros Hpages Hfuel. split; intros Hbad.
  - now apply (paginate_raises true http pages).
  - now apply (paginate_raises false http pages).
Qed.

Lemma failed_page_example :
  Http.get_prs ex_http_500 2 = Some None
  /\ Http.get_all_repos ex_http_404 2 = Some None.
Proof.
  split.
  - apply (failed_page_raises ex_http_500 [[10; 11]]%nat 2).
    + intros [|[|i]] data; simpl; try discriminate.
      intros [= <-]. split; [|discriminate]. exists 200%Z. now split.
    + simpl. lia.
    + right. exists 500%Z, None. repeat split. now left.
  - apply (failed_page_raises ex_http_404 [[10; 11]]%nat 2
             ex_http_404_pages (Nat.lt_succ_diag_r 1)).
    right. exists 404%Z, None. repeat split. now left.
Defined.

(* ================================================================== *)
(** ** The totals count the pull requests of the listed repositories *)

Lemma fold_combine_total (t : Acc -> nat) :
  (forall a b, t (combine a b) = t a + t b)%nat ->
  forall l a, t (fold_left combine l a) = (t a + list_sum (map t l))%nat.
Proof.
  intros Hadd. induction l as [|b l IH]; intros a; simpl; [lia|].
  rewrite IH, Hadd. lia.
Qed.

Lemma count_where_app {A} (f : A -> bool) (l1 l2 : list A) :
  count_where f (l1 ++ l2) = (count_where f l1 + count_where f l2)%nat.
Proof. unfold count_where. now rewrite filter_app, length_app. Qed.

Lemma count_where_pair {A B} (f : A * B -> bool) (a : A) (l : list B) :
  count_where f (map (pair a) l)
  = List.length (filter (fun b => f (a, b)) l).
Proof.
  unfold count_where. induction l as [|b l IH]; simpl; [reflexivity|].
  destruct (f (a, b)); simpl; now rewrite IH.
Qed.

Lemma sum_over_listed (g : Gateway) (now : Z) (t : Acc -> nat)
    (fo fc : Repo * PullRequest -> bool) (repos : list Repo) :
  (forall repo,
      t (repo_aggregate g now repo)
      = match fetch g repo with
        | Some (o, c) => (List.length (filter (fun pr => fo (repo, pr)) o)
                          + List.length (filter (fun pr => fc (repo, pr)) c))%nat
        | None => 0%nat
        end) ->
  list_sum (map t (map (repo_aggregate g now) repos))
  = (count_where fo (listed_open g repos)
     + count_where fc (listed_closed g repos))%nat.
Proof.
  intros Ht. unfold listed_open, listed_closed.
  induction repos as [|repo repos IH]; [reflexivity|].
  cbn [map flat_map].
  change (list_sum (t (repo_aggregate g now repo)
                    :: map t (map (repo_aggregate g now) repos)))
    with (t (repo_aggregate g now repo)
          + list_sum (map t (map (repo_aggregate g now) repos)))%nat.
  rewrite !count_where_app, IH, Ht.
  destruct (fetch g repo) as [[o c]|].
  - rewrite !count_where_pair. lia.
  - unfold count_where. simpl. lia.
Qed.

Lemma length_filter_false {A} (l : list A) :
  List.length (filter (fun _ => false) l) = 0%nat.
Proof. induction l; simpl; auto. Qed.

Lemma count_where_false {A} (l : list A) :
  count_where (fun _ => false) l = 0%nat.
Proof. apply length_filter_false. Qed.

Lemma main_loop_reduce (g : Gateway) (now : Z) (repos : list Repo)
    (acc : Acc) :
  Snapshot.main_loop g now repos = Some acc ->
  acc = reduce (map (repo_aggregate g now) repos).
Proof.
  rewrite snapshot_main_loop.
  destruct (forallb (repo_ok g now) repos); [|discriminate].
  now intros [= <-].
Qed.

Section ListedTotals.
Variables (g : Gateway) (now : Z) (repos : list Repo).

Lemma reduce_total (t : Acc -> nat) (fo fc : Repo * PullRequest -> bool) :
  (forall a b, t (combine a b) = t a + t b)%nat -> t init_acc = 0%nat ->
  (forall repo,
      t (repo_aggregate g now repo)
      = match fetch g repo with
        | Some (o, c) => (List.length (filter (fun pr => fo (repo, pr)) o)
                          + List.length (filter (fun pr => fc (repo, pr)) c))%nat
        | None => 0%nat
        end) ->
  t (reduce (map (repo_aggregate g now) repos))
  = (count_where fo (listed_open g repos)
     + count_where fc (listed_closed g repos))%nat.
Proof.
  intros Hadd H0 Ht. unfold reduce.
  rewrite (fold_combine_total t Hadd), H0.
  now rewrite (sum_over_listed g now t fo fc repos Ht).
Qed.

Lemma reduce_open_total (t : Acc -> nat) (fo : Repo * PullRequest -> bool) :
  (forall a b, t (combine a b) = t a + t b)%nat -> t init_acc = 0%nat ->
  (forall repo,
      t (repo_aggregate g now repo)
      = match fetch g repo with
        | Some (o, c) => List.length (filter (fun pr => fo (repo, pr)) o)
        | None => 0%nat
        end) ->
  t (reduce (map (repo_aggregate g now) repos)) = count_where fo (listed_open g repos).
Proof.
  intros Hadd H0 Ht.
  rewrite (reduce_total t fo (fun _ => false) Hadd H0).
  - rewrite count_where_false. lia.
  - intros repo. rewrite Ht. destruct (fetch g repo) as [[o c]|]; [|reflexivity].
    rewrite length_filter_false. lia.
Qed.

Lemma reduce_totals :
  let acc := reduce (map (repo_aggregate g now) repos) in
  total_raised acc
  = (count_where (fun rp => raised_today now (snd rp)) (listed_open g repos)
     + count_where (fun rp => raised_today now (snd rp))
                   (listed_closed g repos))%nat
  /\ total_merged acc
     = count_where (fun rp => merged_today now (snd rp))
                   (listed_closed g repos)
  /\ total_changes_requested acc
     = count_where (fun rp => changes_requested
                                (pr_reviews g (fst rp) (snd rp)))
                   (listed_open g repos)
  /\ total_not_approved acc
     = count_where (fun rp => not_approved (pr_reviews g (fst rp) (snd rp)))
                   (listed_open g repos)
  /\ total_hotfix acc
     = count_where (fun rp => hotfix (snd rp)) (listed_open g repos)
  /\ total_pending_24h acc
     = count_where (fun rp => pending_review_24h now (snd rp)
                                (pr_reviews g (fst rp) (snd rp)))
                   (listed_open g repos)
  /\ pr_stuck acc
     = count_where (fun rp => stuck now (snd rp)) (listed_open g repos)
  /\ pending_release acc
     = count_where (fun rp => is_pending_release (snd rp))
                   (listed_open g repos).
Proof.
  cbv zeta. split; [|split; [|repeat split]].
  - apply (reduce_total total_raised); try reflexivity.
    intros repo. unfold repo_aggregate.
    destruct (fetch g repo) as [[o c]|]; [|reflexivity].
    cbn [total_raised fst snd]. now rewrite filter_app, length_app.
  - rewrite (reduce_total total_merged (fun _ => false)
               (fun rp => merged_today now (snd rp))); try reflexivity.
    + now rewrite count_where_false.
    + intros repo. unfold repo_aggregate.
      destruct (fetch g repo) as [[o c]|]; [|reflexivity].
      cbn [total_merged fst snd]. now rewrite length_filter_false.
  - apply (reduce_open_total total_changes_requested); try reflexivity.
    intros repo. unfold repo_aggregate.
    destruct (fetch g repo) as [[o c]|]; reflexivity.
  - apply (reduce_open_total total_not_approved); try reflexivity.
    intros repo. unfold repo_aggregate.
    destruct (fetch g repo) as [[o c]|]; reflexivity.
  - apply (reduce_open_total total_hotfix); try reflexivity.
    intros repo. unfold repo_aggregate.
    destruct (fetch g repo) as [[o c]|]; reflexivity.
  - apply (reduce_open_total total_pending_24h); try reflexivity.
    intros repo. unfold repo_aggregate.
    destruct (fetch g repo) as [[o c]|]; reflexivity.
  - apply (reduce_open_total pr_stuck); try reflexivity.
    intros repo. unfold repo_aggregate.
    destruct (fetch g repo) as [[o c]|]; reflexivity.
  - apply (reduce_open_total pending_release); try reflexivity.
    intros repo. unfold repo_aggregate.
    destruct (fetch g repo) as [[o c]|]; reflexivity.
Qed.

End ListedTotals.

(** X4: in the report of either multi-repository script each total is
    the number of pull requests of the listed repositories in its class:
    raised today among the open and the closed ones, merged today among
    the closed ones, and changes-requested, not-approved, hotfix, pending
    review for 24 hours, stuck and pending-release among the open
    ones. *)
Theorem totals_count_listed_pull_requests {F} `{PyNum F} (g : Gateway)
    (now : Z) (repos : list Repo) (r : Report F) :
  get_all_repos g = Some repos ->
  Snapshot.main g now = Reported r \/ SendReport.main g now = Reported r ->
  total_raised (vars r)
  = (count_where (fun rp => raised_today now (snd rp)) (listed_open g repos)
     + count_where (fun rp => raised_today now (snd rp))
                   (listed_closed g repos))%nat
  /\ total_merged (vars r)
     = count_where (fun rp => merged_today now (snd rp))
                   (listed_closed g repos)
  /\ total_changes_requested (vars r)
     = count_where (fun rp => changes_requested
                                (pr_reviews g (fst rp) (snd rp)))
                   (listed_open g repos)
  /\ total_not_approved (vars r)
     = count_where (fun rp => not_approved (pr_reviews g (fst rp) (snd rp)))
                   (listed_open g repos)
  /\ total_hotfix (vars r)
     = count_where (fun rp => hotfix (snd rp)) (listed_open g repos)
  /\ total_pending_24h (vars r)
     = count_where (fun rp => pending_review_24h now (snd rp)
                                (pr_reviews g (fst rp) (snd rp)))
                   (listed_open g repos)
  /\ pr_stuck (vars r)
     = count_where (fun rp => stuck now (snd rp)) (listed_open g repos)
  /\ pending_release (vars r)
     = count_where (fun rp => is_pending_release (snd rp))
                   (listed_open g repos).
Proof.
  intros Hrepos Hmain.
  destruct (main_reported g now r Hmain) as (repos' & Hr' & _ & Hloop & _).
  assert (repos' = repos) by congruence. subst repos'.
  rewrite (main_loop_reduce g now repos _ Hloop).
  exact (reduce_totals g now repos).
Qed.

Lemma totals_count_example :
  total_raised (vars ex_report) = (1 + 1)%nat
  /\ total_merged (vars ex_report) = 1%nat
  /\ total_changes_requested (vars ex_report) = 1%nat
  /\ total_not_approved (vars ex_report) = 1%nat
  /\ total_hotfix (vars ex_report) = 1%nat
  /\ total_pending_24h (vars ex_report) = 1%nat
  /\ pr_stuck (vars ex_report) = 1%nat
  /\ pending_release (vars ex_report) = 0%nat.
Proof.
  exact (totals_count_listed_pull_requests ex_gateway ex_now
           [ex_api; ex_web] ex_report eq_refl (or_introl ex_snapshot_main)).
Defined.

(* ================================================================== *)
(** ** The oldest open pull request *)

Lemma is_minimum_app (a b : option Z) (l1 l2 : list Z) :
  is_minimum a l1 -> is_minimum b l2 ->
  is_minimum (min_date a b) (l1 ++ l2).
Proof.
  destruct a as [x|], b as [y|]; simpl.
  - intros [Hx Hl1] [Hy Hl2]. split.
    + apply in_or_app.
      destruct (Z.min_spec x y) as [[_ ->]|[_ ->]]; auto.
    + apply Forall_app. split.
      * eapply Forall_impl; [|exact Hl1]. intros z Hz. simpl in Hz. lia.
      * eapply Forall_impl; [|exact Hl2]. intros z Hz. simpl in Hz. lia.
  - intros [Hx Hl1] ->. rewrite app_nil_r. auto.
  - intros -> [Hy Hl2]. auto.
  - intros -> ->. reflexivity.
Qed.

Lemma min_created_is_minimum (prs : list PullRequest) :
  is_minimum (min_created prs) (map pr_created_at prs).
Proof.
  induction prs as [|pr prs IH]; [reflexivity|].
  rewrite min_created_cons.
  apply (is_minimum_app (Some (pr_created_at pr)) (min_created prs)
           [pr_created_at pr] (map pr_created_at prs)); [|exact IH].
  simpl. split; [auto|]. constructor; [lia | constructor].
Qed.

Lemma repo_aggregate_oldest (g : Gateway) (now : Z) (repo : Repo) :
  is_minimum (oldest_open_date (repo_aggregate g now repo))
    (map (fun rp => pr_created_at (snd rp))
         (match fetch g repo with
          | Some (open_prs, _) => map (pair repo) open_prs
          | None => []
          end)).
Proof.
  unfold repo_aggregate. destruct (fetch g repo) as [[o c]|]; [|reflexivity].
  cbn [oldest_open_date]. rewrite map_map. cbn [snd].
  apply min_created_is_minimum.
Qed.

Lemma fold_combine_oldest (g : Gateway) (now : Z) (repos : list Repo) :
  forall a l,
    is_minimum (oldest_open_date a) l ->
    is_minimum
      (oldest_open_date
         (fold_left combine (map (repo_aggregate g now) repos) a))
      (l ++ map (fun rp => pr_created_at (snd rp)) (listed_open g repos)).
Proof.
  unfold listed_open.
  induction repos as [|repo repos IH]; intros a l Ha.
  - simpl. now rewrite app_nil_r.
  - cbn [map fold_left flat_map]. rewrite map_app, app_assoc.
    apply IH. cbn [combine oldest_open_date].
    apply is_minimum_app; [exact Ha | apply repo_aggregate_oldest].
Qed.

(** X5: the oldest open date a run ends with is the earliest creation
    date among the open pull requests of the listed repositories, and
    nothing when there is none; the age reported is the whole number of
    days from it to [now], and [0] without open pull requests. *)
Theorem oldest_open_is_earliest_listed {F} `{PyNum F} (g : Gateway)
    (now : Z) (repos : list Repo) (r : Report F) :
  get_all_repos g = Some repos ->
  Snapshot.main g now = Reported r \/ SendReport.main g now = Reported r ->
  is_minimum (oldest_open_date (vars r))
             (map (fun rp => pr_created_at (snd rp)) (listed_open g repos))
  /\ oldest_open_days r
     = match oldest_open_date (vars r) with
       | Some d => ((now - us d) / us 86400)%Z
       | None => 0%Z
       end.
Proof.
  intros Hrepos Hmain.
  destruct (main_reported g now r Hmain) as (repos' & Hr' & _ & Hloop & Hfin).
  assert (repos' = repos) by congruence. subst repos'. split.
  - rewrite (main_loop_reduce g now repos _ Hloop).
    exact (fold_combine_oldest g now repos init_acc [] eq_refl).
  - unfold finish in Hfin. rewrite avg_review_time_total in Hfin.
    cbn [bind ret] in Hfin. injection Hfin as Hr.
    rewrite <- Hr at 1. reflexivity.
Qed.

Lemma oldest_open_example :
  is_minimum (Some 1704110400%Z) [1704110400%Z; 1704877200%Z]
  /\ oldest_open_days ex_report = ((ex_now - us 1704110400) / us 86400)%Z.
Proof.
  exact (oldest_open_is_earliest_listed ex_gateway ex_now
           [ex_api; ex_web] ex_report eq_refl (or_introl ex_snapshot_main)).
Defined.

(* ================================================================== *)
(** ** The most active contributor and the heaviest reviewer *)

Lemma py_max_by_from {A} (key : A -> nat) (xs : list A) :
  forall before best after,
    Forall (fun y => key y < key best)%nat before ->
    Forall (fun y => key y <= key best)%nat after ->
    first_maximum key
      (fold_left (fun b y => if (key b <? key y)%nat then y else b) xs best)
      (before ++ best :: after ++ xs).
Proof.
  induction xs as [|y xs IH]; intros before best after Hb Ha.
  - simpl. exists before, after. rewrite app_nil_r. auto.
  - cbn [fold_left]. destruct (Nat.ltb_spec (key best) (key y)) as [Hlt|Hge].
    + replace (before ++ best :: after ++ y :: xs)%list
        with ((before ++ best :: after) ++ y :: [] ++ xs)%list
        by (now rewrite <- app_assoc).
      apply IH; [|constructor].
      apply Forall_app. split.
      * eapply Forall_impl; [|exact Hb]. intros z Hz. simpl in Hz. lia.
      * constructor; [exact Hlt|].
        eapply Forall_impl; [|exact Ha]. intros z Hz. simpl in Hz. lia.
    + replace (before ++ best :: after ++ y :: xs)%list
        with (before ++ best :: (after ++ [y]) ++ xs)%list
        by (now rewrite <- app_assoc).
      apply IH; [exact Hb|].
      apply Forall_app. split; [exact Ha | constructor; [exact Hge|constructor]].
Qed.

Lemma py_max_by_first {A} (key : A -> nat) (x : A) (xs : list A) :
  first_maximum key (py_max_by key x xs) (x :: xs).
Proof.
  exact (py_max_by_from key xs [] x [] (Forall_nil _) (Forall_nil _)).
Qed.

(** X6: the most active contributor is the member of the first row, in
    the order of the table, whose [PRs Raised] is the greatest, and the
    review load goes to the member of the first row whose [Reviews Done]
    is the greatest; both are ["-"] for an empty table. *)
Theorem insights_name_first_maximal_row {F} `{PyNum F} (g : Gateway)
    (now : Z) (r : Report F) :
  Snapshot.main g now = Reported r \/ SendReport.main g now = Reported r ->
  (member_rows (vars r) = [] ->
   most_active r = "-" /\ review_heavy r = "-")
  /\ (member_rows (vars r) <> [] ->
      exists active heavy,
        first_maximum PRs_Raised active (member_rows (vars r))
        /\ most_active r = Member active
        /\ first_maximum Reviews_Done heavy (member_rows (vars r))
        /\ review_heavy r = Member heavy).
Proof.
  intros Hmain.
  destruct (main_reported g now r Hmain) as (repos & _ & _ & _ & Hfin).
  unfold finish in Hfin. rewrite avg_review_time_total in Hfin.
  cbn [bind ret] in Hfin. injection Hfin as Hr.
  assert (Ha : most_active r = most_active_of (member_rows (vars r)))
    by (rewrite <- Hr at 1; reflexivity).
  assert (Hh : review_heavy r = review_heavy_of (member_rows (vars r)))
    by (rewrite <- Hr at 1; reflexivity).
  rewrite Ha, Hh. clear Ha Hh Hr.
  destruct (member_rows (vars r)) as [|row rows].
  - split; [intros _; split; reflexivity | congruence].
  - split; [discriminate|]. intros _.
    exists (py_max_by PRs_Raised row rows), (py_max_by Reviews_Done row rows).
    split; [apply py_max_by_first|]. split; [reflexivity|].
    split; [apply py_max_by_first | reflexivity].
Qed.

Lemma insights_example :
  Snapshot.main ex_gateway ex_now = Reported ex_report
  /\ exists active heavy,
       first_maximum PRs_Raised active (member_rows (vars ex_report))
       /\ "carol" = Member active
       /\ first_maximum Reviews_Done heavy (member_rows (vars ex_report))
       /\ "alice" = Member heavy.
Proof.
  split; [exact ex_snapshot_main|].
  apply (insights_name_first_maximal_row ex_gateway ex_now ex_report
           (or_introl ex_snapshot_main)).
  discriminate.
Defined.

(* ================================================================== *)
(** ** The rows of a repository, member by member *)

Lemma dict_get_or_update {V} (default : V) (f : V -> V) (k u : string)
    (d : list (string * V)) :
  dict_get_or default u (dict_update default f k d)
  = if k =? u then f (dict_get_or default u d) else dict_get_or default u d.
Proof.
  destruct (String.eqb_spec k u) as [->|Hne].
  - unfold dict_get_or at 1. now rewrite dict_get_update_same.
  - unfold dict_get_or. now rewrite (dict_get_update_other default f k u d Hne).
Qed.

Lemma dict_get_not_None {V} (k : string) (d : list (string * V)) :
  In k (map fst d) <-> dict_get k d <> None.
Proof.
  induction d as [|[k0 v] d IH]; simpl.
  - split; [tauto | congruence].
  - destruct (String.eqb_spec k0 k) as [->|Hne].
    + split; [discriminate | auto].
    + rewrite <- IH. split; [intros [E|Hin]; [contradiction | exact Hin] | auto].
Qed.

Lemma authored_cons (u : string) (pr : PullRequest) (prs : list PullRequest) :
  authored u (pr :: prs)
  = ((if (pr_login pr =? u)%string then 1 else 0) + authored u prs)%nat.
Proof.
  unfold authored. simpl. destruct (pr_login pr =? u); reflexivity.
Qed.

Lemma authored_positive (u : string) (prs : list PullRequest) :
  (0 < authored u prs)%nat <-> exists pr, In pr prs /\ pr_login pr = u.
Proof.
  unfold authored. split.
  - intros Hpos.
    destruct (filter (fun pr => pr_login pr =? u) prs) as [|pr l] eqn:E;
      [simpl in Hpos; lia|].
    assert (Hin : In pr (filter (fun pr => pr_login pr =? u) prs))
      by (rewrite E; now left).
    apply filter_In in Hin. exists pr. split; [tauto|].
    now apply String.eqb_eq.
  - intros (pr & Hin & Hu).
    assert (Hf : In pr (filter (fun pr => pr_login pr =? u) prs)).
    { apply filter_In. split; [exact Hin | now apply String.eqb_eq]. }
    destruct (filter _ prs); [contradiction | simpl; lia].
Qed.

Lemma count_authors_field (f : Stats -> nat) (bump : Stats -> Stats)
    (d : nat) (u : string) (prs : list PullRequest) :
  (forall s, f (bump s) = f s + d)%nat ->
  forall m,
    f (dict_get_or default_stats u (count_authors bump prs m))
    = (f (dict_get_or default_stats u m) + d * authored u prs)%nat.
Proof.
  intros Hbump. unfold count_authors.
  induction prs as [|pr prs IH]; intros m.
  - simpl. unfold authored. simpl. lia.
  - cbn [fold_left]. rewrite IH, dict_get_or_update, authored_cons.
    destruct (pr_login pr =? u); [rewrite Hbump|]; lia.
Qed.

Lemma count_authors_keys (bump : Stats -> Stats) (u : string)
    (prs : list PullRequest) :
  forall m,
    In u (map fst (count_authors bump prs m))
    <-> In u (map fst m) \/ (0 < authored u prs)%nat.
Proof.
  unfold count_authors.
  induction prs as [|pr prs IH]; intros m.
  - simpl. unfold authored. simpl. split; [tauto | intros [H|H]; [exact H|lia]].
  - cbn [fold_left]. rewrite IH, dict_update_keys, authored_cons.
    destruct (String.eqb_spec (pr_login pr) u) as [E|Hne].
    + split; [intros _; right; lia | intros _; left; right; now symmetry].
    + split.
      * intros [[Hin|E]|Hpos]; [tauto | now symmetry in E | right; lia].
      * intros [Hin|Hpos]; [tauto | right; lia].
Qed.

Lemma store_reviews_done_keys (u : string) (rdm : list (string * nat)) :
  forall m,
    In u (map fst (store_reviews_done rdm m))
    <-> In u (map fst m) \/ In u (map fst rdm).
Proof.
  unfold store_reviews_done.
  induction rdm as [|[k c] rdm IH]; intros m.
  - simpl. tauto.
  - cbn [fold_left fst snd map]. rewrite IH, dict_update_keys. simpl.
    intuition.
Qed.

Lemma members_of_fields (u : string) (rs ms cs ns : list PullRequest) :
  let b := dict_get_or default_stats u (members_of rs ms cs ns) in
  raised b = authored u rs /\ merged b = authored u ms
  /\ st_changes_requested b = authored u cs
  /\ st_not_approved b = authored u ns
  /\ reviews_done b = 0%nat.
Proof.
  unfold members_of. cbv zeta. repeat split.
  - rewrite (count_authors_field raised incr_not_approved 0),
            (count_authors_field raised incr_changes_requested 0),
            (count_authors_field raised incr_merged 0),
            (count_authors_field raised incr_raised 1);
      try (intros s; simpl; lia).
    unfold dict_get_or. simpl. lia.
  - rewrite (count_authors_field merged incr_not_approved 0),
            (count_authors_field merged incr_changes_requested 0),
            (count_authors_field merged incr_merged 1),
            (count_authors_field merged incr_raised 0);
      try (intros s; simpl; lia).
    unfold dict_get_or. simpl. lia.
  - rewrite (count_authors_field st_changes_requested incr_not_approved 0),
            (count_authors_field st_changes_requested
               incr_changes_requested 1),
            (count_authors_field st_changes_requested incr_merged 0),
            (count_authors_field st_changes_requested incr_raised 0);
      try (intros s; simpl; lia).
    unfold dict_get_or. simpl. lia.
  - rewrite (count_authors_field st_not_approved incr_not_approved 1),
            (count_authors_field st_not_approved incr_changes_requested 0),
            (count_authors_field st_not_approved incr_merged 0),
            (count_authors_field st_not_approved incr_raised 0);
      try (intros s; simpl; lia).
    unfold dict_get_or. simpl. lia.
  - rewrite (count_authors_field reviews_done incr_not_approved 0),
            (count_authors_field reviews_done incr_changes_requested 0),
            (count_authors_field reviews_done incr_merged 0),
            (count_authors_field reviews_done incr_raised 0);
      try (intros s; simpl; lia).
    unfold dict_get_or. simpl. lia.
Qed.

Lemma members_of_keys (u : string) (rs ms cs ns : list PullRequest) :
  In u (map fst (members_of rs ms cs ns))
  <-> (0 < authored u rs + authored u ms + authored u cs + authored u ns)%nat.
Proof.
  unfold members_of. rewrite !count_authors_keys. simpl. split.
  - intros [[[[[]|H]|H]|H]|H]; lia.
  - intros H.
    destruct (authored u ns) eqn:En; [|right; lia].
    destruct (authored u cs) eqn:Ec; [|left; right; lia].
    destruct (authored u ms) eqn:Em; [|left; left; right; lia].
    left. left. left. right. lia.
Qed.

Section RepoRows.
Variables (g : Gateway) (now : Z) (repo : Repo).
Variables (open_prs closed_prs : list PullRequest).

Lemma repo_members_fields (u : string) (s : Stats) :
  In (u, s) (repo_members g now repo open_prs closed_prs) ->
  raised s = authored u (filter (raised_today now) (open_prs ++ closed_prs))
  /\ merged s = authored u (filter (merged_today now) closed_prs)
  /\ st_changes_requested s
     = authored u (filter (fun pr => changes_requested (pr_reviews g repo pr))
                          open_prs)
  /\ st_not_approved s
     = authored u (filter (fun pr => not_approved (pr_reviews g repo pr))
                          open_prs)
  /\ reviews_done s
     = reviews_on g repo u (pr_ids_to_check now open_prs closed_prs).
Proof.
  intros Hin.
  apply (dict_In_get u s _ (repo_members_NoDup g now repo _ _)) in Hin.
  unfold repo_members in Hin.
  fold (pr_ids_to_check now open_prs closed_prs) in Hin.
  destruct (count_all_reviewers_get g repo u
              (pr_ids_to_check now open_prs closed_prs)) as [Hnd Hget].
  rewrite (store_reviews_done_get u _ Hnd), Hget in Hin.
  destruct (members_of_fields u
              (filter (raised_today now) (open_prs ++ closed_prs))
              (filter (merged_today now) closed_prs)
              (filter (fun pr => changes_requested (pr_reviews g repo pr))
                      open_prs)
              (filter (fun pr => not_approved (pr_reviews g repo pr))
                      open_prs)) as (Hr & Hm & Hc & Hn & Hd).
  destruct (reviews_on g repo u (pr_ids_to_check now open_prs closed_prs))
    as [|c] eqn:E.
  - unfold dict_get_or in Hr, Hm, Hc, Hn, Hd. rewrite Hin in *.
    repeat split; assumption.
  - injection Hin as <-. simpl. repeat split; assumption.
Qed.

Lemma repo_members_keys (u : string) :
  In u (map fst (repo_members g now repo open_prs closed_prs))
  <-> (exists pr, counted_pr g now repo open_prs closed_prs pr
                  /\ pr_login pr = u)
      \/ (0 < reviews_on g repo u
                (pr_ids_to_check now open_prs closed_prs))%nat.
Proof.
  unfold repo_members. fold (pr_ids_to_check now open_prs closed_prs).
  rewrite store_reviews_done_keys, members_of_keys.
  destruct (count_all_reviewers_get g repo u
              (pr_ids_to_check now open_prs closed_prs)) as [_ Hget].
  rewrite dict_get_not_None, Hget.
  assert (Hauth :
    (0 < authored u (filter (raised_today now) (open_prs ++ closed_prs))
         + authored u (filter (merged_today now) closed_prs)
         + authored u (filter (fun pr => changes_requested
                                           (pr_reviews g repo pr)) open_prs)
         + authored u (filter (fun pr => not_approved (pr_reviews g repo pr))
                              open_prs))%nat
    <-> exists pr, counted_pr g now repo open_prs closed_prs pr
                   /\ pr_login pr = u).
  { unfold counted_pr. split.
    - intros Hpos.
      destruct (authored u (filter (raised_today now)
                              (open_prs ++ closed_prs))) eqn:E1.
      + destruct (authored u (filter (merged_today now) closed_prs)) eqn:E2.
        * destruct (authored u (filter (fun pr => changes_requested
                      (pr_reviews g repo pr)) open_prs)) eqn:E3.
          -- assert (Hp : (0 < authored u (filter (fun pr => not_approved
                             (pr_reviews g repo pr)) open_prs))%nat) by lia.
             apply authored_positive in Hp. destruct Hp as (pr & Hin & Hu).
             apply filter_In in Hin. exists pr. tauto.
          -- assert (Hp : (0 < authored u (filter (fun pr => changes_requested
                             (pr_reviews g repo pr)) open_prs))%nat) by lia.
             apply authored_positive in Hp. destruct Hp as (pr & Hin & Hu).
             apply filter_In in Hin. exists pr. tauto.
        * assert (Hp : (0 < authored u (filter (merged_today now)
                                          closed_prs))%nat) by lia.
          apply authored_positive in Hp. destruct Hp as (pr & Hin & Hu).
          exists pr. tauto.
      + assert (Hp : (0 < authored u (filter (raised_today now)
                                        (open_prs ++ closed_prs)))%nat) by lia.
        apply authored_positive in Hp. destruct Hp as (pr & Hin & Hu).
        exists pr. tauto.
    - intros (pr & [Hin|[Hin|[Hin [Hc|Hn]]]] & Hu).
      + assert (Hp := proj2 (authored_positive u _)
                        (ex_intro _ pr (conj Hin Hu))). lia.
      + assert (Hp := proj2 (authored_positive u _)
                        (ex_intro _ pr (conj Hin Hu))). lia.
      + assert (Hf : In pr (filter (fun pr => changes_requested
                              (pr_reviews g repo pr)) open_prs))
          by (apply filter_In; tauto).
        assert (Hp := proj2 (authored_positive u _)
                        (ex_intro _ pr (conj Hf Hu))). lia.
      + assert (Hf : In pr (filter (fun pr => not_approved
                              (pr_reviews g repo pr)) open_prs))
          by (apply filter_In; tauto).
        assert (Hp := proj2 (authored_positive u _)
                        (ex_intro _ pr (conj Hf Hu))). lia. }
  rewrite Hauth.
  destruct (reviews_on g repo u (pr_ids_to_check now open_prs closed_prs)).
  - split; [intros [Hl|Hr]; [tauto | congruence] | intros [Hl|Hr]; [tauto|lia]].
  - split; intros _; right; [lia | discriminate].
Qed.

End RepoRows.

(** X7: every row a repository adds to the member table carries the
    name of the repository and, for its member, the number of pull
    requests raised today, merged today, open with changes requested and
    open without approval that the member authored; its [Reviews Done]
    is the number of reviews the member has on the pull requests of
    [pr_ids_to_check], a number listed twice counting twice. *)
Theorem member_row_counts (g : Gateway) (now : Z) (acc acc' : Acc)
    (repo : Repo) (open_prs closed_prs : list PullRequest) :
  fetch g repo = Some (open_prs, closed_prs) ->
  Snapshot.process_repo g now acc repo = Some acc'
  \/ SendReport.process_repo g now acc repo = Some acc' ->
  exists rows,
    member_rows acc' = (member_rows acc ++ rows)%list
    /\ forall row,
         In row rows ->
         RepoName row = repo_name repo
         /\ PRs_Raised row
            = authored (Member row)
                (filter (raised_today now) (open_prs ++ closed_prs))
         /\ PRs_Merged row
            = authored (Member row) (filter (merged_today now) closed_prs)
         /\ Changes_Requested row
            = authored (Member row)
                (filter (fun pr => changes_requested (pr_reviews g repo pr))
                        open_prs)
         /\ Not_Approved row
            = authored (Member row)
                (filter (fun pr => not_approved (pr_reviews g repo pr))
                        open_prs)
         /\ Reviews_Done row
            = reviews_on g repo (Member row)
                (pr_ids_to_check now open_prs closed_prs).
Proof.
  intros Hfetch Hturn.
  exists (map (row_of repo) (repo_members g now repo open_prs closed_prs)).
  split; [exact (process_repo_rows g now acc acc' repo _ _ Hfetch Hturn)|].
  intros row Hin. apply in_map_iff in Hin. destruct Hin as [[u s] [<- Hin]].
  split; [reflexivity|].
  exact (repo_members_fields g now repo open_prs closed_prs u s Hin).
Qed.

Lemma ex_process_api :
  Snapshot.process_repo ex_gateway ex_now init_acc ex_api
  = Some (vars ex_report).
Proof. vm_compute. reflexivity. Qed.

Lemma member_row_counts_example :
  exists rows,
    member_rows (vars ex_report) = (member_rows init_acc ++ rows)%list
    /\ forall row,
         In row rows ->
         RepoName row = "api"
         /\ PRs_Raised row = authored (Member row) [ex_pr2; ex_pr3]
         /\ PRs_Merged row = authored (Member row) [ex_pr3]
         /\ Changes_Requested row = authored (Member row) [ex_pr2]
         /\ Not_Approved row = authored (Member row) [ex_pr1]
         /\ Reviews_Done row
            = reviews_on ex_gateway ex_api (Member row) [2; 3; 3]%Z.
Proof.
  exact (member_row_counts ex_gateway ex_now init_acc (vars ex_report)
           ex_api [ex_pr1; ex_pr2] [ex_pr3] eq_refl
           (or_introl ex_process_api)).
Defined.

(** X8: among the rows a repository adds no login comes twice, and a
    login has a row exactly when it authored a counted pull request
    (raised today, merged today, or open with changes requested or
    without approval) or has a review on a pull request of
    [pr_ids_to_check]. *)
Theorem member_rows_one_per_active_login (g : Gateway) (now : Z)
    (acc acc' : Acc) (repo : Repo) (open_prs closed_prs : list PullRequest) :
  fetch g repo = Some (open_prs, closed_prs) ->
  Snapshot.process_repo g now acc repo = Some acc'
  \/ SendReport.process_repo g now acc repo = Some acc' ->
  exists rows,
    member_rows acc' = (member_rows acc ++ rows)%list
    /\ NoDup (map Member rows)
    /\ forall u,
         In u (map Member rows)
         <-> (exists pr, counted_pr g now repo open_prs closed_prs pr
                         /\ pr_login pr = u)
             \/ (0 < reviews_on g repo u
                       (pr_ids_to_check now open_prs closed_prs))%nat.
Proof.
  intros Hfetch Hturn.
  exists (map (row_of repo) (repo_members g now repo open_prs closed_prs)).
  split; [exact (process_repo_rows g now acc acc' repo _ _ Hfetch Hturn)|].
  assert (Hm : map Member
                 (map (row_of repo)
                      (repo_members g now repo open_prs closed_prs))
               = map fst (repo_members g now repo open_prs closed_prs)).
  { rewrite map_map. apply map_ext. intros [u s]. reflexivity. }
  rewrite Hm. split; [apply repo_members_NoDup|].
  intros u. apply repo_members_keys.
Qed.

Lemma member_rows_one_per_active_login_example :
  exists rows,
    member_rows (vars ex_report) = (member_rows init_acc ++ rows)%list
    /\ NoDup (map Member rows)
    /\ forall u,
         In u (map Member rows)
         <-> (exists pr,
                 counted_pr ex_gateway ex_now ex_api [ex_pr1; ex_pr2]
                            [ex_pr3] pr
                 /\ pr_login pr = u)
             \/ (0 < reviews_on ex_gateway ex_api u [2; 3; 3]%Z)%nat.
Proof.
  exact (member_rows_one_per_active_login ex_gateway ex_now init_acc
           (vars ex_report) ex_api [ex_pr1; ex_pr2] [ex_pr3] eq_refl
           (or_introl ex_process_api)).
Defined.

(* ================================================================== *)
(** ** The member table across repositories *)

Lemma repo_aggregate_rows (g : Gateway) (now : Z) (repo : Repo) :
  member_rows (repo_aggregate g now repo) = repo_rows g now repo.
Proof.
  unfold repo_aggregate, repo_rows.
  destruct (fetch g repo) as [[o c]|]; reflexivity.
Qed.

Lemma fold_combine_rows (g : Gateway) (now : Z) (repos : list Repo) :
  forall a,
    member_rows (fold_left combine (map (repo_aggregate g now) repos) a)
    = (member_rows a ++ flat_map (repo_rows g now) repos)%list.
Proof.
  induction repos as [|repo repos IH]; intros a; simpl.
  - now rewrite app_nil_r.
  - rewrite IH. cbn [combine member_rows].
    now rewrite repo_aggregate_rows, <- app_assoc.
Qed.

Lemma flat_map_Permutation {A B} (f : A -> list B) (l l' : list A) :
  Permutation l l' -> Permutation (flat_map f l) (flat_map f l').
Proof.
  induction 1; simpl.
  - constructor.
  - now apply Permutation_app_head.
  - rewrite !app_assoc. apply Permutation_app_tail, Permutation_app_comm.
  - etransitivity; eassumption.
Qed.

(** X9: the member table of a run is the rows of its repositories one
    repository after the other, in the order of the run; rows of
    different repositories are never merged, so running over the
    repositories in another order only permutes the table. *)
Theorem member_table_is_rows_per_repository (g : Gateway) (now : Z)
    (repos repos' : list Repo) (acc acc' : Acc) :
  Permutation repos repos' ->
  both_loops (fun main_loop =>
    main_loop g now repos = Some acc ->
    main_loop g now repos' = Some acc' ->
    member_rows acc = flat_map (repo_rows g now) repos
    /\ Permutation (member_rows acc) (member_rows acc')).
Proof.
  intros HP. unfold both_loops. rewrite !send_main_loop.
  assert (Hs : Snapshot.main_loop g now repos = Some acc ->
               Snapshot.main_loop g now repos' = Some acc' ->
               member_rows acc = flat_map (repo_rows g now) repos
               /\ Permutation (member_rows acc) (member_rows acc')).
  { intros H1 H2.
    rewrite (main_loop_reduce g now repos acc H1),
            (main_loop_reduce g now repos' acc' H2).
    unfold reduce. rewrite !fold_combine_rows. simpl.
    split; [reflexivity | now apply flat_map_Permutation]. }
  split; exact Hs.
Qed.

Lemma member_table_example :
  member_rows (vars ex_report)
  = flat_map (repo_rows ex_gateway ex_now) [ex_api; ex_web]
  /\ Permutation (member_rows (vars ex_report)) (member_rows (vars ex_report)).
Proof.
  apply (proj1 (member_table_is_rows_per_repository ex_gateway ex_now
                  [ex_api; ex_web] [ex_web; ex_api]
                  (vars ex_report) (vars ex_report) (perm_swap _ _ _)));
    vm_compute; reflexivity.
Defined.

(* ================================================================== *)
(** ** The window of a run *)

(** X10: [today_start] is the last UTC midnight at or before [now], and a
    pull request counts as raised today exactly when the UTC day of its
    creation is the day of the run or a later one; the bound is
    inclusive. *)
Theorem raised_today_is_same_day_or_later (now : Z) (pr : PullRequest) :
  (today_start now mod 86400 = 0)%Z
  /\ (us (today_start now) <= now < us (today_start now + 86400))%Z
  /\ (raised_today now pr = true
      <-> (now / us 86400 <= pr_created_at pr / 86400)%Z)
  /\ raised_today now (mkPR (pr_number pr) (pr_login pr) (today_start now)
                            (pr_merged_at pr) (pr_labels pr)) = true.
Proof.
  unfold raised_today, today_start, us. cbn [pr_created_at].
  set (q := (now / (86400 * 1000000))%Z).
  assert (Hdm := Z.div_mod now (86400 * 1000000) ltac:(lia)).
  assert (Hmod := Z.mod_pos_bound now (86400 * 1000000) ltac:(lia)).
  fold q in Hdm. split; [|split; [|split]].
  - apply Z.mod_mul. lia.
  - lia.
  - rewrite Z.leb_le. split.
    + intros Hle. apply Z.div_le_lower_bound; lia.
    + intros Hle.
      assert (Hc := Z.mul_div_le (pr_created_at pr) 86400 ltac:(lia)).
      nia.
  - apply Z.leb_refl.
Qed.

(* ================================================================== *)
(** ** pr_daily_report.py against the multi-repository scripts *)

Lemma fold_append_if {A} (f : A -> bool) (l : list A) :
  forall acc,
    fold_left (fun a x => append_if (f x) a x) l acc
    = (acc ++ filter f l)%list.
Proof.
  induction l as [|x l IH]; intros acc; simpl.
  - now rewrite app_nil_r.
  - rewrite IH, append_if_app, <- app_assoc. destruct (f x); reflexivity.
Qed.

Lemma is_changes_requested_any (reviews : list Review) :
  PrDaily.is_changes_requested reviews = changes_requested reviews.
Proof.
  apply eq_true_iff_eq. unfold PrDaily.is_changes_requested.
  rewrite scan_changes_requested_exists. unfold changes_requested.
  rewrite str_in_states.
  split; intros [r [Hin Hr]]; exists r; split; auto.
  - now apply in_rev.
  - now apply in_rev in Hin.
Qed.

Section DailyLoops.
Variables (g : Gateway) (repo : Repo) (now : Z).

Lemma daily_changes_requested (open_prs : list PullRequest) :
  PrDaily.prs_with_changes_requested g repo open_prs
  = if forallb (fun pr => reviews_ok g repo (pr_number pr)) open_prs
    then Some (filter (fun pr => changes_requested (pr_reviews g repo pr))
                      open_prs)
    else None.
Proof.
  unfold PrDaily.prs_with_changes_requested.
  rewrite (for_each_pure _ (fun pr => reviews_ok g repo (pr_number pr))
             (fun a pr => append_if (changes_requested (pr_reviews g repo pr))
                                    a pr)).
  - now rewrite fold_append_if.
  - intros a pr. unfold reviews_ok, pr_reviews, reviews_of.
    destruct (get_reviews g repo (pr_number pr)); [|reflexivity].
    cbn [bind ret]. now rewrite is_changes_requested_any.
Qed.

Lemma daily_not_approved (open_prs : list PullRequest) :
  PrDaily.prs_not_approved g repo open_prs
  = if forallb (fun pr => reviews_ok g repo (pr_number pr)) open_prs
    then Some (filter (fun pr => not_approved (pr_reviews g repo pr))
                      open_prs)
    else None.
Proof.
  unfold PrDaily.prs_not_approved.
  rewrite (for_each_pure _ (fun pr => reviews_ok g repo (pr_number pr))
             (fun a pr => append_if (not_approved (pr_reviews g repo pr))
                                    a pr)).
  - now rewrite fold_append_if.
  - intros a pr. unfold reviews_ok, pr_reviews, reviews_of.
    destruct (get_reviews g repo (pr_number pr)); reflexivity.
Qed.

Lemma daily_pending_review (open_prs : list PullRequest) :
  forallb (fun pr => reviews_ok g repo (pr_number pr)) open_prs = true ->
  PrDailyReport.pending_review g repo now open_prs
  = Some (filter (fun pr => pending_review_24h now pr (pr_reviews g repo pr))
                 open_prs).
Proof.
  intros Hok. unfold PrDailyReport.pending_review.
  rewrite (for_each_pure _
             (fun pr => negb (older_than now (pr_created_at pr) (24 * 3600))
                        || reviews_ok g repo (pr_number pr))
             (fun a pr => append_if (pending_review_24h now pr
                                       (pr_reviews g repo pr)) a pr)).
  - rewrite fold_append_if.
    replace (forallb _ open_prs) with true; [reflexivity|].
    symmetry. apply forallb_forall. intros pr Hpr.
    rewrite forallb_forall in Hok. rewrite (Hok pr Hpr). apply orb_true_r.
  - intros a pr. unfold pending_review_24h, reviews_ok, pr_reviews, reviews_of.
    destruct (older_than now (pr_created_at pr) (24 * 3600)); [|reflexivity].
    destruct (get_reviews g repo (pr_number pr)); reflexivity.
Qed.

End DailyLoops.

Lemma daily_main_closed {F} `{PyNum F} (g : Gateway) (repo : Repo)
    (recent : exc (list PullRequest))
    (set_order : list string -> list string) (now : Z) :
  (daily_calls_ok g repo recent = false ->
   PrDailyReport.main (F := F) g repo recent set_order now = None)
  /\ (daily_calls_ok g repo recent = true ->
      exists open_prs closed_prs recent_prs avg,
        fetch g repo = Some (open_prs, closed_prs)
        /\ recent = Some recent_prs
        /\ forallb (fun pr => reviews_ok g repo (pr_number pr)) open_prs = true
        /\ PrDaily.average_review_time
             (filter (merged_today now) closed_prs) = Some avg
        /\ PrDailyReport.main g repo recent set_order now
           = let raised_prs :=
               filter (raised_today now) (open_prs ++ closed_prs) in
             let merged_prs := filter (merged_today now) closed_prs in
             let cr := filter (fun pr => changes_requested
                                           (pr_reviews g repo pr)) open_prs in
             let na := filter (fun pr => not_approved (pr_reviews g repo pr))
                              open_prs in
             let members1 :=
               store_reviews_done
                 (count_all_reviewers g repo (map pr_number recent_prs))
                 (members_of raised_prs merged_prs cr na) in
             Some (PrDailyReport.mkReport raised_prs merged_prs cr na
                     (filter hotfix open_prs)
                     (filter (fun pr => pending_review_24h now pr
                                          (pr_reviews g repo pr)) open_prs)
                     (PrDailyReport.oldest_days_of now open_prs) avg members1
                     (sorted_desc (fun x => raised (snd x)) members1)
                     (List.length (filter (stuck now) open_prs))
                     (List.length (filter is_pending_release open_prs))
                     0%nat
                     (PrDailyReport.top_member raised members1)
                     (PrDailyReport.top_member reviews_done members1)
                     (PrDaily.owners_stale_prs set_order now open_prs)
                     (PrDaily.blocker_owners set_order open_prs))).
Proof.
  unfold daily_calls_ok, PrDailyReport.main, fetch.
  destruct (get_prs g repo StOpen) as [open_prs|]; [|split; [reflexivity|discriminate]].
  destruct (get_prs g repo StClosed) as [closed_prs|];
    [|split; [reflexivity|discriminate]].
  cbn [bind]. rewrite daily_changes_requested, daily_not_approved.
  destruct (forallb (fun pr => reviews_ok g repo (pr_number pr)) open_prs)
    eqn:Hok.
  - cbn [bind]. rewrite (daily_pending_review g repo now open_prs Hok).
    cbn [bind]. rewrite average_review_time_total. cbn [bind].
    destruct recent as [recent_prs|]; [|split; [reflexivity|discriminate]].
    cbn [bind andb]. unfold PrDaily.reviews_done_map.
    rewrite reviews_done_of_pure.
    destruct (forallb (reviews_ok g repo) (map pr_number recent_prs)).
    + split; [discriminate|]. intros _.
      eexists open_prs, closed_prs, recent_prs, _.
      repeat split; try reflexivity;
        [exact Hok | apply average_review_time_total].
    + split; [reflexivity|discriminate].
  - split; [|destruct recent; discriminate]. intros _. reflexivity.
Qed.

(** X11: [pr_daily_report.py] guards nothing: its run ends with a report
    exactly when both listings, the reviews of every open pull request,
    the request for the recent pull requests and the reviews of each of
    those come back; otherwise it raises. *)
Theorem daily_report_needs_every_call {F} `{PyNum F} (g : Gateway)
    (repo : Repo) (recent : exc (list PullRequest))
    (set_order : list string -> list string) (now : Z) :
  (exists d, PrDailyReport.main (F := F) g repo recent set_order now = Some d)
  <-> daily_calls_ok g repo recent = true.
Proof.
  destruct (daily_main_closed (F := F) g repo recent set_order now)
    as [Hno Hyes].
  destruct (daily_calls_ok g repo recent).
  - split; [reflexivity|]. intros _.
    destruct (Hyes eq_refl) as (o & c & rp & avg & _ & _ & _ & _ & Hmain).
    rewrite Hmain. eexists. reflexivity.
  - split; [|discriminate]. intros [d Hd]. rewrite (Hno eq_refl) in Hd.
    discriminate.
Qed.

(** X12: on one repository the single-repository script and a turn of
    the multi-repository loop agree: the lists of [pr_daily_report.py]
    have the lengths the turn adds to the totals, its stuck and
    pending-release counts are the turn's, and its oldest age is the age
    of the turn's oldest open date. *)
Theorem daily_report_agrees_with_one_turn {F} `{PyNum F} (g : Gateway)
    (repo : Repo) (recent : exc (list PullRequest))
    (set_order : list string -> list string) (now : Z)
    (d : PrDailyReport.Report F) (acc : Acc) :
  PrDailyReport.main g repo recent set_order now = Some d ->
  Snapshot.process_repo g now init_acc repo = Some acc
  \/ SendReport.process_repo g now init_acc repo = Some acc ->
  List.length (PrDailyReport.prs_raised_today d) = total_raised acc
  /\ List.length (PrDailyReport.prs_merged_today d) = total_merged acc
  /\ List.length (PrDailyReport.prs_with_changes_requested d)
     = total_changes_requested acc
  /\ List.length (PrDailyReport.prs_not_approved d) = total_not_approved acc
  /\ List.length (PrDailyReport.prs_hotfix d) = total_hotfix acc
  /\ List.length (PrDailyReport.prs_pending_review d) = total_pending_24h acc
  /\ PrDailyReport.pr_stuck d = pr_stuck acc
  /\ PrDailyReport.pending_release d = pending_release acc
  /\ PrDailyReport.oldest_days d
     = oldest_open_days_of now (oldest_open_date acc).
Proof.
  intros Hd Hturn.
  destruct (daily_main_closed (F := F) g repo recent set_order now)
    as [Hno Hyes].
  destruct (daily_calls_ok g repo recent);
    [|rewrite (Hno eq_refl) in Hd; discriminate].
  destruct (Hyes eq_refl) as (o & c & rp & avg & Hfetch & _ & _ & _ & Hmain).
  rewrite Hmain in Hd. cbv zeta in Hd. injection Hd as <-.
  rewrite send_process_repo, snapshot_process_repo in Hturn.
  destruct (repo_ok g now repo); [|destruct Hturn; discriminate].
  assert (Hacc : Some (combine init_acc (repo_aggregate g now repo))
                 = Some acc) by tauto.
  injection Hacc as <-. rewrite combine_init_l.
  unfold repo_aggregate. rewrite Hfetch.
  cbn [PrDailyReport.prs_raised_today PrDailyReport.prs_merged_today
       PrDailyReport.prs_with_changes_requested
       PrDailyReport.prs_not_approved PrDailyReport.prs_hotfix
       PrDailyReport.prs_pending_review PrDailyReport.pr_stuck
       PrDailyReport.pending_release PrDailyReport.oldest_days
       total_raised total_merged total_changes_requested total_not_approved
       total_hotfix total_pending_24h pr_stuck pending_release
       oldest_open_date].
  repeat split.
  unfold PrDailyReport.oldest_days_of, oldest_open_days_of, min_created.
  destruct o as [|pr rest]; [reflexivity|].
  now rewrite py_min_by_key.
Qed.

Lemma daily_report_agrees_example :
  exists d : PrDailyReport.Report float,
    PrDailyReport.main ex_gateway ex_api ex_recent first_seen_order ex_now
    = Some d
    /\ List.length (PrDailyReport.prs_raised_today d) = 2%nat
    /\ List.length (PrDailyReport.prs_merged_today d) = 1%nat
    /\ List.length (PrDailyReport.prs_with_changes_requested d) = 1%nat
    /\ List.length (PrDailyReport.prs_not_approved d) = 1%nat
    /\ List.length (PrDailyReport.prs_hotfix d) = 1%nat
    /\ List.length (PrDailyReport.prs_pending_review d) = 1%nat
    /\ PrDailyReport.pr_stuck d = 1%nat
    /\ PrDailyReport.pending_release d = 0%nat
    /\ PrDailyReport.oldest_days d = 9%Z.
Proof.
  eexists. split; [vm_compute; reflexivity|].
  exact (daily_report_agrees_with_one_turn ex_gateway ex_api ex_recent
           first_seen_order ex_now _ (vars ex_report) eq_refl
           (or_introl ex_process_api)).
Defined.

(* ================================================================== *)
(** ** The table of pr_daily_report.py *)

Section SortedDesc.
Context {A : Type}.
Variable key : A -> nat.

Lemma insert_desc_Permutation (x : A) (l : list A) :
  Permutation (insert_desc key x l) (x :: l).
Proof.
  induction l as [|y l IH]; simpl; [reflexivity|].
  destruct (key x <? key y)%nat; [|reflexivity].
  rewrite IH. apply perm_swap.
Qed.

Lemma sorted_desc_Permutation (l : list A) :
  Permutation (sorted_desc key l) l.
Proof.
  induction l as [|x l IH]; simpl; [reflexivity|].
  rewrite insert_desc_Permutation. now constructor.
Qed.

Lemma insert_desc_sorted (x : A) (l : list A) :
  StronglySorted (fun a b => key b <= key a)%nat l ->
  StronglySorted (fun a b => key b <= key a)%nat (insert_desc key x l).
Proof.
  induction 1 as [|y l Hl IH Hy]; simpl.
  - constructor; constructor.
  - destruct (Nat.ltb_spec (key x) (key y)) as [Hlt|Hge].
    + constructor; [exact IH|].
      rewrite Forall_forall. intros z Hz.
      apply (Permutation_in _ (insert_desc_Permutation x l)) in Hz.
      destruct Hz as [<-|Hz]; [lia|].
      rewrite Forall_forall in Hy. now apply Hy.
    + constructor; [constructor; assumption|].
      constructor; [exact Hge|].
      eapply Forall_impl; [|exact Hy]. intros z Hz. simpl in Hz. lia.
Qed.

Lemma sorted_desc_sorted (l : list A) :
  StronglySorted (fun a b => key b <= key a)%nat (sorted_desc key l).
Proof.
  induction l as [|x l IH]; simpl; [constructor|].
  now apply insert_desc_sorted.
Qed.

Lemma insert_desc_filter (k : nat) (x : A) (l : list A) :
  filter (fun y => key y =? k)%nat (insert_desc key x l)
  = filter (fun y => key y =? k)%nat (x :: l).
Proof.
  induction l as [|y l IH]; [reflexivity|].
  cbn [insert_desc]. destruct (Nat.ltb_spec (key x) (key y)) as [Hlt|Hge];
    [|reflexivity].
  cbn [filter] in *. rewrite IH.
  destruct (Nat.eqb_spec (key x) k) as [Ex|Nx];
    destruct (Nat.eqb_spec (key y) k) as [Ey|Ny]; try reflexivity.
  lia.
Qed.

Lemma sorted_desc_stable (l : list A) :
  same_order_within_keys key (sorted_desc key l) l.
Proof.
  intros k. induction l as [|x l IH]; [reflexivity|].
  cbn [sorted_desc fold_right]. fold (sorted_desc key l).
  rewrite insert_desc_filter. cbn [filter]. now rewrite IH.
Qed.

End SortedDesc.

(** X13: the table [pr_daily_report.py] prints has the rows of the
    member map, each once, in decreasing order of [raised]; members with
    the same [raised] stay in the order in which they entered the
    map. *)
Theorem daily_table_sorted_by_raised {F} `{PyNum F} (g : Gateway)
    (repo : Repo) (recent : exc (list PullRequest))
    (set_order : list string -> list string) (now : Z)
    (d : PrDailyReport.Report F) :
  PrDailyReport.main g repo recent set_order now = Some d ->
  Permutation (PrDailyReport.table d) (PrDailyReport.members d)
  /\ NoDup (map fst (PrDailyReport.table d))
  /\ StronglySorted (fun a b => raised (snd b) <= raised (snd a))%nat
                    (PrDailyReport.table d)
  /\ same_order_within_keys (fun x => raised (snd x))
                            (PrDailyReport.table d) (PrDailyReport.members d).
Proof.
  intros Hd.
  destruct (daily_main_closed (F := F) g repo recent set_order now)
    as [Hno Hyes].
  destruct (daily_calls_ok g repo recent);
    [|rewrite (Hno eq_refl) in Hd; discriminate].
  destruct (Hyes eq_refl) as (o & c & rp & avg & _ & _ & _ & _ & Hmain).
  rewrite Hmain in Hd. cbv zeta in Hd. injection Hd as <-.
  cbn [PrDailyReport.table PrDailyReport.members].
  split; [apply sorted_desc_Permutation|]. split; [|split].
  - apply (Permutation_NoDup
             (Permutation_map fst
                (Permutation_sym (sorted_desc_Permutation _ _)))).
    apply store_reviews_done_NoDup, members_of_NoDup.
  - apply (sorted_desc_sorted (fun x : string * Stats => raised (snd x))).
  - apply sorted_desc_stable.
Qed.

Lemma daily_table_example :
  exists d : PrDailyReport.Report float,
    PrDailyReport.main ex_gateway ex_api ex_recent first_seen_order ex_now
    = Some d
    /\ map fst (PrDailyReport.members d) = ["carol"; "bob"; "alice"]
    /\ map fst (PrDailyReport.table d) = ["carol"; "bob"; "alice"]
    /\ StronglySorted (fun a b => raised (snd b) <= raised (snd a))%nat
                      (PrDailyReport.table d).
Proof.
  eexists. split; [vm_compute; reflexivity|].
  split; [reflexivity|]. split; [reflexivity|].
  exact (proj1 (proj2 (proj2
           (daily_table_sorted_by_raised ex_gateway ex_api ex_recent
              first_seen_order ex_now _ eq_refl)))).
Defined.

Lemma stored_members_fields (g : Gateway) (repo : Repo) (ids : list Z)
    (rs ms cs ns : list PullRequest) (u : string) (s : Stats) :
  In (u, s) (store_reviews_done (count_all_reviewers g repo ids)
                                (members_of rs ms cs ns)) ->
  raised s = authored u rs /\ merged s = authored u ms
  /\ st_changes_requested s = authored u cs
  /\ st_not_approved s = authored u ns
  /\ reviews_done s = reviews_on g repo u ids.
Proof.
  intros Hin.
  apply (dict_In_get u s _
           (store_reviews_done_NoDup _ _ (members_of_NoDup rs ms cs ns)))
    in Hin.
  destruct (count_all_reviewers_get g repo u ids) as [Hnd Hget].
  rewrite (store_reviews_done_get u _ Hnd), Hget in Hin.
  destruct (members_of_fields u rs ms cs ns) as (Hr & Hm & Hc & Hn & Hd).
  destruct (reviews_on g repo u ids) as [|c] eqn:E.
  - unfold dict_get_or in Hr, Hm, Hc, Hn, Hd. rewrite Hin in *.
    repeat split; assumption.
  - injection Hin as <-. simpl. repeat split; assumption.
Qed.

(** X14: in the member map of [pr_daily_report.py] the four counters of
    a member are the numbers of pull requests the member authored in the
    four lists of the report, and [reviews_done] is the number of reviews
    the member has on the recent pull requests (the first page of every
    state), whatever their dates. *)
Theorem daily_member_counters {F} `{PyNum F} (g : Gateway) (repo : Repo)
    (recent_prs : list PullRequest)
    (set_order : list string -> list string) (now : Z)
    (d : PrDailyReport.Report F) (u : string) (s : Stats) :
  PrDailyReport.main g repo (Some recent_prs) set_order now = Some d ->
  In (u, s) (PrDailyReport.members d) ->
  raised s = authored u (PrDailyReport.prs_raised_today d)
  /\ merged s = authored u (PrDailyReport.prs_merged_today d)
  /\ st_changes_requested s
     = authored u (PrDailyReport.prs_with_changes_requested d)
  /\ st_not_approved s = authored u (PrDailyReport.prs_not_approved d)
  /\ reviews_done s = reviews_on g repo u (map pr_number recent_prs).
Proof.
  intros Hd.
  destruct (daily_main_closed (F := F) g repo (Some recent_prs) set_order now)
    as [Hno Hyes].
  destruct (daily_calls_ok g repo (Some recent_prs));
    [|rewrite (Hno eq_refl) in Hd; discriminate].
  destruct (Hyes eq_refl) as (o & c & rp & avg & _ & Hrp & _ & _ & Hmain).
  injection Hrp as <-.
  rewrite Hmain in Hd. cbv zeta in Hd. injection Hd as <-.
  cbn [PrDailyReport.members PrDailyReport.prs_raised_today
       PrDailyReport.prs_merged_today
       PrDailyReport.prs_with_changes_requested
       PrDailyReport.prs_not_approved].
  apply stored_members_fields.
Qed.

Lemma daily_member_counters_example :
  exists d : PrDailyReport.Report float,
    PrDailyReport.main ex_gateway ex_api ex_recent first_seen_order ex_now
    = Some d
    /\ In ("alice", mkStats 0 0 0 0 3) (PrDailyReport.members d)
    /\ reviews_on ex_gateway ex_api "alice" [1; 2; 3]%Z = 3%nat.
Proof.
  eexists. split; [vm_compute; reflexivity|].
  split; [right; right; left; reflexivity|].
  symmetry.
  exact (proj2 (proj2 (proj2 (proj2
           (daily_member_counters ex_gateway ex_api
              [ex_pr1; ex_pr2; ex_pr3] first_seen_order ex_now _
              "alice" (mkStats 0 0 0 0 3) eq_refl
              (or_intror (or_intror (or_introl eq_refl)))))))).
Defined.

(* ================================================================== *)
(** ** How the totals bound each other *)

Lemma count_where_le {A} (f h : A -> bool) (l : list A) :
  (forall x, f x = true -> h x = true) ->
  (count_where f l <= count_where h l)%nat.
Proof.
  intros Himp. unfold count_where.
  induction l as [|x l IH]; simpl; [lia|].
  destruct (f x) eqn:Ef.
  - rewrite (Himp x Ef). simpl. lia.
  - destruct (h x); simpl; lia.
Qed.

Lemma count_where_disjoint {A} (f h : A -> bool) (l : list A) :
  (forall x, f x = true -> h x = false) ->
  (count_where f l + count_where h l <= List.length l)%nat.
Proof.
  intros Hdis. unfold count_where.
  induction l as [|x l IH]; simpl; [lia|].
  destruct (f x) eqn:Ef.
  - rewrite (Hdis x Ef). simpl. lia.
  - destruct (h x); simpl; lia.
Qed.

Lemma pending_review_unreviewed (now : Z) (pr : PullRequest)
    (reviews : list Review) :
  pending_review_24h now pr reviews = true ->
  not_approved reviews = true /\ changes_requested reviews = false.
Proof.
  unfold pending_review_24h. rewrite andb_true_iff.
  intros [_ Hlen]. apply Nat.eqb_eq in Hlen.
  destruct reviews; [split; reflexivity | discriminate].
Qed.

(** X15: in every report of the multi-repository scripts the pull
    requests pending review are among the not-approved ones and apart
    from the changes-requested ones: the pending total is at most the
    not-approved total, and pending plus changes-requested, like every
    single total over the open pull requests, is at most the number of
    open pull requests of the listed repositories. *)
Theorem totals_bound_each_other {F} `{PyNum F} (g : Gateway) (now : Z)
    (repos : list Repo) (r : Report F) :
  get_all_repos g = Some repos ->
  Snapshot.main g now = Reported r \/ SendReport.main g now = Reported r ->
  (total_pending_24h (vars r) <= total_not_approved (vars r))%nat
  /\ (total_pending_24h (vars r) + total_changes_requested (vars r)
      <= List.length (listed_open g repos))%nat
  /\ (total_not_approved (vars r) <= List.length (listed_open g repos))%nat
  /\ (pr_stuck (vars r) <= List.length (listed_open g repos))%nat
  /\ (total_merged (vars r) <= List.length (listed_closed g repos))%nat
  /\ (total_raised (vars r)
      <= List.length (listed_open g repos)
         + List.length (listed_closed g repos))%nat.
Proof.
  intros Hrepos Hmain.
  destruct (main_reported g now r Hmain) as (repos' & Hr' & _ & Hloop & _).
  assert (repos' = repos) by congruence. subst repos'.
  rewrite (main_loop_reduce g now repos _ Hloop).
  destruct (reduce_totals g now repos)
    as (Hra & Hme & Hcr & Hna & _ & Hpe & Hst & _).
  cbv zeta in *. rewrite Hra, Hme, Hcr, Hna, Hpe, Hst.
  assert (Hlen : forall A (f : A -> bool) l,
            (count_where f l <= List.length l)%nat).
  { intros A f l. unfold count_where. apply filter_length_le. }
  split; [|split; [|split; [|split; [|split]]]].
  - apply count_where_le. intros [repo pr] Hp.
    exact (proj1 (pending_review_unreviewed now pr _ Hp)).
  - apply count_where_disjoint. intros [repo pr] Hp.
    exact (proj2 (pending_review_unreviewed now pr _ Hp)).
  - apply Hlen.
  - apply Hlen.
  - apply Hlen.
  - pose proof (Hlen _ (fun rp => raised_today now (snd rp))
                  (listed_open g repos)).
    pose proof (Hlen _ (fun rp => raised_today now (snd rp))
                  (listed_closed g repos)).
    lia.
Qed.

Lemma totals_bound_example :
  (total_pending_24h (vars ex_report) <= total_not_approved (vars ex_report))%nat
  /\ (total_pending_24h (vars ex_report)
      + total_changes_requested (vars ex_report) <= 2)%nat.
Proof.
  destruct (totals_bound_each_other ex_gateway ex_now [ex_api; ex_web]
              ex_report eq_refl (or_introl ex_snapshot_main))
    as (H1 & H2 & _).
  split; [exact H1 | exact H2].
Defined.

(* ================================================================== *)
(** ** Failed listings and failed review lookups *)




Lemma listed_open_retrieved (g : Gateway) (repos : list Repo) :
  listed_open g (filter (retrieved g) repos) = listed_open g repos.
Proof.
  unfold listed_open. induction repos as [|repo repos IH]; [reflexivity|].
  cbn [filter]. unfold retrieved at 1.
  destruct (fetch g repo) as [[o c]|] eqn:E; cbn [flat_map]; rewrite ?E, IH;
    reflexivity.
Qed.




(* ================================================================== *)
(** ** The average in binary64 *)





